(** * AlgoBlocks: the strategy evaluation pipeline and the paper-trading service

    A shallow embedding of
      - server/src/helpers/indicatorHelpers.js  (indicator engine),
      - server/src/helpers/conditionHelpers.js  (condition evaluator),
      - server/src/helpers/actionHelpers.js     (action generator),
      - server/src/services/paperTradingService.js (portfolio simulator and
        session manager) and the update route of paperTradingController.js.

    Numbers.  JavaScript numbers are IEEE doubles; they are embedded as exact
    rationals [Q], so no rounding happens in the model.  [Math.floor] is
    [Qfloor].  A number that may be [undefined] or [NaN] where the code only
    tests its truthiness is an [option Q].  The model and the doubles part
    in two places.  Rounding: an identity of the rationals such as
    [(c - x) + x == c] need not hold of the doubles, so where rounding
    matters the results below give the expression the code evaluates, or an
    order between values that rounding keeps.  Division by zero: [x / 0] is [0]
    in [Q] where the code gets [NaN] or an infinity; the code divides by a
    number that can be zero in [buy], when the shares held and bought add up
    to zero, and in [updateMetrics], when the initial capital is zero.

    Time.  Every [new Date()] / [Date.now()] of one service call reads the
    clock argument [now] of that call. *)

From Stdlib Require Import QArith Qround Qabs ZArith Ascii String List Bool Lia Lqa.
From stdpp Require Import gmap strings list pretty.
Import ListNotations.

Local Open Scope string_scope.
Local Open Scope list_scope.
Local Open Scope Q_scope.

(** ** Numbers *)

Module Num.

Definition lt (x y : Q) : bool := negb (Qle_bool y x).
Definition le (x y : Q) : bool := Qle_bool x y.
Definition gt (x y : Q) : bool := lt y x.
Definition ge (x y : Q) : bool := le y x.
Definition eq (x y : Q) : bool := Qeq_bool x y.

(** [!x] for a number: only zero is falsy ([NaN] is not a [Q]). *)
Definition falsy (x : Q) : bool := Qeq_bool x 0.

(** [x || d] where [x] may be undefined. *)
Definition or_else (x : option Q) (d : Q) : Q :=
  match x with
  | Some v => if falsy v then d else v
  | None => d
  end.

(** Truthiness of a possibly undefined number. *)
Definition truthy (x : option Q) : bool :=
  match x with
  | Some v => negb (falsy v)
  | None => false
  end.

Definition of_nat (n : nat) : Q := inject_Z (Z.of_nat n).

Definition abs (x : Q) : Q := Qabs x.
Definition min (x y : Q) : Q := if le x y then x else y.
Definition max (x y : Q) : Q := if le x y then y else x.

(** [Math.floor]. *)
Definition floor (x : Q) : Q := inject_Z (Qfloor x).

(** The first digit of a whole number [n >= 1]. *)
Fixpoint leading_digit_of_whole (fuel : nat) (n : Z) : Z :=
  match fuel with
  | O => n
  | S fuel => if (n <? 10)%Z then n else leading_digit_of_whole fuel (n / 10)%Z
  end.

(** The first significant digit of [0 < a < 1]. *)
Fixpoint leading_digit_of_fraction (fuel : nat) (a : Q) : Z :=
  match fuel with
  | O => Qfloor a
  | S fuel => if le 1 a then Qfloor a else leading_digit_of_fraction fuel (a * 10)
  end.

(** The first significant digit of [a > 0]. *)
Definition leading_digit (a : Q) : Z :=
  if le 1 a
  then leading_digit_of_whole (S (Z.to_nat (Z.log2 (Qfloor a)))) (Qfloor a)
  else leading_digit_of_fraction (S (Z.to_nat (Z.log2 (Zpos (Qden a))))) a.

(** [parseInt(x, 10)] of a number reads the digits at the head of the
    number's string.  From 0.000001 up to, but not including, 10^21 the
    string is in decimal notation and the digits are those before the
    decimal point; a smaller or larger magnitude is printed with an exponent,
    as in 5e-7 or 1.5e+21, and the digits read are its first significant
    digit. *)
Definition parseInt (x : Q) : Q :=
  let a := Qabs x in
  if falsy x then 0
  else if lt a (1 # 1000000) || le (inject_Z (10 ^ 21)) a then
    if le 0 x then inject_Z (leading_digit a) else inject_Z (- leading_digit a)
  else if le 0 x then inject_Z (Qfloor x) else inject_Z (Qceiling x).

End Num.

(** ** Values of free-form settings and indicator results *)

(** The JavaScript values that flow through block settings, candles and
    indicator results.  An object is kept as its list of numeric fields. *)
Inductive jsval :=
| JUndefined
| JNumber (q : Q)
| JNaN
| JString (s : string)
| JObject (fields : list (string * option Q)).

(** Built-ins of the JavaScript engine that have no exact counterpart on
    [Q] or that parse and print numbers.  [None] stands for [NaN]. *)
Class Engine := {
  Math_sqrt : Q -> Q;
  parseFloat_string : string -> option Q;
  ToNumber_string : string -> option Q;
  Number_toString : Q -> string
}.

Definition of_jsnum (x : option Q) : jsval :=
  match x with
  | Some q => JNumber q
  | None => JNaN
  end.

Section Values.
Context {E : Engine}.

(** [parseFloat(v)]. *)
Definition parseFloat (v : jsval) : jsval :=
  match v with
  | JNumber q => JNumber q
  | JString s => of_jsnum (parseFloat_string s)
  | _ => JNaN
  end.

(** [ToPrimitive] with hint number: an object prints as
    ["[object Object]"]. *)
Definition ToPrimitive (v : jsval) : jsval :=
  match v with
  | JObject _ => JString "[object Object]"
  | _ => v
  end.

(** [ToNumber] of a primitive. *)
Definition ToNumber (v : jsval) : option Q :=
  match v with
  | JNumber q => Some q
  | JString s => ToNumber_string s
  | _ => None
  end.

(** A property key: [ToString] of the value used between brackets. *)
Definition ToPropertyKey (v : jsval) : string :=
  match v with
  | JUndefined => "undefined"
  | JNumber q => Number_toString q
  | JNaN => "NaN"
  | JString s => s
  | JObject _ => "[object Object]"
  end.

(** Relational comparison [a < b]: two strings compare as strings, any
    other pair compares as numbers, and [NaN] compares false. *)
Definition js_lt (a b : jsval) : bool :=
  match ToPrimitive a, ToPrimitive b with
  | JString s, JString t => String.ltb s t
  | pa, pb =>
      match ToNumber pa, ToNumber pb with
      | Some x, Some y => Num.lt x y
      | _, _ => false
      end
  end.

Definition js_le (a b : jsval) : bool :=
  match ToPrimitive a, ToPrimitive b with
  | JString s, JString t => String.leb s t
  | pa, pb =>
      match ToNumber pa, ToNumber pb with
      | Some x, Some y => Num.le x y
      | _, _ => false
      end
  end.

Definition js_gt (a b : jsval) : bool := js_lt b a.
Definition js_ge (a b : jsval) : bool := js_le b a.

(** Strict equality [a === b]; two objects met here are never the same
    reference. *)
Definition js_strict_eq (a b : jsval) : bool :=
  match a, b with
  | JUndefined, JUndefined => true
  | JNumber x, JNumber y => Num.eq x y
  | JString s, JString t => String.eqb s t
  | _, _ => false
  end.

Definition is_undefined (v : jsval) : bool :=
  match v with
  | JUndefined => true
  | _ => false
  end.

End Values.

(** ** Exceptions *)

Inductive exn :=
| NoHistoricalData (symbol : option string)
| NotEnoughData (indicator : string) (period : nat)
| UnknownIndicatorType (subtype : string)
| UnknownConditionType (subtype : string)
| TypeError
| StrategyNotFound
| NotAuthorizedStrategy
| SessionNotFound
| NotAuthorizedAccess
| NotAuthorizedStop
| NotAuthorizedDelete.

Inductive result (A : Type) :=
| Ok (a : A)
| Throw (e : exn).
Arguments Ok {A} a.
Arguments Throw {A} e.

Definition bind {A B} (r : result A) (k : A -> result B) : result B :=
  match r with
  | Ok a => k a
  | Throw e => Throw e
  end.

Notation "'let*' x ':=' r 'in' k" := (bind r (fun x => k))
  (at level 10, x pattern, r at level 100, k at level 200).

(** ** Market data *)

Definition Time := Z.

Module Candle.
Record t := {
  time : string;
  open : Q;
  high : Q;
  low : Q;
  close : Q;
  volume : Q
}.
End Candle.

Module PriceData.
Record t := {
  price : option Q;
  timestamp : string;
  history : option (list Candle.t)
}.
End PriceData.

(** [marketData] is an object keyed by symbol; the order of its keys is
    observable through [Object.keys], and the list holds them in that
    order: the keys that are array indices first, in ascending order, then
    the other keys in the order they were added. *)
Definition MarketData := list (string * PriceData.t).

Fixpoint md_get (md : MarketData) (symbol : string) : option PriceData.t :=
  match md with
  | [] => None
  | (k, v) :: rest => if String.eqb k symbol then Some v else md_get rest symbol
  end.

Definition md_first_key (md : MarketData) : option string :=
  match md with
  | [] => None
  | (k, _) :: _ => Some k
  end.

(** The value of a string of decimal digits. *)
Fixpoint digits_value (s : string) (acc : N) : option N :=
  match s with
  | EmptyString => Some acc
  | String c rest =>
      let n := N_of_ascii c in
      if ((48 <=? n) && (n <=? 57))%N
      then digits_value rest (10 * acc + (n - 48))%N
      else None
  end.

(** A key is an array index when it is the decimal string, without leading
    zero, of a whole number below 2^32 - 1. *)
Definition array_index (key : string) : option N :=
  match key with
  | EmptyString => None
  | String c rest =>
      if Ascii.eqb c "0"%char && negb (String.eqb rest EmptyString) then None
      else
        match digits_value key 0 with
        | Some n => if (n <? 4294967295)%N then Some n else None
        | None => None
        end
  end.

(** Whether a new key is enumerated before the existing key [k]. *)
Definition enumerated_before (key k : string) : bool :=
  match array_index key, array_index k with
  | Some n, Some m => (n <? m)%N
  | Some _, None => true
  | None, _ => false
  end.

(** Assignment to an existing key keeps the key where it is. *)
Fixpoint md_replace (md : MarketData) (symbol : string) (d : PriceData.t)
    : MarketData :=
  match md with
  | [] => []
  | (k, v) :: rest =>
      if String.eqb k symbol then (k, d) :: rest
      else (k, v) :: md_replace rest symbol d
  end.

(** A new key goes where [Object.keys] enumerates it. *)
Fixpoint md_insert (md : MarketData) (symbol : string) (d : PriceData.t)
    : MarketData :=
  match md with
  | [] => [(symbol, d)]
  | (k, v) :: rest =>
      if enumerated_before symbol k then (symbol, d) :: (k, v) :: rest
      else (k, v) :: md_insert rest symbol d
  end.

(** [marketData[symbol] = data]. *)
Definition md_set (md : MarketData) (symbol : string) (d : PriceData.t) : MarketData :=
  match md_get md symbol with
  | Some _ => md_replace md symbol d
  | None => md_insert md symbol d
  end.

(** [symbolData && symbolData.price]: the price when it is usable. *)
Definition md_price (md : MarketData) (symbol : string) : option Q :=
  match md_get md symbol with
  | Some d => if Num.truthy (PriceData.price d) then PriceData.price d else None
  | None => None
  end.

(** The numeric candle fields an indicator can be computed on. *)
Inductive PriceField := FOpen | FHigh | FLow | FClose | FVolume.

Definition candle_field (f : PriceField) (c : Candle.t) : Q :=
  match f with
  | FOpen => Candle.open c
  | FHigh => Candle.high c
  | FLow => Candle.low c
  | FClose => Candle.close c
  | FVolume => Candle.volume c
  end.

(** [candle[field]] for a field named by a string. *)
Definition candle_get (c : Candle.t) (field : option string) : jsval :=
  match field with
  | Some "time" => JString (Candle.time c)
  | Some "open" => JNumber (Candle.open c)
  | Some "high" => JNumber (Candle.high c)
  | Some "low" => JNumber (Candle.low c)
  | Some "close" => JNumber (Candle.close c)
  | Some "volume" => JNumber (Candle.volume c)
  | _ => JUndefined
  end.

(** ** Arrays *)

(** [a.slice(b, e)] for [0 <= b <= e]. *)
Definition slice {A} (a : list A) (b e : nat) : list A :=
  firstn (e - b) (skipn b a).

(** [a.reduce((s, x) => s + x, 0)]. *)
Definition sum (a : list Q) : Q := fold_left Qplus a 0.

(** [a[a.length - k]] for [k >= 1]: undefined when the index is negative. *)
Definition from_end {A} (a : list A) (k : nat) : option A :=
  if (length a <? k)%nat then None else nth_error a (length a - k).

(** [for (let i = from; i < to; i++) body], threading the loop state. *)
Definition for_range {S} (from to : nat) (body : nat -> S -> S) (s : S) : S :=
  fold_left (fun st i => body i st) (seq from (to - from)) s.

Definition nth_num (a : list Q) (i : nat) : Q := nth i a 0.

(** [a[a.length - 1]] of a numeric array, as a JavaScript value. *)
Definition last_value (a : list Q) : jsval :=
  match from_end a 1 with
  | Some v => JNumber v
  | None => JUndefined
  end.

(** [n || d] for a whole number setting. *)
Definition nat_or (n : option nat) (d : nat) : nat :=
  match n with
  | Some (S k) => S k
  | _ => d
  end.

(** [s || d] for a string setting: the empty string is falsy. *)
Definition string_truthy (s : option string) : option string :=
  match s with
  | Some EmptyString => None
  | _ => s
  end.

(** ** Strategy blocks *)

Module Settings.
(** The free-form settings object of a block, one field per key that the
    helpers read.  Window lengths are whole numbers. *)
Record t := {
  symbol : option string;
  (* indicators *)
  period : option nat;
  priceField : option PriceField;
  overbought : option Q;
  oversold : option Q;
  fastPeriod : option nat;
  slowPeriod : option nat;
  signalPeriod : option nat;
  deviations : option Q;
  (* conditions *)
  direction : option string;
  source1Type : option string;
  source2Type : option string;
  source1 : jsval;
  source2 : jsval;
  sourceType : option string;
  source : jsval;
  operator : option string;
  value : jsval;
  patternType : option string;
  lookbackPeriod : option nat;
  (* actions *)
  orderType : option string;
  quantity : option Q;
  price : option Q;
  riskLevel : option Q;
  percentage : option Q;
  type : option string;
  trailingType : option string;
  trailingValue : option Q
}.

(** The empty object [{}]. *)
Definition empty : t :=
  {| symbol := None; period := None; priceField := None; overbought := None;
     oversold := None; fastPeriod := None; slowPeriod := None;
     signalPeriod := None; deviations := None; direction := None;
     source1Type := None; source2Type := None; source1 := JUndefined;
     source2 := JUndefined; sourceType := None; source := JUndefined;
     operator := None; value := JUndefined; patternType := None;
     lookbackPeriod := None; orderType := None; quantity := None;
     price := None; riskLevel := None; percentage := None; type := None;
     trailingType := None; trailingValue := None |}.

(** The literal [{ period, priceField }]. *)
Definition of_period (p : nat) (f : PriceField) : t :=
  {| symbol := None; period := Some p; priceField := Some f;
     overbought := None; oversold := None; fastPeriod := None;
     slowPeriod := None; signalPeriod := None; deviations := None;
     direction := None; source1Type := None; source2Type := None;
     source1 := JUndefined; source2 := JUndefined; sourceType := None;
     source := JUndefined; operator := None; value := JUndefined;
     patternType := None; lookbackPeriod := None; orderType := None;
     quantity := None; price := None; riskLevel := None; percentage := None;
     type := None; trailingType := None; trailingValue := None |}.
End Settings.

Module Block.
Record t := {
  id : option string;
  type : string;
  subtype : string;
  settings : Settings.t;
  position : Q
}.
End Block.

(** ** Indicator engine (helpers/indicatorHelpers.js) *)

Module IndicatorResult.
(** [history] is an array for the single-series indicators and an object
    of arrays for MACD and the Bollinger bands. *)
Inductive hist :=
| Series (h : list Q)
| Lines (h : list (string * list Q)).

Record t := {
  value : jsval;
  history : hist;
  period : option nat;
  timestamp : string;
  overbought : option Q;
  oversold : option Q;
  settings : list (string * Q)
}.
End IndicatorResult.

Definition series_result (values : list Q) (period : nat) (ts : string)
    (ob os : option Q) : IndicatorResult.t :=
  {| IndicatorResult.value := last_value values;
     IndicatorResult.history := IndicatorResult.Series values;
     IndicatorResult.period := Some period;
     IndicatorResult.timestamp := ts;
     IndicatorResult.overbought := ob;
     IndicatorResult.oversold := os;
     IndicatorResult.settings := [] |}.

(** [priceData.history.map((candle) => candle[priceField])]; reading
    [.map] of a missing history is a TypeError. *)
Definition prices_of (priceData : PriceData.t) (priceField : PriceField)
    : result (list Q) :=
  match PriceData.history priceData with
  | Some h => Ok (map (candle_field priceField) h)
  | None => Throw TypeError
  end.

Definition calculateSMA (priceData : PriceData.t) (settings : Settings.t)
    : result IndicatorResult.t :=
  let period := nat_or (Settings.period settings) 14 in
  let priceField := default FClose (Settings.priceField settings) in
  let* prices := prices_of priceData priceField in
  if (length prices <? period)%nat then Throw (NotEnoughData "SMA" period)
  else
    let smaValues :=
      for_range (period - 1) (length prices)
        (fun i smaValues =>
           (* i - period + 1 is never negative here *)
           let slice := slice prices (i + 1 - period) (i + 1) in
           let sum := sum slice in
           smaValues ++ [sum / Num.of_nat period])
        [] in
    Ok (series_result smaValues period (PriceData.timestamp priceData) None None).

(** The seed-then-smooth loop shared by [calculateEMA] and the signal line
    of [calculateMACD]. *)
Definition ema_values (xs : list Q) (period : nat) : list Q :=
  let multiplier := 2 / (Num.of_nat period + 1) in
  let initialSMA := sum (slice xs 0 period) / Num.of_nat period in
  for_range period (length xs)
    (fun i emaValues =>
       let prev := List.last emaValues 0 in
       let ema := (nth_num xs i - prev) * multiplier + prev in
       emaValues ++ [ema])
    [initialSMA].

Definition calculateEMA (priceData : PriceData.t) (settings : Settings.t)
    : result IndicatorResult.t :=
  let period := nat_or (Settings.period settings) 12 in
  let priceField := default FClose (Settings.priceField settings) in
  let* prices := prices_of priceData priceField in
  if (length prices <? period)%nat then Throw (NotEnoughData "EMA" period)
  else
    let emaValues := ema_values prices period in
    Ok (series_result emaValues period (PriceData.timestamp priceData) None None).

Definition rsi_of (avgGain avgLoss : Q) : Q :=
  let rs := avgGain / (if Num.eq avgLoss 0 then 1 # 1000 else avgLoss) in
  100 - 100 / (1 + rs).

Definition calculateRSI (priceData : PriceData.t) (settings : Settings.t)
    : result IndicatorResult.t :=
  let period := nat_or (Settings.period settings) 14 in
  let priceField := default FClose (Settings.priceField settings) in
  let* prices := prices_of priceData priceField in
  if (length prices <? period + 1)%nat then Throw (NotEnoughData "RSI" period)
  else
    let changes :=
      for_range 1 (length prices)
        (fun i changes => changes ++ [nth_num prices i - nth_num prices (i - 1)])
        [] in
    let gains := map (fun change => if Num.gt change 0 then change else 0) changes in
    let losses :=
      map (fun change => if Num.lt change 0 then Num.abs change else 0) changes in
    let avgGain := sum (slice gains 0 period) / Num.of_nat period in
    let avgLoss := sum (slice losses 0 period) / Num.of_nat period in
    let '(_, _, rsiValues) :=
      for_range period (length changes)
        (fun i '(avgGain, avgLoss, rsiValues) =>
           let avgGain :=
             (avgGain * (Num.of_nat period - 1) + nth_num gains i) / Num.of_nat period in
           let avgLoss :=
             (avgLoss * (Num.of_nat period - 1) + nth_num losses i) / Num.of_nat period in
           (avgGain, avgLoss, rsiValues ++ [rsi_of avgGain avgLoss]))
        (avgGain, avgLoss, [rsi_of avgGain avgLoss]) in
    Ok (series_result rsiValues period (PriceData.timestamp priceData)
          (Some (Num.or_else (Settings.overbought settings) 70))
          (Some (Num.or_else (Settings.oversold settings) 30))).

Definition series_of (r : IndicatorResult.t) : list Q :=
  match IndicatorResult.history r with
  | IndicatorResult.Series h => h
  | IndicatorResult.Lines _ => []
  end.

(** [for (i = 0; i < a.length && i < b.length; i++) out.push(a[i] - b[i])] *)
Definition diff_lines (a b : list Q) : list Q :=
  for_range 0 (Nat.min (length a) (length b))
    (fun i out => out ++ [nth_num a i - nth_num b i]) [].

Definition calculateMACD (priceData : PriceData.t) (settings : Settings.t)
    : result IndicatorResult.t :=
  let fastPeriod := nat_or (Settings.fastPeriod settings) 12 in
  let slowPeriod := nat_or (Settings.slowPeriod settings) 26 in
  let signalPeriod := nat_or (Settings.signalPeriod settings) 9 in
  let priceField := default FClose (Settings.priceField settings) in
  let* prices := prices_of priceData priceField in
  if (length prices <? slowPeriod + signalPeriod)%nat
  then Throw (NotEnoughData "MACD" slowPeriod)
  else
    let* fastEMA := calculateEMA priceData (Settings.of_period fastPeriod priceField) in
    let* slowEMA := calculateEMA priceData (Settings.of_period slowPeriod priceField) in
    let macdLine := diff_lines (series_of fastEMA) (series_of slowEMA) in
    let signalLine :=
      if (signalPeriod <=? length macdLine)%nat
      then ema_values macdLine signalPeriod
      else [] in
    let histogram := diff_lines macdLine signalLine in
    Ok {| IndicatorResult.value :=
            JObject [("macd", from_end macdLine 1);
                     ("signal", from_end signalLine 1);
                     ("histogram", from_end histogram 1)];
          IndicatorResult.history :=
            IndicatorResult.Lines
              [("macd", macdLine); ("signal", signalLine); ("histogram", histogram)];
          IndicatorResult.period := None;
          IndicatorResult.timestamp := PriceData.timestamp priceData;
          IndicatorResult.overbought := None;
          IndicatorResult.oversold := None;
          IndicatorResult.settings :=
            [("fastPeriod", Num.of_nat fastPeriod);
             ("slowPeriod", Num.of_nat slowPeriod);
             ("signalPeriod", Num.of_nat signalPeriod)] |}.

Section Indicators.
Context {E : Engine}.

Definition calculateBollingerBands (priceData : PriceData.t) (settings : Settings.t)
    : result IndicatorResult.t :=
  let period := nat_or (Settings.period settings) 20 in
  let deviations := Num.or_else (Settings.deviations settings) 2 in
  let priceField := default FClose (Settings.priceField settings) in
  let* prices := prices_of priceData priceField in
  if (length prices <? period)%nat then Throw (NotEnoughData "Bollinger Bands" period)
  else
    let* sma := calculateSMA priceData (Settings.of_period period priceField) in
    let '(upperBand, lowerBand) :=
      for_range (period - 1) (length prices)
        (fun i '(upperBand, lowerBand) =>
           let slice := slice prices (i + 1 - period) (i + 1) in
           let mean := nth_num (series_of sma) (i - (period - 1)) in
           let variance :=
             fold_left (fun sum price => sum + (price - mean) * (price - mean)) slice 0
             / Num.of_nat period in
           let stdDev := Math_sqrt variance in
           (upperBand ++ [mean + deviations * stdDev],
            lowerBand ++ [mean - deviations * stdDev]))
        ([], []) in
    Ok {| IndicatorResult.value :=
            JObject [("middle", from_end (series_of sma) 1);
                     ("upper", from_end upperBand 1);
                     ("lower", from_end lowerBand 1)];
          IndicatorResult.history :=
            IndicatorResult.Lines
              [("middle", series_of sma); ("upper", upperBand); ("lower", lowerBand)];
          IndicatorResult.period := None;
          IndicatorResult.timestamp := PriceData.timestamp priceData;
          IndicatorResult.overbought := None;
          IndicatorResult.oversold := None;
          IndicatorResult.settings :=
            [("period", Num.of_nat period); ("deviations", deviations)] |}.

Definition applyIndicator (block : Block.t) (marketData : MarketData)
    : result IndicatorResult.t :=
  let subtype := Block.subtype block in
  let settings := Block.settings block in
  let symbol :=
    match string_truthy (Settings.symbol settings) with
    | Some s => Some s
    | None => md_first_key marketData
    end in
  let priceData :=
    match symbol with
    | Some s => md_get marketData s
    | None => md_get marketData "undefined"
    end in
  match priceData with
  | None => Throw (NoHistoricalData symbol)
  | Some priceData =>
      match PriceData.history priceData with
      | None => Throw (NoHistoricalData symbol)
      | Some _ =>
          if subtype =? "sma" then calculateSMA priceData settings
          else if subtype =? "ema" then calculateEMA priceData settings
          else if subtype =? "rsi" then calculateRSI priceData settings
          else if subtype =? "macd" then calculateMACD priceData settings
          else if subtype =? "bb" then calculateBollingerBands priceData settings
          else Throw (UnknownIndicatorType subtype)
      end
  end.

End Indicators.

(** The indicator results of one cycle, keyed by block id. *)
Abbreviation Indicators := (gmap string IndicatorResult.t).

(** [marketData[symbol]] where [symbol] may be undefined. *)
Definition md_get_opt (md : MarketData) (symbol : option string) : option PriceData.t :=
  md_get md (default "undefined" symbol).

(** ** Condition evaluator (helpers/conditionHelpers.js) *)

(** [s.split(".")]. *)
Fixpoint split_dot_go (s : string) (cur : string) : list string :=
  match s with
  | EmptyString => [cur]
  | String c rest =>
      if Ascii.eqb c "."%char then cur :: split_dot_go rest EmptyString
      else split_dot_go rest (cur +:+ String c EmptyString)
  end.

Definition split_dot (s : string) : list string := split_dot_go s EmptyString.

Section Conditions.
Context {E : Engine}.

Definition getSourceValue (sourceType : option string) (source : jsval)
    (marketData : MarketData) (indicators : Indicators) : result jsval :=
  match sourceType with
  | Some "indicator" =>
      match indicators !! ToPropertyKey source with
      | Some indicator => Ok (IndicatorResult.value indicator)
      | None => Ok JUndefined
      end
  | Some "price" =>
      match source with
      | JString source =>
          let parts := split_dot source in
          let symbol := nth_error parts 0 in
          let field := nth_error parts 1 in
          match md_get_opt marketData symbol with
          | None => Ok JUndefined
          | Some symbolData =>
              match PriceData.history symbolData with
              | None => Ok JUndefined
              | Some history =>
                  match from_end history 1 with
                  | None => Ok JUndefined
                  | Some latestCandle => Ok (candle_get latestCandle field)
                  end
              end
          end
      | _ => Throw TypeError
      end
  | Some "value" => Ok (parseFloat source)
  | _ => Ok JUndefined
  end.

Definition getPreviousSourceValue (sourceType : option string) (source : jsval)
    (marketData : MarketData) (indicators : Indicators) : result jsval :=
  match sourceType with
  | Some "indicator" =>
      match indicators !! ToPropertyKey source with
      | None => Ok JUndefined
      | Some indicator =>
          match IndicatorResult.history indicator with
          | IndicatorResult.Series h =>
              if (length h <? 2)%nat then Ok JUndefined
              else
                match from_end h 2 with
                | Some v => Ok (JNumber v)
                | None => Ok JUndefined
                end
          | IndicatorResult.Lines _ =>
              (* no [length] on the object, and it is not an array *)
              Ok (IndicatorResult.value indicator)
          end
      end
  | Some "price" =>
      match source with
      | JString source =>
          let parts := split_dot source in
          let symbol := nth_error parts 0 in
          let field := nth_error parts 1 in
          match md_get_opt marketData symbol with
          | None => Ok JUndefined
          | Some symbolData =>
              match PriceData.history symbolData with
              | None => Ok JUndefined
              | Some history =>
                  if (length history <? 2)%nat then Ok JUndefined
                  else
                    match from_end history 2 with
                    | None => Ok JUndefined
                    | Some previousCandle => Ok (candle_get previousCandle field)
                    end
              end
          end
      | _ => Throw TypeError
      end
  | Some "value" => Ok (parseFloat source)
  | _ => Ok JUndefined
  end.

Definition evaluateCrossover (settings : Settings.t) (marketData : MarketData)
    (indicators : Indicators) : result bool :=
  let direction := Settings.direction settings in
  let source1Type := Settings.source1Type settings in
  let source2Type := Settings.source2Type settings in
  let source1 := Settings.source1 settings in
  let source2 := Settings.source2 settings in
  let* value1 := getSourceValue source1Type source1 marketData indicators in
  let* value2 := getSourceValue source2Type source2 marketData indicators in
  let* prevValue1 := getPreviousSourceValue source1Type source1 marketData indicators in
  let* prevValue2 := getPreviousSourceValue source2Type source2 marketData indicators in
  if is_undefined value1 || is_undefined value2
     || is_undefined prevValue1 || is_undefined prevValue2
  then Ok false
  else
    match direction with
    | Some "above" | Some "bullish" =>
        Ok (js_le prevValue1 prevValue2 && js_gt value1 value2)
    | Some "below" | Some "bearish" =>
        Ok (js_ge prevValue1 prevValue2 && js_lt value1 value2)
    | Some "any" =>
        Ok ((js_le prevValue1 prevValue2 && js_gt value1 value2)
            || (js_ge prevValue1 prevValue2 && js_lt value1 value2))
    | _ => Ok false
    end.

Definition evaluateThreshold (settings : Settings.t) (marketData : MarketData)
    (indicators : Indicators) : result bool :=
  let value := Settings.value settings in
  let* sourceValue :=
    getSourceValue (Settings.sourceType settings) (Settings.source settings)
      marketData indicators in
  if is_undefined sourceValue then Ok false
  else
    let threshold :=
      match value with
      | JString _ => parseFloat value
      | _ => value
      end in
    match Settings.operator settings with
    | Some "greater_than" | Some ">" => Ok (js_gt sourceValue threshold)
    | Some "less_than" | Some "<" => Ok (js_lt sourceValue threshold)
    | Some "equals" | Some "==" | Some "===" => Ok (js_strict_eq sourceValue threshold)
    | Some "greater_than_equals" | Some ">=" => Ok (js_ge sourceValue threshold)
    | Some "less_than_equals" | Some "<=" => Ok (js_le sourceValue threshold)
    | _ => Ok false
    end.

End Conditions.

(** The [for (let i = 2; i <= lookbackPeriod + 1; i++)] loops of the
    higher-high and lower-low patterns: [left] iterations remain, [beaten c]
    tells that candle [c] is not exceeded by the current one. *)
Fixpoint lookback_loop (history : list Candle.t) (beaten : Candle.t -> bool)
    (i left : nat) : bool :=
  match left with
  | O => true
  | S left' =>
      if (length history <? i)%nat then true
      else
        match from_end history i with
        | None => true
        | Some c => if beaten c then false else lookback_loop history beaten (S i) left'
        end
  end.

Definition evaluatePriceAction (settings : Settings.t) (marketData : MarketData)
    : bool :=
  let lookbackPeriod := default 1%nat (Settings.lookbackPeriod settings) in
  match md_get_opt marketData (Settings.symbol settings) with
  | None => false
  | Some symbolData =>
      match PriceData.history symbolData with
      | None => false
      | Some history =>
          match from_end history 1, from_end history 2 with
          | Some current, Some previous =>
              match Settings.patternType settings with
              | Some "bullish_candle" =>
                  Num.gt (Candle.close current) (Candle.open current)
              | Some "bearish_candle" =>
                  Num.lt (Candle.close current) (Candle.open current)
              | Some "doji" =>
                  let bodySize := Num.abs (Candle.close current - Candle.open current) in
                  let totalRange := Candle.high current - Candle.low current in
                  (* a zero range divides to NaN or Infinity, never below 0.1 *)
                  if Num.eq totalRange 0 then false
                  else Num.lt (bodySize / totalRange) (1 # 10)
              | Some "hammer" =>
                  if Num.le (Candle.close current) (Candle.open current) then false
                  else
                    let lowerWick :=
                      Num.min (Candle.open current) (Candle.close current)
                      - Candle.low current in
                    let hammerBody :=
                      Num.abs (Candle.close current - Candle.open current) in
                    let upperWick :=
                      Candle.high current
                      - Num.max (Candle.open current) (Candle.close current) in
                    Num.gt lowerWick (2 * hammerBody) && Num.lt upperWick hammerBody
              | Some "engulfing_bullish" =>
                  Num.gt (Candle.close current) (Candle.open current)
                  && Num.lt (Candle.close previous) (Candle.open previous)
                  && Num.lt (Candle.open current) (Candle.close previous)
                  && Num.gt (Candle.close current) (Candle.open previous)
              | Some "engulfing_bearish" =>
                  Num.lt (Candle.close current) (Candle.open current)
                  && Num.gt (Candle.close previous) (Candle.open previous)
                  && Num.gt (Candle.open current) (Candle.close previous)
                  && Num.lt (Candle.close current) (Candle.open previous)
              | Some "higher_high" =>
                  lookback_loop history
                    (fun c => Num.le (Candle.high current) (Candle.high c))
                    2 lookbackPeriod
              | Some "lower_low" =>
                  lookback_loop history
                    (fun c => Num.ge (Candle.low current) (Candle.low c))
                    2 lookbackPeriod
              | Some "higher_close" =>
                  Num.gt (Candle.close current) (Candle.close previous)
              | Some "lower_close" =>
                  Num.lt (Candle.close current) (Candle.close previous)
              | _ => false
              end
          | _, _ => false
          end
      end
  end.

Section ConditionDispatch.
Context {E : Engine}.

Definition evaluateCondition (block : Block.t) (marketData : MarketData)
    (indicators : Indicators) : result bool :=
  let subtype := Block.subtype block in
  let settings := Block.settings block in
  if subtype =? "crossover" then evaluateCrossover settings marketData indicators
  else if subtype =? "threshold" then evaluateThreshold settings marketData indicators
  else if subtype =? "price_action" then Ok (evaluatePriceAction settings marketData)
  else Throw (UnknownConditionType subtype).

End ConditionDispatch.

(** ** Action generator (helpers/actionHelpers.js) *)

Module Signal.
Record t := {
  action : string;
  symbol : string;
  orderType : option string;
  price : option Q;
  quantity : option Q;
  riskLevel : option Q;
  percentage : option Q;
  type : option string;
  value : jsval;
  trailingType : option string;
  trailingValue : option Q;
  timestamp : Time
}.
End Signal.

(** The execution price of a buy or sell block: the [price] setting, or
    the market price for market orders and when no price is set; [None]
    when the market has no usable price ([return null]). *)
Definition resolve_order_price (price : option Q) (orderType symbol : string)
    (marketData : MarketData) : option Q :=
  if negb (Num.truthy price) || (orderType =? "market")
  then md_price marketData symbol
  else price.

Definition executeBuyOrder (settings : Settings.t) (marketData : MarketData)
    (now : Time) : option Signal.t :=
  let symbol := default "SPY" (Settings.symbol settings) in
  let orderType := default "market" (Settings.orderType settings) in
  let quantity := Settings.quantity settings in
  let riskLevel := default (2 # 100) (Settings.riskLevel settings) in
  match resolve_order_price (Settings.price settings) orderType symbol marketData with
  | None => None
  | Some executionPrice =>
      Some {| Signal.action := "buy";
              Signal.symbol := symbol;
              Signal.orderType := Some orderType;
              Signal.price := Some executionPrice;
              Signal.quantity :=
                match quantity with
                | Some q => if Num.falsy q then None else Some (Num.parseInt q)
                | None => None
                end;
              Signal.riskLevel := Some riskLevel;
              Signal.percentage := None;
              Signal.type := None;
              Signal.value := JUndefined;
              Signal.trailingType := None;
              Signal.trailingValue := None;
              Signal.timestamp := now |}
  end.

Definition executeSellOrder (settings : Settings.t) (marketData : MarketData)
    (now : Time) : option Signal.t :=
  let symbol := default "SPY" (Settings.symbol settings) in
  let orderType := default "market" (Settings.orderType settings) in
  let quantity := Settings.quantity settings in
  let percentage := default 100 (Settings.percentage settings) in
  match resolve_order_price (Settings.price settings) orderType symbol marketData with
  | None => None
  | Some executionPrice =>
      let executionQuantity :=
        if negb (Num.truthy quantity) && negb (Num.falsy percentage)
        then None
        else quantity in
      Some {| Signal.action := "sell";
              Signal.symbol := symbol;
              Signal.orderType := Some orderType;
              Signal.price := Some executionPrice;
              Signal.quantity :=
                match executionQuantity with
                | Some q => if Num.falsy q then None else Some (Num.parseInt q)
                | None => None
                end;
              Signal.riskLevel := None;
              Signal.percentage := Some (percentage / 100);
              Signal.type := None;
              Signal.value := JUndefined;
              Signal.trailingType := None;
              Signal.trailingValue := None;
              Signal.timestamp := now |}
  end.

Section Actions.
Context {E : Engine}.

Definition executeStopLoss (settings : Settings.t) (marketData : MarketData)
    (now : Time) : option Signal.t :=
  let symbol := default "SPY" (Settings.symbol settings) in
  let type := default "price" (Settings.type settings) in
  let trailingType := default "none" (Settings.trailingType settings) in
  let trailingValue := default 0 (Settings.trailingValue settings) in
  match md_price marketData symbol with
  | None => None
  | Some currentPrice =>
      Some {| Signal.action := "stop_loss";
              Signal.symbol := symbol;
              Signal.orderType := None;
              Signal.price := Some currentPrice;
              Signal.quantity := None;
              Signal.riskLevel := None;
              Signal.percentage := None;
              Signal.type := Some type;
              Signal.value := parseFloat (Settings.value settings);
              Signal.trailingType := Some trailingType;
              Signal.trailingValue := Some (Num.or_else (Some trailingValue) 0);
              Signal.timestamp := now |}
  end.

Definition executeTakeProfit (settings : Settings.t) (marketData : MarketData)
    (now : Time) : option Signal.t :=
  let symbol := default "SPY" (Settings.symbol settings) in
  let type := default "price" (Settings.type settings) in
  match md_price marketData symbol with
  | None => None
  | Some currentPrice =>
      Some {| Signal.action := "take_profit";
              Signal.symbol := symbol;
              Signal.orderType := None;
              Signal.price := Some currentPrice;
              Signal.quantity := None;
              Signal.riskLevel := None;
              Signal.percentage := None;
              Signal.type := Some type;
              Signal.value := parseFloat (Settings.value settings);
              Signal.trailingType := None;
              Signal.trailingValue := None;
              Signal.timestamp := now |}
  end.

Definition executeAction (block : Block.t) (marketData : MarketData)
    (now : Time) : option Signal.t :=
  let subtype := Block.subtype block in
  let settings := Block.settings block in
  if subtype =? "buy" then executeBuyOrder settings marketData now
  else if subtype =? "sell" then executeSellOrder settings marketData now
  else if subtype =? "stop_loss" then executeStopLoss settings marketData now
  else if subtype =? "take_profit" then executeTakeProfit settings marketData now
  else None.

End Actions.

(** ** Paper-trading sessions (services/paperTradingService.js) *)

Module Strategy.
Record t := {
  user : string;
  name : string;
  symbols : option (list string);
  timeframe : string;
  blocks : list Block.t
}.
End Strategy.

Module Position.
Record t := {
  symbol : string;
  quantity : Q;
  averageCost : Q;
  currentPrice : Q;
  openTime : Time;
  lastUpdated : Time
}.
End Position.

Module Transaction.
Record t := {
  time : Time;
  type : string;
  symbol : string;
  quantity : Q;
  price : Q;
  total : Q;
  profitLoss : option Q
}.
End Transaction.

(** The messages pushed on [session.errors], with the values the template
    strings interpolate. *)
Inductive ErrorMessage :=
| InvalidPrice (action symbol : string) (executionPrice : Q)
| InsufficientFunds (tradeQuantity : Q) (symbol : string) (executionPrice : Q)
| NoPositionFound (symbol : string)
| InsufficientShares (tradeQuantity : Q) (symbol : string) (held : Q)
| Uncaught (e : exn).

Module ErrorEntry.
Record t := {
  time : Time;
  message : ErrorMessage
}.
End ErrorEntry.

Module Metrics.
Record t := {
  totalPnL : Q;
  percentReturn : Q;
  totalTrades : nat;
  winningTrades : nat;
  losingTrades : nat;
  winRate : Q
}.
End Metrics.

Module SessionSettings.
Record t := {
  symbols : list string;
  timePeriod : string;
  autoRun : bool;
  riskPerTrade : Q
}.
End SessionSettings.

Module Session.
Record t := {
  id : string;
  userId : string;
  strategyId : string;
  strategy : Strategy.t;
  status : string;
  startTime : Time;
  endTime : option Time;
  initialCapital : Q;
  currentCapital : Q;
  cashBalance : Q;
  positions : list Position.t;
  transactions : list Transaction.t;
  metrics : Metrics.t;
  settings : SessionSettings.t;
  lastUpdated : Time;
  errors : list ErrorEntry.t
}.

Definition set_status (v : string) (s : t) : t :=
  {| id := id s; userId := userId s; strategyId := strategyId s;
     strategy := strategy s; status := v; startTime := startTime s;
     endTime := endTime s; initialCapital := initialCapital s;
     currentCapital := currentCapital s; cashBalance := cashBalance s;
     positions := positions s; transactions := transactions s;
     metrics := metrics s; settings := settings s;
     lastUpdated := lastUpdated s; errors := errors s |}.

Definition set_endTime (v : option Time) (s : t) : t :=
  {| id := id s; userId := userId s; strategyId := strategyId s;
     strategy := strategy s; status := status s; startTime := startTime s;
     endTime := v; initialCapital := initialCapital s;
     currentCapital := currentCapital s; cashBalance := cashBalance s;
     positions := positions s; transactions := transactions s;
     metrics := metrics s; settings := settings s;
     lastUpdated := lastUpdated s; errors := errors s |}.

Definition set_currentCapital (v : Q) (s : t) : t :=
  {| id := id s; userId := userId s; strategyId := strategyId s;
     strategy := strategy s; status := status s; startTime := startTime s;
     endTime := endTime s; initialCapital := initialCapital s;
     currentCapital := v; cashBalance := cashBalance s;
     positions := positions s; transactions := transactions s;
     metrics := metrics s; settings := settings s;
     lastUpdated := lastUpdated s; errors := errors s |}.

Definition set_cashBalance (v : Q) (s : t) : t :=
  {| id := id s; userId := userId s; strategyId := strategyId s;
     strategy := strategy s; status := status s; startTime := startTime s;
     endTime := endTime s; initialCapital := initialCapital s;
     currentCapital := currentCapital s; cashBalance := v;
     positions := positions s; transactions := transactions s;
     metrics := metrics s; settings := settings s;
     lastUpdated := lastUpdated s; errors := errors s |}.

Definition set_positions (v : list Position.t) (s : t) : t :=
  {| id := id s; userId := userId s; strategyId := strategyId s;
     strategy := strategy s; status := status s; startTime := startTime s;
     endTime := endTime s; initialCapital := initialCapital s;
     currentCapital := currentCapital s; cashBalance := cashBalance s;
     positions := v; transactions := transactions s; metrics := metrics s;
     settings := settings s; lastUpdated := lastUpdated s;
     errors := errors s |}.

Definition set_transactions (v : list Transaction.t) (s : t) : t :=
  {| id := id s; userId := userId s; strategyId := strategyId s;
     strategy := strategy s; status := status s; startTime := startTime s;
     endTime := endTime s; initialCapital := initialCapital s;
     currentCapital := currentCapital s; cashBalance := cashBalance s;
     positions := positions s; transactions := v; metrics := metrics s;
     settings := settings s; lastUpdated := lastUpdated s;
     errors := errors s |}.

Definition set_metrics (v : Metrics.t) (s : t) : t :=
  {| id := id s; userId := userId s; strategyId := strategyId s;
     strategy := strategy s; status := status s; startTime := startTime s;
     endTime := endTime s; initialCapital := initialCapital s;
     currentCapital := currentCapital s; cashBalance := cashBalance s;
     positions := positions s; transactions := transactions s;
     metrics := v; settings := settings s; lastUpdated := lastUpdated s;
     errors := errors s |}.

Definition set_lastUpdated (v : Time) (s : t) : t :=
  {| id := id s; userId := userId s; strategyId := strategyId s;
     strategy := strategy s; status := status s; startTime := startTime s;
     endTime := endTime s; initialCapital := initialCapital s;
     currentCapital := currentCapital s; cashBalance := cashBalance s;
     positions := positions s; transactions := transactions s;
     metrics := metrics s; settings := settings s; lastUpdated := v;
     errors := errors s |}.

Definition set_errors (v : list ErrorEntry.t) (s : t) : t :=
  {| id := id s; userId := userId s; strategyId := strategyId s;
     strategy := strategy s; status := status s; startTime := startTime s;
     endTime := endTime s; initialCapital := initialCapital s;
     currentCapital := currentCapital s; cashBalance := cashBalance s;
     positions := positions s; transactions := transactions s;
     metrics := metrics s; settings := settings s;
     lastUpdated := lastUpdated s; errors := v |}.

End Session.

(** The in-memory [paperTradingSessions] map. *)
Abbreviation Store := (gmap string Session.t).

(** [a.findIndex(f)], [None] standing for [-1]. *)
Fixpoint findIndex {A} (f : A -> bool) (a : list A) : option nat :=
  match a with
  | [] => None
  | x :: rest => if f x then Some O else option_map S (findIndex f rest)
  end.

Definition push_error (now : Time) (m : ErrorMessage) (session : Session.t)
    : Session.t :=
  Session.set_errors
    (Session.errors session
       ++ [{| ErrorEntry.time := now; ErrorEntry.message := m |}])
    session.

(** *** Portfolio simulator *)

(** [price || marketData[symbol]?.price || 0] *)
Definition executionPrice_of (signal : Signal.t) (marketData : MarketData) : Q :=
  Num.or_else (Signal.price signal)
    (Num.or_else
       (match md_get marketData (Signal.symbol signal) with
        | Some d => PriceData.price d
        | None => None
        end)
       0).

(** The quantity of the signal, or the risk-based quantity when the signal
    carries none. *)
Definition tradeQuantity_of (session : Session.t) (signal : Signal.t)
    (executionPrice : Q) : Q :=
  let riskAmount :=
    Session.cashBalance session
    * Num.or_else (Signal.riskLevel signal)
        (SessionSettings.riskPerTrade (Session.settings session)) in
  let byRisk := Num.floor (riskAmount / executionPrice) in
  match Signal.quantity signal with
  | Some quantity => if Num.falsy quantity then byRisk else quantity
  | None => byRisk
  end.

Definition is_buy (action : string) : bool :=
  (action =? "buy") || (action =? "long").

Definition is_sell (action : string) : bool :=
  (action =? "sell") || (action =? "short").

Definition buy (now : Time) (session : Session.t) (symbol : string)
    (executionPrice tradeQuantity : Q) : Session.t :=
  let cost := executionPrice * tradeQuantity in
  if Num.gt cost (Session.cashBalance session) then
    push_error now (InsufficientFunds tradeQuantity symbol executionPrice) session
  else
    let by_symbol := fun p => Position.symbol p =? symbol in
    let positions :=
      match findIndex by_symbol (Session.positions session) with
      | Some i =>
          match Session.positions session !! i with
          | Some existingPosition =>
              let totalShares := Position.quantity existingPosition + tradeQuantity in
              let totalCost :=
                Position.averageCost existingPosition * Position.quantity existingPosition
                + executionPrice * tradeQuantity in
              <[ i := {| Position.symbol := Position.symbol existingPosition;
                         Position.quantity := totalShares;
                         Position.averageCost := totalCost / totalShares;
                         Position.currentPrice := Position.currentPrice existingPosition;
                         Position.openTime := Position.openTime existingPosition;
                         Position.lastUpdated := now |} ]>
                (Session.positions session)
          | None => Session.positions session
          end
      | None =>
          Session.positions session
          ++ [{| Position.symbol := symbol;
                 Position.quantity := tradeQuantity;
                 Position.averageCost := executionPrice;
                 Position.currentPrice := executionPrice;
                 Position.openTime := now;
                 Position.lastUpdated := now |}]
      end in
    let session := Session.set_positions positions session in
    let session :=
      Session.set_cashBalance (Session.cashBalance session - cost) session in
    Session.set_transactions
      (Session.transactions session
         ++ [{| Transaction.time := now;
                Transaction.type := "buy";
                Transaction.symbol := symbol;
                Transaction.quantity := tradeQuantity;
                Transaction.price := executionPrice;
                Transaction.total := cost;
                Transaction.profitLoss := None |}])
      session.

Definition sell (now : Time) (session : Session.t) (symbol : string)
    (executionPrice tradeQuantity : Q) : Session.t :=
  let by_symbol := fun p => Position.symbol p =? symbol in
  match findIndex by_symbol (Session.positions session) with
  | None => push_error now (NoPositionFound symbol) session
  | Some positionIndex =>
      match Session.positions session !! positionIndex with
      | None => session
      | Some position =>
          if Num.lt (Position.quantity position) tradeQuantity then
            push_error now
              (InsufficientShares tradeQuantity symbol (Position.quantity position))
              session
          else
            let saleValue := executionPrice * tradeQuantity in
            let profitLoss :=
              (executionPrice - Position.averageCost position) * tradeQuantity in
            let quantity := Position.quantity position - tradeQuantity in
            let positions :=
              if Num.le quantity 0 then delete positionIndex (Session.positions session)
              else
                <[ positionIndex :=
                     {| Position.symbol := Position.symbol position;
                        Position.quantity := quantity;
                        Position.averageCost := Position.averageCost position;
                        Position.currentPrice := Position.currentPrice position;
                        Position.openTime := Position.openTime position;
                        Position.lastUpdated := now |} ]>
                  (Session.positions session) in
            let session := Session.set_positions positions session in
            let session :=
              Session.set_cashBalance (Session.cashBalance session + saleValue) session in
            Session.set_transactions
              (Session.transactions session
                 ++ [{| Transaction.time := now;
                        Transaction.type := "sell";
                        Transaction.symbol := symbol;
                        Transaction.quantity := tradeQuantity;
                        Transaction.price := executionPrice;
                        Transaction.total := saleValue;
                        Transaction.profitLoss := Some profitLoss |}])
              session
      end
  end.

(** One iteration of the loop of [executeSignals]. *)
Definition executeSignal (now : Time) (marketData : MarketData)
    (session : Session.t) (signal : Signal.t) : Session.t :=
  let symbol := Signal.symbol signal in
  let action := Signal.action signal in
  let executionPrice := executionPrice_of signal marketData in
  if Num.le executionPrice 0 then
    push_error now (InvalidPrice action symbol executionPrice) session
  else
    let tradeQuantity := tradeQuantity_of session signal executionPrice in
    if is_buy action then buy now session symbol executionPrice tradeQuantity
    else if is_sell action then sell now session symbol executionPrice tradeQuantity
    else session.

Definition executeSignals (now : Time) (session : Session.t)
    (signals : list Signal.t) (marketData : MarketData) : Session.t :=
  fold_left (executeSignal now marketData) signals session.

Definition updatePositions (now : Time) (session : Session.t)
    (marketData : MarketData) : Session.t :=
  Session.set_positions
    (map (fun position =>
            match md_price marketData (Position.symbol position) with
            | Some price =>
                {| Position.symbol := Position.symbol position;
                   Position.quantity := Position.quantity position;
                   Position.averageCost := Position.averageCost position;
                   Position.currentPrice := price;
                   Position.openTime := Position.openTime position;
                   Position.lastUpdated := now |}
            | None => position
            end)
       (Session.positions session))
    session.

Definition updateMetrics (session : Session.t) : Session.t :=
  let portfolioValue :=
    fold_left
      (fun portfolioValue position =>
         portfolioValue + Position.currentPrice position * Position.quantity position)
      (Session.positions session) (Session.cashBalance session) in
  let totalPnL := portfolioValue - Session.initialCapital session in
  let percentReturn := totalPnL / Session.initialCapital session * 100 in
  let completedTrades :=
    List.filter (fun t => Transaction.type t =? "sell") (Session.transactions session) in
  let winningTrades :=
    List.filter
      (fun t =>
         match Transaction.profitLoss t with
         | Some profitLoss => Num.gt profitLoss 0
         | None => false
         end)
      completedTrades in
  let losingTrades :=
    List.filter
      (fun t =>
         match Transaction.profitLoss t with
         | Some profitLoss => Num.le profitLoss 0
         | None => false
         end)
      completedTrades in
  let session := Session.set_currentCapital portfolioValue session in
  Session.set_metrics
    {| Metrics.totalPnL := totalPnL;
       Metrics.percentReturn := percentReturn;
       Metrics.totalTrades := length completedTrades;
       Metrics.winningTrades := length winningTrades;
       Metrics.losingTrades := length losingTrades;
       Metrics.winRate :=
         if (0 <? length completedTrades)%nat
         then Num.of_nat (length winningTrades) / Num.of_nat (length completedTrades) * 100
         else 0 |}
    session.

(** *** Strategy interpreter *)

Module Options.
(** The options of [createSession]. *)
Record t := {
  initialCapital : option Q;
  symbols : option (list string);
  timePeriod : option string;
  autoRun : option bool;
  riskPerTrade : option Q
}.
End Options.

Section Service.
Context {E : Engine}.

(** The body of the [try] block of [processStrategy]. *)
Definition processStrategy_try (strategy : Strategy.t) (marketData : MarketData)
    (now : Time) : result (list Signal.t * Indicators) :=
  let blocks := Strategy.blocks strategy in
  let* indicators :=
    fold_left
      (fun acc block =>
         let* indicators := acc in
         if Block.type block =? "indicator" then
           let* indicatorResult := applyIndicator block marketData in
           Ok (<[ default "undefined" (Block.id block) := indicatorResult ]> indicators)
         else Ok indicators)
      blocks (Ok (∅ : Indicators)) in
  let* signals :=
    fold_left
      (fun acc block =>
         let* signals := acc in
         if Block.type block =? "condition" then
           let* conditionResult := evaluateCondition block marketData indicators in
           if conditionResult then
             let actions :=
               List.filter (fun b => Block.type b =? "action") blocks in
             Ok (fold_left
                   (fun signals actionBlock =>
                      match executeAction actionBlock marketData now with
                      | Some signal => signals ++ [signal]
                      | None => signals
                      end)
                   actions signals)
           else Ok signals
         else Ok signals)
      blocks (Ok []) in
  Ok (signals, indicators).

Definition processStrategy (strategy : Strategy.t) (marketData : MarketData)
    (now : Time) : list Signal.t * Indicators :=
  match processStrategy_try strategy marketData now with
  | Ok r => r
  | Throw _ => ([], ∅)
  end.

(** *** Session manager *)

(** [createSession]; [strategies] is the strategy collection read by
    [Strategy.findById]. *)
Definition createSession (strategies : gmap string Strategy.t)
    (userId strategyId : string) (options : Options.t) (now : Time)
    (store : Store) : result Session.t * Store :=
  match strategies !! strategyId with
  | None => (Throw StrategyNotFound, store)
  | Some strategy =>
      if negb (Strategy.user strategy =? userId)
      then (Throw NotAuthorizedStrategy, store)
      else
        let sessionId := userId +:+ "-" +:+ strategyId +:+ "-" +:+ pretty now in
        let session :=
          {| Session.id := sessionId;
             Session.userId := userId;
             Session.strategyId := strategyId;
             Session.strategy := strategy;
             Session.status := "active";
             Session.startTime := now;
             Session.endTime := None;
             Session.initialCapital := Num.or_else (Options.initialCapital options) 10000;
             Session.currentCapital := Num.or_else (Options.initialCapital options) 10000;
             Session.cashBalance := Num.or_else (Options.initialCapital options) 10000;
             Session.positions := [];
             Session.transactions := [];
             Session.metrics :=
               {| Metrics.totalPnL := 0;
                  Metrics.percentReturn := 0;
                  Metrics.totalTrades := 0;
                  Metrics.winningTrades := 0;
                  Metrics.losingTrades := 0;
                  Metrics.winRate := 0 |};
             Session.settings :=
               {| SessionSettings.symbols :=
                    match Options.symbols options with
                    | Some symbols => symbols
                    | None => default ["SPY"] (Strategy.symbols strategy)
                    end;
                  SessionSettings.timePeriod :=
                    default "1d" (string_truthy (Options.timePeriod options));
                  SessionSettings.autoRun := default false (Options.autoRun options);
                  SessionSettings.riskPerTrade :=
                    Num.or_else (Options.riskPerTrade options) (2 # 100) |};
             Session.lastUpdated := now;
             Session.errors := [] |} in
        (Ok session, <[ sessionId := session ]> store)
  end.

Definition getSession (sessionId userId : string) (store : Store)
    : result Session.t :=
  match store !! sessionId with
  | None => Throw SessionNotFound
  | Some session =>
      if negb (Session.userId session =? userId) then Throw NotAuthorizedAccess
      else Ok session
  end.

(** The [try] block of [updateSession]; nothing in it can throw, since
    [processStrategy] catches its own exceptions. *)
Definition runCycle (marketData : MarketData) (now : Time) (session : Session.t)
    : Session.t :=
  let '(signals, indicators) :=
    processStrategy (Session.strategy session) marketData now in
  let session :=
    if (0 <? length signals)%nat
    then executeSignals now session signals marketData
    else session in
  let session := updatePositions now session marketData in
  let session := updateMetrics session in
  Session.set_lastUpdated now session.

Definition updateSession (sessionId : string) (marketData : MarketData)
    (now : Time) (store : Store) : result Session.t * Store :=
  match store !! sessionId with
  | None => (Throw SessionNotFound, store)
  | Some session =>
      let session := runCycle marketData now session in
      (Ok session, <[ sessionId := session ]> store)
  end.

Definition stopSession (sessionId userId : string) (now : Time) (store : Store)
    : result Session.t * Store :=
  match store !! sessionId with
  | None => (Throw SessionNotFound, store)
  | Some session =>
      if negb (Session.userId session =? userId)
      then (Throw NotAuthorizedStop, store)
      else
        let session := Session.set_status "stopped" session in
        let session := Session.set_endTime (Some now) session in
        (Ok session, <[ sessionId := session ]> store)
  end.

Definition deleteSession (sessionId userId : string) (store : Store)
    : result bool * Store :=
  match store !! sessionId with
  | None => (Ok false, store)
  | Some session =>
      if negb (Session.userId session =? userId)
      then (Throw NotAuthorizedDelete, store)
      else (Ok true, delete sessionId store)
  end.

(** *** The update route (controllers/paperTradingController.js)

    [getMarketData symbol timePeriod] is the market service: [None]
    when the request for that symbol fails. *)
Inductive response :=
| Status200 (body : Session.t)
| Status400 (cause : exn).

Definition collectMarketData (getMarketData : string -> string -> option PriceData.t)
    (session : Session.t) : MarketData :=
  fold_left
    (fun marketData symbol =>
       match getMarketData symbol
               (SessionSettings.timePeriod (Session.settings session)) with
       | Some data => md_set marketData symbol data
       | None => marketData
       end)
    (SessionSettings.symbols (Session.settings session)) [].

Definition updateSessionRoute (getMarketData : string -> string -> option PriceData.t)
    (sessionId userId : string) (now : Time) (store : Store)
    : response * Store :=
  match getSession sessionId userId store with
  | Throw e => (Status400 e, store)
  | Ok session =>
      let marketData := collectMarketData getMarketData session in
      match updateSession sessionId marketData now store with
      | (Ok updatedSession, store) => (Status200 updatedSession, store)
      | (Throw e, store) => (Status400 e, store)
      end
  end.

End Service.

(** ** Position sizing (helpers/actionHelpers.js) *)

Module RiskSettings.
Record t := {
  riskPerTrade : option Q
}.
End RiskSettings.


(** * Specification-level definitions and example data *)

(** ** The simple moving average *)

(** The arithmetic mean of a window of samples. *)
Definition mean (w : list Q) : Q := sum w / Num.of_nat (length w).

(** The trailing window of [period] samples that ends at index [i]. *)
Definition window (prices : list Q) (period i : nat) : list Q :=
  firstn period (skipn (i + 1 - period) prices).

(** The SMA as the specification words it: the mean of each trailing window
    of [period] samples, one value per window position from index
    [period - 1] onward. *)
Definition sma_spec (period : nat) (prices : list Q) : list Q :=
  map (fun i => mean (window prices period i))
      (seq (period - 1) (length prices - (period - 1))).

Definition closes (cs : list Q) : PriceData.t :=
  {| PriceData.price := None;
     PriceData.timestamp := "2024-01-02T00:00:00.000Z";
     PriceData.history :=
       Some (map (fun c => {| Candle.time := "2024-01-02T00:00:00.000Z"; Candle.open := c; Candle.high := c;
                              Candle.low := c; Candle.close := c;
                              Candle.volume := 0 |}) cs) |}.

(** ** Example data *)

(** An engine for the closed runs below, none of which reaches a built-in. *)
Definition noBuiltins : Engine :=
  {| Math_sqrt := fun _ => 0;
     parseFloat_string := fun _ => None;
     ToNumber_string := fun _ => None;
     Number_toString := fun _ => "NaN" |}.

Definition candle (o h l c : Q) : Candle.t :=
  {| Candle.time := "2024-01-02T00:00:00.000Z"; Candle.open := o; Candle.high := h; Candle.low := l;
     Candle.close := c; Candle.volume := 0 |}.

(** Two candles of SPY: the close goes from 9 to 10 while the open goes
    from 10 to 9. *)
Definition crossingMarket : MarketData :=
  [("SPY", {| PriceData.price := Some 10;
              PriceData.timestamp := "2024-01-02T00:00:00.000Z";
              PriceData.history := Some [candle 10 10 9 9; candle 9 10 9 10] |})].

(** A crossover of the close of SPY over its open. *)
Definition closeOverOpen (direction : string) : Settings.t :=
  {| Settings.symbol := None; Settings.period := None; Settings.priceField := None;
     Settings.overbought := None; Settings.oversold := None;
     Settings.fastPeriod := None; Settings.slowPeriod := None;
     Settings.signalPeriod := None; Settings.deviations := None;
     Settings.direction := Some direction;
     Settings.source1Type := Some "price"; Settings.source2Type := Some "price";
     Settings.source1 := JString "SPY.close"; Settings.source2 := JString "SPY.open";
     Settings.sourceType := None; Settings.source := JUndefined;
     Settings.operator := None; Settings.value := JUndefined;
     Settings.patternType := None; Settings.lookbackPeriod := None;
     Settings.orderType := None; Settings.quantity := None; Settings.price := None;
     Settings.riskLevel := None; Settings.percentage := None; Settings.type := None;
     Settings.trailingType := None; Settings.trailingValue := None |}.

Definition noBlocks : Strategy.t :=
  {| Strategy.user := "alice"; Strategy.name := "empty"; Strategy.symbols := Some [];
     Strategy.timeframe := "1d"; Strategy.blocks := [] |}.

(** A session of alice holding [cash] and [positions], risking 2% per trade. *)
Definition portfolio (cash : Q) (positions : list Position.t) : Session.t :=
  {| Session.id := "alice-s1-0";
     Session.userId := "alice";
     Session.strategyId := "s1";
     Session.strategy := noBlocks;
     Session.status := "active";
     Session.startTime := 0%Z;
     Session.endTime := None;
     Session.initialCapital := 10000;
     Session.currentCapital := 10000;
     Session.cashBalance := cash;
     Session.positions := positions;
     Session.transactions := [];
     Session.metrics :=
       {| Metrics.totalPnL := 0; Metrics.percentReturn := 0; Metrics.totalTrades := 0;
          Metrics.winningTrades := 0; Metrics.losingTrades := 0; Metrics.winRate := 0 |};
     Session.settings :=
       {| SessionSettings.symbols := ["SPY"]; SessionSettings.timePeriod := "1d";
          SessionSettings.autoRun := false; SessionSettings.riskPerTrade := 2 # 100 |};
     Session.lastUpdated := 0%Z;
     Session.errors := [] |}.

(** The signal [{ action, symbol, price, quantity }]. *)
Definition order (action symbol : string) (price quantity : Q) : Signal.t :=
  {| Signal.action := action; Signal.symbol := symbol; Signal.orderType := None;
     Signal.price := Some price; Signal.quantity := Some quantity;
     Signal.riskLevel := None; Signal.percentage := None; Signal.type := None;
     Signal.value := JUndefined; Signal.trailingType := None;
     Signal.trailingValue := None; Signal.timestamp := 0%Z |}.

Definition holding (symbol : string) (quantity averageCost : Q) (opened updated : Time)
    : Position.t :=
  {| Position.symbol := symbol; Position.quantity := quantity;
     Position.averageCost := averageCost; Position.currentPrice := averageCost;
     Position.openTime := opened; Position.lastUpdated := updated |}.

Definition buyRecord (now : Time) (symbol : string) (price quantity : Q)
    : Transaction.t :=
  {| Transaction.time := now; Transaction.type := "buy"; Transaction.symbol := symbol;
     Transaction.quantity := quantity; Transaction.price := price;
     Transaction.total := price * quantity; Transaction.profitLoss := None |}.

(** The position a buy leaves where [position] was. *)
Definition averagedUp (now : Time) (position : Position.t) (price quantity : Q)
    : Position.t :=
  {| Position.symbol := Position.symbol position;
     Position.quantity := Position.quantity position + quantity;
     Position.averageCost :=
       (Position.averageCost position * Position.quantity position + price * quantity)
       / (Position.quantity position + quantity);
     Position.currentPrice := Position.currentPrice position;
     Position.openTime := Position.openTime position;
     Position.lastUpdated := now |}.

(** The position a first buy opens. *)
Definition opened (now : Time) (symbol : string) (price quantity : Q) : Position.t :=
  {| Position.symbol := symbol; Position.quantity := quantity;
     Position.averageCost := price; Position.currentPrice := price;
     Position.openTime := now; Position.lastUpdated := now |}.

(** Settings of an action block on [symbol] with the given percentage. *)
Definition actionSettings (symbol : string) (percentage : option Q) : Settings.t :=
  {| Settings.symbol := Some symbol; Settings.period := None;
     Settings.priceField := None; Settings.overbought := None;
     Settings.oversold := None; Settings.fastPeriod := None;
     Settings.slowPeriod := None; Settings.signalPeriod := None;
     Settings.deviations := None; Settings.direction := None;
     Settings.source1Type := None; Settings.source2Type := None;
     Settings.source1 := JUndefined; Settings.source2 := JUndefined;
     Settings.sourceType := None; Settings.source := JUndefined;
     Settings.operator := None; Settings.value := JUndefined;
     Settings.patternType := None; Settings.lookbackPeriod := None;
     Settings.orderType := None; Settings.quantity := None; Settings.price := None;
     Settings.riskLevel := None; Settings.percentage := percentage;
     Settings.type := None; Settings.trailingType := None;
     Settings.trailingValue := None |}.

(** The signal of a sell block that sets no quantity, per the action
    generator. *)
Definition sellSignal (symbol orderType : string) (price percentage : Q) (now : Time)
    : Signal.t :=
  {| Signal.action := "sell"; Signal.symbol := symbol;
     Signal.orderType := Some orderType; Signal.price := Some price;
     Signal.quantity := None; Signal.riskLevel := None;
     Signal.percentage := Some (percentage / 100); Signal.type := None;
     Signal.value := JUndefined; Signal.trailingType := None;
     Signal.trailingValue := None; Signal.timestamp := now |}.

(** A market quoting SPY at [price], its last candle rising. *)
Definition spyAt (price : Q) : MarketData :=
  [("SPY", {| PriceData.price := Some price;
              PriceData.timestamp := "2024-01-02T00:00:00.000Z";
              PriceData.history := Some [candle 9 10 9 10; candle 9 10 9 10] |})].

(** The signal of a stop-loss block, with the fields the simulator reads. *)
Definition stopLossSignal (symbol : string) (price : Q) : Signal.t :=
  {| Signal.action := "stop_loss"; Signal.symbol := symbol; Signal.orderType := None;
     Signal.price := Some price; Signal.quantity := None; Signal.riskLevel := None;
     Signal.percentage := None; Signal.type := Some "price"; Signal.value := JNaN;
     Signal.trailingType := Some "none"; Signal.trailingValue := Some 0;
     Signal.timestamp := 0%Z |}.

(** ** An example strategy: buy SPY at market whenever its last candle rises *)

Definition risingCandle : Block.t :=
  {| Block.id := None; Block.type := "condition"; Block.subtype := "price_action";
     Block.settings :=
       {| Settings.symbol := Some "SPY"; Settings.period := None;
          Settings.priceField := None; Settings.overbought := None;
          Settings.oversold := None; Settings.fastPeriod := None;
          Settings.slowPeriod := None; Settings.signalPeriod := None;
          Settings.deviations := None; Settings.direction := None;
          Settings.source1Type := None; Settings.source2Type := None;
          Settings.source1 := JUndefined; Settings.source2 := JUndefined;
          Settings.sourceType := None; Settings.source := JUndefined;
          Settings.operator := None; Settings.value := JUndefined;
          Settings.patternType := Some "bullish_candle";
          Settings.lookbackPeriod := None; Settings.orderType := None;
          Settings.quantity := None; Settings.price := None;
          Settings.riskLevel := None; Settings.percentage := None;
          Settings.type := None; Settings.trailingType := None;
          Settings.trailingValue := None |};
     Block.position := 0 |}.

Definition buySpy : Block.t :=
  {| Block.id := None; Block.type := "action"; Block.subtype := "buy";
     Block.settings := actionSettings "SPY" None; Block.position := 1 |}.

Definition buyOnRise : Strategy.t :=
  {| Strategy.user := "alice"; Strategy.name := "buy on rise";
     Strategy.symbols := Some ["SPY"]; Strategy.timeframe := "1d";
     Strategy.blocks := [risingCandle; buySpy] |}.

Definition strategies : gmap string Strategy.t := {[ "s1" := buyOnRise ]}.

(** [createSession] called without options. *)
Definition noOptions : Options.t :=
  {| Options.initialCapital := None; Options.symbols := None;
     Options.timePeriod := None; Options.autoRun := None;
     Options.riskPerTrade := None |}.

(** The store after alice starts a session on the strategy at time 1000. *)
Definition started : Store :=
  snd (createSession strategies "alice" "s1" noOptions 1000%Z ∅).

(** The session she gets. *)
Definition startedSession : Session.t :=
  match fst (createSession strategies "alice" "s1" noOptions 1000%Z ∅) with
  | Ok session => session
  | Throw _ => portfolio 0 []
  end.

(** What [stopSession] writes on a session. *)
Definition markStopped (now : Time) (session : Session.t) : Session.t :=
  Session.set_endTime (Some now) (Session.set_status "stopped" session).

(** The market service of the update route, quoting every symbol at 100. *)
Definition quoteAll (symbol timePeriod : string) : option PriceData.t :=
  Some {| PriceData.price := Some 100; PriceData.timestamp := "2024-01-02T00:00:00.000Z";
          PriceData.history := Some [candle 9 10 9 10; candle 9 10 9 10] |}.

(** ** Crossover sources *)

(** [getSourceValue] documents its [source] parameter as a string; a source
    of type 'price' is split at the dot, so it has to be one. *)
Definition typed_source (sourceType : option string) (source : jsval) : Prop :=
  sourceType = Some "price" -> exists s, source = JString s.

(** A crossover block's settings. *)
Definition crossoverOn (direction source1Type : string) (source1 : jsval)
    (source2Type : string) (source2 : jsval) : Settings.t :=
  {| Settings.symbol := None; Settings.period := None; Settings.priceField := None;
     Settings.overbought := None; Settings.oversold := None;
     Settings.fastPeriod := None; Settings.slowPeriod := None;
     Settings.signalPeriod := None; Settings.deviations := None;
     Settings.direction := Some direction;
     Settings.source1Type := Some source1Type; Settings.source2Type := Some source2Type;
     Settings.source1 := source1; Settings.source2 := source2;
     Settings.sourceType := None; Settings.source := JUndefined;
     Settings.operator := None; Settings.value := JUndefined;
     Settings.patternType := None; Settings.lookbackPeriod := None;
     Settings.orderType := None; Settings.quantity := None; Settings.price := None;
     Settings.riskLevel := None; Settings.percentage := None; Settings.type := None;
     Settings.trailingType := None; Settings.trailingValue := None |}.

(** Two computed indicators: 'fast' goes from 9 to 10 while 'slow' goes from
    10 to 9. *)
Definition crossingIndicators : Indicators :=
  <[ "fast" := series_result [9; 10] 2 "2024-01-02T00:00:00.000Z" None None ]>
    (<[ "slow" := series_result [10; 9] 2 "2024-01-02T00:00:00.000Z" None None ]> ∅).

(** A crossover of the indicator 'fast' over the indicator 'slow'. *)
Definition fastOverSlow (direction : string) : Settings.t :=
  crossoverOn direction "indicator" (JString "fast") "indicator" (JString "slow").

(** A crossover whose first source is an indicator that was not computed and
    whose second source is of type 'price' but holds the number 5. *)
Definition untypedPriceSource : Settings.t :=
  crossoverOn "above" "indicator" (JString "ema1") "price" (JNumber 5).

(** ** Further specification-level definitions *)

(** The smoothing recurrence of the exponential moving average: each value
    is [(x - prev) * k + prev] for the next sample [x]. *)
Fixpoint ema_from (k prev : Q) (xs : list Q) : list Q :=
  match xs with
  | [] => []
  | x :: rest =>
      let ema := (x - prev) * k + prev in
      ema :: ema_from k ema rest
  end.

(** The seed of an exponential moving average: the sum of the first
    [period] samples over [period]. *)
Definition mean_of_first (xs : list Q) (period : nat) : Q :=
  sum (slice xs 0 period) / Num.of_nat period.

(** MACD settings with the three periods set. *)
Definition macdSettings (fast slow signal : nat) : Settings.t :=
  {| Settings.symbol := None; Settings.period := None;
     Settings.priceField := None; Settings.overbought := None;
     Settings.oversold := None; Settings.fastPeriod := Some fast;
     Settings.slowPeriod := Some slow; Settings.signalPeriod := Some signal;
     Settings.deviations := None; Settings.direction := None;
     Settings.source1Type := None; Settings.source2Type := None;
     Settings.source1 := JUndefined; Settings.source2 := JUndefined;
     Settings.sourceType := None; Settings.source := JUndefined;
     Settings.operator := None; Settings.value := JUndefined;
     Settings.patternType := None; Settings.lookbackPeriod := None;
     Settings.orderType := None; Settings.quantity := None;
     Settings.price := None; Settings.riskLevel := None;
     Settings.percentage := None; Settings.type := None;
     Settings.trailingType := None; Settings.trailingValue := None |}.

(** An engine whose [Math.sqrt] answers the absolute value of its argument,
    for closed runs that only need some non-negative answer. *)
Definition absRoot : Engine :=
  {| Math_sqrt := fun x => Qabs x;
     parseFloat_string := fun _ => None;
     ToNumber_string := fun _ => None;
     Number_toString := fun _ => "NaN" |}.

(** The price data [spyAt price] holds for SPY. *)
Definition quotedAt (price : Q) : PriceData.t :=
  {| PriceData.price := Some price;
     PriceData.timestamp := "2024-01-02T00:00:00.000Z";
     PriceData.history := Some [candle 9 10 9 10; candle 9 10 9 10] |}.

(** An SMA block of period 2 that names no symbol. *)
Definition smaBlock : Block.t :=
  {| Block.id := None; Block.type := "indicator"; Block.subtype := "sma";
     Block.settings := Settings.of_period 2 FClose; Block.position := 0 |}.

(** The settings of a price-action condition: the three keys that
    [evaluatePriceAction] reads. *)
Definition patternOn (symbol patternType : option string) (lookbackPeriod : option nat)
    : Settings.t :=
  {| Settings.symbol := symbol; Settings.period := None;
     Settings.priceField := None; Settings.overbought := None;
     Settings.oversold := None; Settings.fastPeriod := None;
     Settings.slowPeriod := None; Settings.signalPeriod := None;
     Settings.deviations := None; Settings.direction := None;
     Settings.source1Type := None; Settings.source2Type := None;
     Settings.source1 := JUndefined; Settings.source2 := JUndefined;
     Settings.sourceType := None; Settings.source := JUndefined;
     Settings.operator := None; Settings.value := JUndefined;
     Settings.patternType := patternType; Settings.lookbackPeriod := lookbackPeriod;
     Settings.orderType := None; Settings.quantity := None; Settings.price := None;
     Settings.riskLevel := None; Settings.percentage := None; Settings.type := None;
     Settings.trailingType := None; Settings.trailingValue := None |}.

(** The settings of a threshold condition on a fixed source value. *)
Definition thresholdOn (source : jsval) (operator : string) (value : jsval)
    : Settings.t :=
  {| Settings.symbol := None; Settings.period := None;
     Settings.priceField := None; Settings.overbought := None;
     Settings.oversold := None; Settings.fastPeriod := None;
     Settings.slowPeriod := None; Settings.signalPeriod := None;
     Settings.deviations := None; Settings.direction := None;
     Settings.source1Type := None; Settings.source2Type := None;
     Settings.source1 := JUndefined; Settings.source2 := JUndefined;
     Settings.sourceType := Some "value"; Settings.source := source;
     Settings.operator := Some operator; Settings.value := value;
     Settings.patternType := None; Settings.lookbackPeriod := None;
     Settings.orderType := None; Settings.quantity := None; Settings.price := None;
     Settings.riskLevel := None; Settings.percentage := None; Settings.type := None;
     Settings.trailingType := None; Settings.trailingValue := None |}.

(** A market whose SPY history has the highs 5, 7, 9. *)
Definition risingHighs : MarketData :=
  [("SPY", {| PriceData.price := Some 8;
              PriceData.timestamp := "2024-01-02T00:00:00.000Z";
              PriceData.history :=
                Some [candle 4 5 3 4; candle 6 7 5 6; candle 7 9 6 8] |})].

(** Whether a string is free of dots. *)
Fixpoint dotless (s : string) : bool :=
  match s with
  | EmptyString => true
  | String c rest => negb (Ascii.eqb c "."%char) && dotless rest
  end.

(** The record of a sale of [quantity] shares at [price] out of
    [position]. *)
Definition sellRecord (now : Time) (position : Position.t) (price quantity : Q)
    : Transaction.t :=
  {| Transaction.time := now; Transaction.type := "sell";
     Transaction.symbol := Position.symbol position;
     Transaction.quantity := quantity; Transaction.price := price;
     Transaction.total := price * quantity;
     Transaction.profitLoss :=
       Some ((price - Position.averageCost position) * quantity) |}.

(** The position a partial sale leaves where [position] was. *)
Definition reduced (now : Time) (position : Position.t) (quantity : Q) : Position.t :=
  {| Position.symbol := Position.symbol position;
     Position.quantity := Position.quantity position - quantity;
     Position.averageCost := Position.averageCost position;
     Position.currentPrice := Position.currentPrice position;
     Position.openTime := Position.openTime position;
     Position.lastUpdated := now |}.

(** The session after a buy that leaves [positions]. *)
Definition bought (now : Time) (session : Session.t) (symbol : string) (p q : Q)
    (positions : list Position.t) : Session.t :=
  Session.set_transactions
    (Session.transactions session ++ [buyRecord now symbol p q])
    (Session.set_cashBalance (Session.cashBalance session - p * q)
       (Session.set_positions positions session)).

(** The session after a sale out of [position] that leaves [positions]. *)
Definition sold (now : Time) (session : Session.t) (position : Position.t) (p q : Q)
    (positions : list Position.t) : Session.t :=
  Session.set_transactions
    (Session.transactions session ++ [sellRecord now position p q])
    (Session.set_cashBalance (Session.cashBalance session + p * q)
       (Session.set_positions positions session)).

(** What one signal of [action] on [symbol], with execution price [p] and
    resolved quantity [q], can do to a session. *)
Inductive outcome (now : Time) (session : Session.t) (action symbol : string)
    (p q : Q) : Session.t -> Prop :=
| Rejected m :
    outcome now session action symbol p q (push_error now m session)
| Ignored :
    is_buy action = false -> is_sell action = false ->
    outcome now session action symbol p q session
| Opened :
    is_buy action = true -> 0 < p -> p * q <= Session.cashBalance session ->
    Forall (fun x => Position.symbol x <> symbol) (Session.positions session) ->
    outcome now session action symbol p q
      (bought now session symbol p q
         (Session.positions session ++ [opened now symbol p q]))
| Averaged before position after :
    is_buy action = true -> 0 < p -> p * q <= Session.cashBalance session ->
    Session.positions session = before ++ position :: after ->
    Forall (fun x => Position.symbol x <> symbol) before ->
    Position.symbol position = symbol ->
    outcome now session action symbol p q
      (bought now session symbol p q
         (before ++ averagedUp now position p q :: after))
| Closed before position after :
    is_sell action = true -> 0 < p ->
    Session.positions session = before ++ position :: after ->
    Forall (fun x => Position.symbol x <> symbol) before ->
    Position.symbol position = symbol ->
    q <= Position.quantity position ->
    Position.quantity position - q <= 0 ->
    outcome now session action symbol p q
      (sold now session position p q (before ++ after))
| Reduced before position after :
    is_sell action = true -> 0 < p ->
    Session.positions session = before ++ position :: after ->
    Forall (fun x => Position.symbol x <> symbol) before ->
    Position.symbol position = symbol ->
    q <= Position.quantity position ->
    0 < Position.quantity position - q ->
    outcome now session action symbol p q
      (sold now session position p q (before ++ reduced now position q :: after)).




(** The blocks of a strategy of a given type. *)
Definition blocksOfType (type : string) (strategy : Strategy.t) : list Block.t :=
  List.filter (fun b => Block.type b =? type) (Strategy.blocks strategy).

(** A condition block of a subtype the evaluator does not know. *)
Definition unknownCondition : Block.t :=
  {| Block.id := None; Block.type := "condition"; Block.subtype := "volume_spike";
     Block.settings := Settings.empty; Block.position := 0 |}.

Definition brokenStrategy : Strategy.t :=
  {| Strategy.user := "alice"; Strategy.name := "broken";
     Strategy.symbols := Some ["SPY"]; Strategy.timeframe := "1d";
     Strategy.blocks := [risingCandle; unknownCondition; buySpy] |}.

(** A stop-loss block on SPY, and a strategy that sets the stop whenever the
    last candle of SPY rises. *)
Definition stopSpy : Block.t :=
  {| Block.id := None; Block.type := "action"; Block.subtype := "stop_loss";
     Block.settings := actionSettings "SPY" None; Block.position := 1 |}.

Definition stopOnRise : Strategy.t :=
  {| Strategy.user := "alice"; Strategy.name := "stop on rise";
     Strategy.symbols := Some ["SPY"]; Strategy.timeframe := "1d";
     Strategy.blocks := [risingCandle; stopSpy] |}.

(** A session of alice on that strategy, holding 10 shares of SPY. *)
Definition guarded : Session.t :=
  {| Session.id := "alice-s2-0";
     Session.userId := "alice";
     Session.strategyId := "s2";
     Session.strategy := stopOnRise;
     Session.status := "active";
     Session.startTime := 0%Z;
     Session.endTime := None;
     Session.initialCapital := 10000;
     Session.currentCapital := 10000;
     Session.cashBalance := 9000;
     Session.positions := [holding "SPY" 10 100 0%Z 0%Z];
     Session.transactions := [buyRecord 0%Z "SPY" 100 10];
     Session.metrics :=
       {| Metrics.totalPnL := 0; Metrics.percentReturn := 0; Metrics.totalTrades := 0;
          Metrics.winningTrades := 0; Metrics.losingTrades := 0; Metrics.winRate := 0 |};
     Session.settings :=
       {| SessionSettings.symbols := ["SPY"]; SessionSettings.timePeriod := "1d";
          SessionSettings.autoRun := false; SessionSettings.riskPerTrade := 2 # 100 |};
     Session.lastUpdated := 0%Z;
     Session.errors := [] |}.

(** ** The relative strength index *)

(** The changes from each price to the next, and their gains and losses. *)
Definition price_changes (prices : list Q) : list Q :=
  map (fun i => nth_num prices i - nth_num prices (i - 1)) (seq 1 (length prices - 1)).

Definition gains_of (changes : list Q) : list Q :=
  map (fun change => if Num.gt change 0 then change else 0) changes.

Definition losses_of (changes : list Q) : list Q :=
  map (fun change => if Num.lt change 0 then Num.abs change else 0) changes.

(** ** The Bollinger bands *)

(** The mean squared distance of the samples of a window to [center]. *)
Definition variance_about (center : Q) (w : list Q) : Q :=
  fold_left (fun sum price => sum + (price - center) * (price - center)) w 0
  / Num.of_nat (length w).

(** * Properties *)

(** ** Comparisons on numbers *)

Lemma Num_lt_iff x y : Num.lt x y = true <-> x < y.
Proof.
  unfold Num.lt. rewrite negb_true_iff, <- not_true_iff_false, Qle_bool_iff.
  split; [apply Qnot_le_lt | apply Qlt_not_le].
Qed.

Lemma Num_le_iff x y : Num.le x y = true <-> x <= y.
Proof. apply Qle_bool_iff. Qed.

Lemma Num_gt_iff x y : Num.gt x y = true <-> y < x.
Proof. apply Num_lt_iff. Qed.

Lemma Num_ge_iff x y : Num.ge x y = true <-> y <= x.
Proof. apply Num_le_iff. Qed.

Lemma Num_gt_false_iff x y : Num.gt x y = false <-> x <= y.
Proof.
  unfold Num.gt, Num.lt. rewrite negb_false_iff. apply Qle_bool_iff.
Qed.

(** ** Indicator engine: the simple moving average *)

Lemma for_range_push {A} (f : nat -> A) from to (init : list A) :
  for_range from to (fun i acc => acc ++ [f i]) init
  = init ++ map f (seq from (to - from)).
Proof.
  unfold for_range. generalize (seq from (to - from)) as l.
  intros l. revert init.
  induction l as [|i l IH]; intros init; simpl.
  - now rewrite app_nil_r.
  - rewrite IH, <- app_assoc. reflexivity.
Qed.

Lemma nat_or_pos n d : (0 < d)%nat -> (0 < nat_or n d)%nat.
Proof. destruct n as [[|k]|]; simpl; lia. Qed.

Lemma window_length prices period i :
  (period - 1 <= i < length prices)%nat -> (0 < period)%nat ->
  length (window prices period i) = period.
Proof.
  intros Hi Hp. unfold window.
  rewrite length_firstn, length_skipn. lia.
Qed.

Lemma slice_window prices period i :
  (period - 1 <= i)%nat -> (0 < period)%nat ->
  slice prices (i + 1 - period) (i + 1) = window prices period i.
Proof.
  intros Hi Hp. unfold slice, window. f_equal. lia.
Qed.

Lemma sma_spec_length period prices :
  (0 < period <= length prices)%nat ->
  length (sma_spec period prices) = (length prices - period + 1)%nat.
Proof.
  intros H. unfold sma_spec. rewrite length_map, length_seq. lia.
Qed.



(** ** Condition evaluator: crossover *)

Lemma is_undefined_true v : is_undefined v = true <-> v = JUndefined.
Proof. destruct v; simpl; split; congruence. Qed.

Lemma is_undefined_false v : is_undefined v = false <-> v <> JUndefined.
Proof. destruct v; simpl; split; congruence. Qed.

(** Once the four values are resolved, [evaluateCrossover] is this test. *)
Lemma evaluateCrossover_resolved `{Engine} settings marketData indicators v1 v2 p1 p2 :
  getSourceValue (Settings.source1Type settings) (Settings.source1 settings)
    marketData indicators = Ok v1 ->
  getSourceValue (Settings.source2Type settings) (Settings.source2 settings)
    marketData indicators = Ok v2 ->
  getPreviousSourceValue (Settings.source1Type settings) (Settings.source1 settings)
    marketData indicators = Ok p1 ->
  getPreviousSourceValue (Settings.source2Type settings) (Settings.source2 settings)
    marketData indicators = Ok p2 ->
  evaluateCrossover settings marketData indicators
  = if is_undefined v1 || is_undefined v2 || is_undefined p1 || is_undefined p2
    then Ok false
    else
      match Settings.direction settings with
      | Some "above" | Some "bullish" => Ok (js_le p1 p2 && js_gt v1 v2)
      | Some "below" | Some "bearish" => Ok (js_ge p1 p2 && js_lt v1 v2)
      | Some "any" =>
          Ok ((js_le p1 p2 && js_gt v1 v2) || (js_ge p1 p2 && js_lt v1 v2))
      | _ => Ok false
      end.
Proof.
  intros H1 H2 H3 H4. unfold evaluateCrossover.
  rewrite H1, H2, H3, H4. reflexivity.
Qed.

(** ** Portfolio simulator *)

Lemma findIndex_none {A} (f : A -> bool) (a : list A) :
  Forall (fun x => f x = false) a -> findIndex f a = None.
Proof.
  induction 1 as [|x a Hx _ IH]; simpl; [reflexivity|].
  rewrite Hx, IH. reflexivity.
Qed.

Lemma findIndex_first {A} (f : A -> bool) (before after : list A) (x : A) :
  Forall (fun y => f y = false) before -> f x = true ->
  findIndex f (before ++ x :: after) = Some (length before).
Proof.
  induction 1 as [|y before Hy _ IH]; intros Hx; simpl.
  - rewrite Hx. reflexivity.
  - rewrite Hy, IH by assumption. reflexivity.
Qed.

Lemma lookup_middle_eq {A} (before after : list A) (x : A) :
  (before ++ x :: after) !! length before = Some x.
Proof. induction before; simpl; auto. Qed.

Lemma insert_middle_eq {A} (before after : list A) (x y : A) :
  <[ length before := y ]> (before ++ x :: after) = before ++ y :: after.
Proof. induction before; simpl; [reflexivity | f_equal; assumption]. Qed.

Lemma other_symbols (symbol : string) (positions : list Position.t) :
  Forall (fun p => Position.symbol p <> symbol) positions ->
  Forall (fun p => (Position.symbol p =? symbol) = false) positions.
Proof.
  induction 1 as [|p positions Hp _ IH]; constructor; [|exact IH].
  apply String.eqb_neq. exact Hp.
Qed.

(** A buy whose cost is covered, on a session without a position for the
    symbol. *)
Lemma buy_opens now session symbol p q :
  p * q <= Session.cashBalance session ->
  Forall (fun x => Position.symbol x <> symbol) (Session.positions session) ->
  buy now session symbol p q
  = Session.set_transactions
      (Session.transactions session ++ [buyRecord now symbol p q])
      (Session.set_cashBalance (Session.cashBalance session - p * q)
         (Session.set_positions
            (Session.positions session ++ [opened now symbol p q]) session)).
Proof.
  intros Hcost Hnone. unfold buy.
  apply Num_gt_false_iff in Hcost. rewrite Hcost.
  rewrite (findIndex_none _ _ (other_symbols _ _ Hnone)). reflexivity.
Qed.

(** A buy whose cost is covered, on a session whose first position for the
    symbol is [position]. *)
Lemma buy_averages now session symbol p q before position after :
  p * q <= Session.cashBalance session ->
  Session.positions session = before ++ position :: after ->
  Forall (fun x => Position.symbol x <> symbol) before ->
  Position.symbol position = symbol ->
  buy now session symbol p q
  = Session.set_transactions
      (Session.transactions session ++ [buyRecord now symbol p q])
      (Session.set_cashBalance (Session.cashBalance session - p * q)
         (Session.set_positions
            (before ++ averagedUp now position p q :: after) session)).
Proof.
  intros Hcost Hpos Hbefore Hsym. unfold buy.
  apply Num_gt_false_iff in Hcost. rewrite Hcost, Hpos.
  rewrite (findIndex_first _ before after position (other_symbols _ _ Hbefore))
    by (apply String.eqb_eq; exact Hsym).
  rewrite lookup_middle_eq, insert_middle_eq. reflexivity.
Qed.

Lemma positive_price p : 0 < p -> Num.le p 0 = false.
Proof.
  intros Hp. apply not_true_iff_false. intros Hle.
  apply Num_le_iff in Hle. exact (Qlt_not_le _ _ Hp Hle).
Qed.

Lemma executeSignal_buy now marketData session signal :
  is_buy (Signal.action signal) = true ->
  0 < executionPrice_of signal marketData ->
  executeSignal now marketData session signal
  = buy now session (Signal.symbol signal) (executionPrice_of signal marketData)
      (tradeQuantity_of session signal (executionPrice_of signal marketData)).
Proof.
  intros Hbuy Hp. unfold executeSignal.
  rewrite (positive_price _ Hp), Hbuy. reflexivity.
Qed.

(** C2. A buy signal with execution price [p > 0] and resolved quantity
    [q] whose cost [p * q] does not exceed the cash balance: an existing
    position of the symbol, of quantity [q0] and average cost [c0], gets
    average cost [(c0 * q0 + p * q) / (q0 + q)] and quantity [q0 + q];
    without one, a position of quantity [q] at average cost [p] is created;
    the cash balance decreases by [p * q] and one 'buy' transaction of total
    [p * q] is appended.  With cash 10000, buying 10 at 100 leaves cash 9000
    and a position of 10 at average cost 100; buying 5 more at 120 gives the
    average cost (10*100 + 5*120) / 15. *)
Theorem buy_signal_applied :
  (forall now marketData session signal p q,
      is_buy (Signal.action signal) = true ->
      executionPrice_of signal marketData = p ->
      0 < p ->
      tradeQuantity_of session signal p = q ->
      p * q <= Session.cashBalance session ->
      let session' := executeSignal now marketData session signal in
      let symbol := Signal.symbol signal in
      (forall before position after,
          Session.positions session = before ++ position :: after ->
          Forall (fun x => Position.symbol x <> symbol) before ->
          Position.symbol position = symbol ->
          exists position',
            Session.positions session' = before ++ position' :: after
            /\ Position.averageCost position'
               = (Position.averageCost position * Position.quantity position + p * q)
                 / (Position.quantity position + q)
            /\ Position.quantity position' = Position.quantity position + q
            /\ Position.symbol position' = symbol)
      /\ (Forall (fun x => Position.symbol x <> symbol) (Session.positions session) ->
          exists position',
            Session.positions session' = Session.positions session ++ [position']
            /\ Position.averageCost position' = p
            /\ Position.quantity position' = q
            /\ Position.symbol position' = symbol)
      /\ Session.cashBalance session' = Session.cashBalance session - p * q
      /\ (exists record,
            Session.transactions session' = Session.transactions session ++ [record]
            /\ Transaction.type record = "buy"
            /\ Transaction.symbol record = symbol
            /\ Transaction.quantity record = q
            /\ Transaction.price record = p
            /\ Transaction.total record = p * q)
      /\ Session.errors session' = Session.errors session)
  /\ (let first := executeSignals 1%Z (portfolio 10000 []) [order "buy" "SPY" 100 10] [] in
      let second := executeSignals 2%Z first [order "buy" "SPY" 120 5] [] in
      Session.cashBalance first = 9000
      /\ Session.positions first = [holding "SPY" 10 100 1%Z 1%Z]
      /\ (exists position,
            Session.positions second = [position]
            /\ Position.quantity position = 15
            /\ Position.averageCost position = (10 * 100 + 5 * 120) / 15
            /\ Position.averageCost position == 320 # 3)).
Proof.
  split.
  - intros now marketData session signal p q Hbuy Hp Hpos Hq Hcost session' symbol.
    subst session' symbol. rewrite executeSignal_buy by (rewrite ?Hp; assumption).
    rewrite Hp, Hq.
    split; [|split; [|split; [|split]]].
    + intros before position after Hsplit Hbefore Hsym.
      rewrite (buy_averages _ _ _ _ _ _ _ _ Hcost Hsplit Hbefore Hsym).
      eexists. split; [reflexivity|]. cbn. auto.
    + intros Hnone. rewrite (buy_opens _ _ _ _ _ Hcost Hnone).
      eexists. split; [reflexivity|]. cbn. auto.
    + unfold buy. apply Num_gt_false_iff in Hcost. rewrite Hcost. reflexivity.
    + unfold buy. apply Num_gt_false_iff in Hcost. rewrite Hcost.
      eexists. split; [reflexivity|]. cbn. auto 6.
    + unfold buy. apply Num_gt_false_iff in Hcost. rewrite Hcost. reflexivity.
  - cbv zeta. split; [reflexivity|]. split; [reflexivity|].
    eexists. split; [reflexivity|]. split; [reflexivity|].
    split; reflexivity.
Qed.

(** A run of {!buy_signal_applied}: 10 shares at 100 out of 10000. *)
Lemma buy_signal_applied_witness :
  Session.cashBalance
    (executeSignal 1%Z [] (portfolio 10000 []) (order "buy" "SPY" 100 10))
  = 10000 - 100 * 10.
Proof.
  refine (proj1 (proj2 (proj2
            (proj1 buy_signal_applied 1%Z [] (portfolio 10000 [])
               (order "buy" "SPY" 100 10) 100 10 eq_refl eq_refl _ eq_refl _)))).
  - reflexivity.
  - discriminate.
Defined.

Lemma push_error_frame now m session :
  Session.errors (push_error now m session)
  = Session.errors session ++ [{| ErrorEntry.time := now; ErrorEntry.message := m |}]
  /\ Session.positions (push_error now m session) = Session.positions session
  /\ Session.cashBalance (push_error now m session) = Session.cashBalance session
  /\ Session.transactions (push_error now m session) = Session.transactions session.
Proof. repeat split. Qed.

(** C3. A buy signal whose cost exceeds the cash balance adds exactly one
    entry to [session.errors] and is skipped whole: positions, cash balance
    and transactions stay as they were, and the remaining signals of the
    cycle are processed from that state.  With cash 100, a buy of 10 at 50
    creates no position, leaves the cash and records one error. *)
Theorem insufficient_funds_skips_signal :
  (forall now marketData session signal rest,
      is_buy (Signal.action signal) = true ->
      let p := executionPrice_of signal marketData in
      let q := tradeQuantity_of session signal p in
      Session.cashBalance session < p * q ->
      exists m,
        let session' := executeSignal now marketData session signal in
        session' = push_error now m session
        /\ (0 < p -> m = InsufficientFunds q (Signal.symbol signal) p)
        /\ Session.errors session'
           = Session.errors session
             ++ [{| ErrorEntry.time := now; ErrorEntry.message := m |}]
        /\ Session.positions session' = Session.positions session
        /\ Session.cashBalance session' = Session.cashBalance session
        /\ Session.transactions session' = Session.transactions session
        /\ executeSignals now session (signal :: rest) marketData
           = executeSignals now session' rest marketData)
  /\ (let session' :=
        executeSignals 1%Z (portfolio 100 []) [order "buy" "SPY" 50 10] [] in
      Session.positions session' = []
      /\ Session.cashBalance session' = 100
      /\ Session.transactions session' = []
      /\ Session.errors session'
         = [{| ErrorEntry.time := 1%Z;
               ErrorEntry.message := InsufficientFunds 10 "SPY" 50 |}]).
Proof.
  split.
  - intros now marketData session signal rest Hbuy p q Hcost.
    unfold executeSignal. fold p. fold q.
    destruct (Num.le p 0) eqn:Hle.
    + eexists. cbv zeta. split; [reflexivity|].
      split.
      { intros Hp. rewrite (positive_price _ Hp) in Hle. discriminate. }
      repeat split. cbn [executeSignals fold_left]. unfold executeSignal.
      fold p. rewrite Hle. reflexivity.
    + rewrite Hbuy. unfold buy.
      apply Num_gt_iff in Hcost. rewrite Hcost.
      eexists. cbv zeta. split; [reflexivity|].
      split; [reflexivity|].
      repeat split. cbn [executeSignals fold_left]. unfold executeSignal.
      fold p. fold q. rewrite Hle, Hbuy. unfold buy. rewrite Hcost. reflexivity.
  - cbv zeta. repeat split.
Qed.

(** A run of {!insufficient_funds_skips_signal}: 10 shares at 50 out of 100. *)
Lemma insufficient_funds_skips_signal_witness :
  exists m,
    executeSignal 1%Z [] (portfolio 100 []) (order "buy" "SPY" 50 10)
    = push_error 1%Z m (portfolio 100 []).
Proof.
  destruct (proj1 insufficient_funds_skips_signal 1%Z [] (portfolio 100 [])
              (order "buy" "SPY" 50 10) [] eq_refl eq_refl) as (m & Hm & _).
  exists m. exact Hm.
Defined.

(** C10. A signal with a positive execution price whose action is neither
    'buy'/'long' nor 'sell'/'short' leaves the session as it is: no
    position, cash, transaction or error entry changes.  The signals of
    stop-loss and take-profit blocks carry the actions 'stop_loss' and
    'take_profit' and are such signals. *)
Theorem other_actions_are_dropped :
  (forall now marketData session signal,
      0 < executionPrice_of signal marketData ->
      is_buy (Signal.action signal) = false ->
      is_sell (Signal.action signal) = false ->
      executeSignal now marketData session signal = session
      /\ executeSignals now session [signal] marketData = session)
  /\ (forall (E : Engine) settings marketData now signal,
        executeStopLoss settings marketData now = Some signal
        \/ executeTakeProfit settings marketData now = Some signal ->
        is_buy (Signal.action signal) = false
        /\ is_sell (Signal.action signal) = false
        /\ (Signal.action signal = "stop_loss" \/ Signal.action signal = "take_profit")
        /\ forall session marketData',
             0 < executionPrice_of signal marketData' ->
             executeSignal now marketData' session signal = session).
Proof.
  assert (Hdrop : forall now marketData session signal,
      0 < executionPrice_of signal marketData ->
      is_buy (Signal.action signal) = false ->
      is_sell (Signal.action signal) = false ->
      executeSignal now marketData session signal = session).
  { intros now marketData session signal Hp Hb Hs. unfold executeSignal.
    rewrite (positive_price _ Hp), Hb, Hs. reflexivity. }
  split.
  - intros now marketData session signal Hp Hb Hs. split.
    + apply Hdrop; assumption.
    + cbn [executeSignals fold_left]. apply Hdrop; assumption.
  - intros E settings marketData now signal Hgen.
    assert (Hact : Signal.action signal = "stop_loss"
                   \/ Signal.action signal = "take_profit").
    { destruct Hgen as [Hgen|Hgen];
        [unfold executeStopLoss in Hgen | unfold executeTakeProfit in Hgen];
        destruct (md_price marketData _); inversion Hgen; subst; cbn; auto. }
    assert (Hb : is_buy (Signal.action signal) = false)
      by (destruct Hact as [-> | ->]; reflexivity).
    assert (Hs : is_sell (Signal.action signal) = false)
      by (destruct Hact as [-> | ->]; reflexivity).
    repeat split; try assumption.
    intros session marketData' Hp. apply Hdrop; assumption.
Qed.

(** The stop-loss block of the default settings on a market quoting SPY at
    100 emits [stopLossSignal "SPY" 100], whatever the engine. *)
Lemma executeStopLoss_default (E : Engine) :
  executeStopLoss (actionSettings "SPY" None) (spyAt 100) 0%Z
  = Some (stopLossSignal "SPY" 100).
Proof. reflexivity. Qed.

(** A run of {!other_actions_are_dropped} on a stop-loss signal. *)
Lemma other_actions_are_dropped_witness :
  executeSignal 1%Z (spyAt 100) (portfolio 10000 []) (stopLossSignal "SPY" 100)
  = portfolio 10000 [].
Proof.
  refine (proj1 (proj1 other_actions_are_dropped 1%Z (spyAt 100) (portfolio 10000 [])
                   (stopLossSignal "SPY" 100) _ eq_refl eq_refl)).
  reflexivity.
Defined.

(** ** Action generator: sell blocks *)

(** The claim of C6 fails on the code: a sell block of percentage 150
    yields the fraction 3/2, outside the range 0 to 1, and a sell block
    yields no signal at all when the market has no price for its symbol. *)
Lemma sell_percentage_not_clamped :
  (exists signal p,
      executeSellOrder (actionSettings "SPY" (Some 150)) (spyAt 100) 1%Z = Some signal
      /\ Signal.quantity signal = None
      /\ Signal.percentage signal = Some p
      /\ ~ (0 <= p /\ p <= 1))
  /\ executeSellOrder (actionSettings "SPY" None) [] 1%Z = None.
Proof.
  split; [|reflexivity].
  eexists. eexists. split; [reflexivity|]. split; [reflexivity|].
  split; [reflexivity|].
  intros [_ H]. revert H. apply Qlt_not_le. reflexivity.
Qed.

(** C6 (amended). A sell block that sets no quantity: when an execution
    price is found (the price setting of a non-market order, else the market
    price of the symbol) the action generator returns a sell signal whose
    quantity is undefined and whose percentage is the percentage setting
    divided by 100 (1 for the default of 100), a fraction between 0 and 1
    whenever the setting lies between 0 and 100; when no price is found it
    returns no signal.  The share count is resolved afterwards by the
    portfolio simulator, as the whole number of shares that the risked part
    of the cash balance buys at the execution price. *)
Theorem sell_signal_without_quantity :
  forall settings marketData now,
    Settings.quantity settings = None ->
    let symbol := default "SPY" (Settings.symbol settings) in
    let orderType := default "market" (Settings.orderType settings) in
    let percentage := default 100 (Settings.percentage settings) in
    (forall p,
        resolve_order_price (Settings.price settings) orderType symbol marketData
        = Some p ->
        executeSellOrder settings marketData now
        = Some (sellSignal symbol orderType p percentage now)
        /\ Signal.quantity (sellSignal symbol orderType p percentage now) = None
        /\ Signal.percentage (sellSignal symbol orderType p percentage now)
           = Some (percentage / 100)
        /\ forall session executionPrice,
             tradeQuantity_of session (sellSignal symbol orderType p percentage now)
               executionPrice
             = Num.floor
                 (Session.cashBalance session
                  * SessionSettings.riskPerTrade (Session.settings session)
                  / executionPrice))
    /\ (resolve_order_price (Settings.price settings) orderType symbol marketData = None ->
        executeSellOrder settings marketData now = None)
    /\ (0 <= percentage /\ percentage <= 100 ->
        0 <= percentage / 100 /\ percentage / 100 <= 1)
    /\ (Settings.percentage settings = None -> percentage / 100 == 1).
Proof.
  intros settings marketData now Hq symbol orderType percentage.
  split; [|split; [|split]].
  - intros p Hp. split; [|split; [|split]]; try reflexivity.
    unfold executeSellOrder. fold symbol. fold orderType. rewrite Hp, Hq.
    fold percentage. cbn [Num.truthy negb andb].
    destruct (negb (Num.falsy percentage)); reflexivity.
  - intros Hp. unfold executeSellOrder. fold symbol. fold orderType.
    rewrite Hp. reflexivity.
  - intros [H0 H100]. split.
    + apply Qle_shift_div_l; [reflexivity|]. rewrite Qmult_0_l. exact H0.
    + apply Qle_shift_div_r; [reflexivity|]. rewrite Qmult_1_l. exact H100.
  - intros Hnone. unfold percentage. rewrite Hnone. reflexivity.
Qed.

(** A run of {!sell_signal_without_quantity}: the default percentage. *)
Lemma sell_signal_without_quantity_witness :
  executeSellOrder (actionSettings "SPY" None) (spyAt 100) 1%Z
  = Some (sellSignal "SPY" "market" 100 100 1%Z).
Proof.
  exact (proj1 (proj1 (sell_signal_without_quantity (actionSettings "SPY" None)
                         (spyAt 100) 1%Z eq_refl) 100 eq_refl)).
Defined.

(** ** Session manager *)

(** No step of an update cycle reads [status] or [endTime]: each commutes
    with the marking done by [stopSession]. *)
Lemma push_error_markStopped t now m session :
  push_error now m (markStopped t session) = markStopped t (push_error now m session).
Proof. reflexivity. Qed.

Lemma buy_markStopped t now session symbol p q :
  buy now (markStopped t session) symbol p q
  = markStopped t (buy now session symbol p q).
Proof.
  unfold buy. cbn [markStopped Session.set_endTime Session.set_status
    Session.cashBalance Session.positions Session.transactions].
  destruct (Num.gt (p * q) (Session.cashBalance session)); reflexivity.
Qed.

Lemma sell_markStopped t now session symbol p q :
  sell now (markStopped t session) symbol p q
  = markStopped t (sell now session symbol p q).
Proof.
  unfold sell. cbn [markStopped Session.set_endTime Session.set_status
    Session.cashBalance Session.positions Session.transactions].
  destruct (findIndex _ (Session.positions session)) as [i|]; [|reflexivity].
  destruct (Session.positions session !! i) as [position|]; [|reflexivity].
  destruct (Num.lt (Position.quantity position) q); reflexivity.
Qed.

Lemma executeSignal_markStopped t now marketData session signal :
  executeSignal now marketData (markStopped t session) signal
  = markStopped t (executeSignal now marketData session signal).
Proof.
  unfold executeSignal.
  destruct (Num.le (executionPrice_of signal marketData) 0); [reflexivity|].
  replace (tradeQuantity_of (markStopped t session) signal
             (executionPrice_of signal marketData))
    with (tradeQuantity_of session signal (executionPrice_of signal marketData))
    by reflexivity.
  destruct (is_buy (Signal.action signal)); [apply buy_markStopped|].
  destruct (is_sell (Signal.action signal)); [apply sell_markStopped|].
  reflexivity.
Qed.

Lemma executeSignals_markStopped t now marketData signals session :
  executeSignals now (markStopped t session) signals marketData
  = markStopped t (executeSignals now session signals marketData).
Proof.
  unfold executeSignals. revert session.
  induction signals as [|signal signals IH]; intros session; simpl; [reflexivity|].
  rewrite executeSignal_markStopped. apply IH.
Qed.

Lemma runCycle_markStopped `{Engine} t marketData now session :
  runCycle marketData now (markStopped t session)
  = markStopped t (runCycle marketData now session).
Proof.
  unfold runCycle.
  replace (Session.strategy (markStopped t session)) with (Session.strategy session)
    by reflexivity.
  destruct (processStrategy (Session.strategy session) marketData now)
    as [signals indicators].
  destruct (0 <? length signals)%nat.
  - rewrite executeSignals_markStopped. reflexivity.
  - reflexivity.
Qed.

(** The example strategy reaches no engine built-in: its cycles come out
    the same for every engine. *)
Lemma buyOnRise_any_engine (E : Engine) marketData now session :
  Session.strategy session = buyOnRise ->
  @runCycle E marketData now session = @runCycle noBuiltins marketData now session.
Proof.
  intros Hs. unfold runCycle. rewrite Hs.
  replace (@processStrategy E buyOnRise marketData now)
    with (@processStrategy noBuiltins buyOnRise marketData now) by reflexivity.
  reflexivity.
Qed.

(** C1 fails on the code.  [stopSession] marks alice's session 'stopped'
    and stamps its [endTime], returning what it documents as the final
    session state, but [updateSession] has no guard on the status: the
    session stopped at time 2000 with its 10000 of cash untouched is updated
    at time 3000 on a rising market quoting SPY at 100, the update executes
    the buy signal of the strategy for floor(10000 * 0.02 / 100) = 2 shares,
    and the stopped session ends with 9800 of cash, a position of 2 shares
    and a buy transaction. *)
Theorem stopped_session_still_trades :
  let sessionId := "alice-s1-1000" in
  let stopped := snd (stopSession sessionId "alice" 2000%Z started) in
  let updated := snd (@updateSession noBuiltins sessionId (spyAt 100) 3000%Z stopped) in
  (exists session,
      stopped !! sessionId = Some session
      /\ Session.status session = "stopped"
      /\ Session.cashBalance session = 10000
      /\ Session.positions session = []
      /\ Session.transactions session = [])
  /\ (exists session,
        updated !! sessionId = Some session
        /\ Session.status session = "stopped"
        /\ Session.cashBalance session = 9800
        /\ Session.positions session = [opened 3000%Z "SPY" 100 2]
        /\ Session.transactions session
           = [{| Transaction.time := 3000%Z; Transaction.type := "buy";
                 Transaction.symbol := "SPY"; Transaction.quantity := 2;
                 Transaction.price := 100; Transaction.total := 200;
                 Transaction.profitLoss := None |}]).
Proof.
  cbv zeta. split.
  - eexists. split; [vm_compute; reflexivity|]. repeat split.
  - eexists. split; [vm_compute; reflexivity|]. repeat split.
Qed.

(** The extent of the missing guard: for every session and every market
    data, the update of the stopped session trades exactly as the update of
    the session that was never stopped; only [status] and [endTime] tell the
    two results apart. *)
Lemma update_ignores_status :
  forall (E : Engine) sessionId userId session marketData tStop tUpdate (store : Store),
    store !! sessionId = Some session ->
    Session.userId session = userId ->
    exists stopped active' stopped',
      stopSession sessionId userId tStop store
      = (Ok stopped, <[ sessionId := stopped ]> store)
      /\ Session.status stopped = "stopped"
      /\ Session.endTime stopped = Some tStop
      /\ fst (updateSession sessionId marketData tUpdate store) = Ok active'
      /\ fst (updateSession sessionId marketData tUpdate
                (snd (stopSession sessionId userId tStop store))) = Ok stopped'
      /\ stopped' = markStopped tStop active'
      /\ Session.status stopped' = "stopped"
      /\ Session.cashBalance stopped' = Session.cashBalance active'
      /\ Session.positions stopped' = Session.positions active'
      /\ Session.transactions stopped' = Session.transactions active'
      /\ Session.errors stopped' = Session.errors active'.
Proof.
  intros E sessionId userId session marketData tStop tUpdate store Hget Hown.
  exists (markStopped tStop session), (runCycle marketData tUpdate session),
    (markStopped tStop (runCycle marketData tUpdate session)).
  assert (Hstop : stopSession sessionId userId tStop store
                  = (Ok (markStopped tStop session),
                     <[ sessionId := markStopped tStop session ]> store)).
  { unfold stopSession. rewrite Hget, Hown, String.eqb_refl. reflexivity. }
  rewrite Hstop. cbn [fst snd].
  split; [reflexivity|]. split; [reflexivity|]. split; [reflexivity|].
  split; [unfold updateSession; rewrite Hget; reflexivity|].
  split.
  { unfold updateSession. rewrite lookup_insert_eq. cbn [fst].
    rewrite runCycle_markStopped. reflexivity. }
  repeat split.
Qed.

Lemma started_lookup : started !! "alice-s1-1000" = Some startedSession.
Proof. vm_compute. reflexivity. Qed.

(** A run of {!update_ignores_status} on alice's session. *)
Lemma update_ignores_status_witness :
  exists stopped',
    fst (@updateSession noBuiltins "alice-s1-1000" (spyAt 100) 3000%Z
           (snd (stopSession "alice-s1-1000" "alice" 2000%Z started)))
    = Ok stopped'
    /\ Session.cashBalance stopped'
       = Session.cashBalance (@runCycle noBuiltins (spyAt 100) 3000%Z startedSession).
Proof.
  destruct (update_ignores_status noBuiltins "alice-s1-1000" "alice" startedSession
              (spyAt 100) 2000%Z 3000%Z started started_lookup eq_refl)
    as (stopped & active' & stopped' & _ & _ & _ & Ha & Hs & _ & _ & Hc & _).
  exists stopped'. split; [exact Hs|].
  rewrite Hc. unfold updateSession in Ha. rewrite started_lookup in Ha.
  cbn [fst] in Ha. injection Ha as <-. reflexivity.
Defined.

(** The claim of C9 fails on the code: stopping alice's session at time
    2000 and again at time 3000 leaves [endTime] at 3000, not at the 2000
    set by the first call. *)
Lemma second_stop_restamps_endTime :
  let sessionId := "alice-s1-1000" in
  let first := stopSession sessionId "alice" 2000%Z started in
  let second := stopSession sessionId "alice" 3000%Z (snd first) in
  exists session1 session2,
    fst first = Ok session1
    /\ fst second = Ok session2
    /\ Session.status session1 = "stopped"
    /\ Session.status session2 = "stopped"
    /\ Session.endTime session1 = Some 2000%Z
    /\ Session.endTime session2 = Some 3000%Z
    /\ Session.endTime session2 <> Session.endTime session1.
Proof.
  cbv zeta. eexists. eexists.
  split; [vm_compute; reflexivity|]. split; [vm_compute; reflexivity|].
  repeat split. discriminate.
Qed.

(** C9 (amended). Calling [stopSession] twice with the owner's user id
    succeeds both times.  The second call leaves the status at 'stopped' and
    every other field as the first call left it, except [endTime], which it
    sets to the time of the second call; the stored session is the same as
    after the first call exactly when the clock reads the same time. *)
Theorem stopSession_twice :
  forall sessionId userId session (t1 t2 : Time) (store : Store),
    store !! sessionId = Some session ->
    Session.userId session = userId ->
    exists session1 session2 store1 store2,
      stopSession sessionId userId t1 store = (Ok session1, store1)
      /\ stopSession sessionId userId t2 store1 = (Ok session2, store2)
      /\ store1 !! sessionId = Some session1
      /\ store2 !! sessionId = Some session2
      /\ Session.status session1 = "stopped"
      /\ Session.status session2 = "stopped"
      /\ Session.endTime session1 = Some t1
      /\ Session.endTime session2 = Some t2
      /\ session2 = Session.set_endTime (Some t2) session1
      /\ (t2 = t1 -> session2 = session1 /\ store2 = store1).
Proof.
  intros sessionId userId session t1 t2 store Hget Hown.
  exists (markStopped t1 session), (markStopped t2 (markStopped t1 session)),
    (<[ sessionId := markStopped t1 session ]> store),
    (<[ sessionId := markStopped t2 (markStopped t1 session) ]>
       (<[ sessionId := markStopped t1 session ]> store)).
  split.
  { unfold stopSession. rewrite Hget, Hown, String.eqb_refl. reflexivity. }
  split.
  { unfold stopSession. rewrite lookup_insert_eq.
    cbn [markStopped Session.set_endTime Session.set_status Session.userId].
    rewrite Hown, String.eqb_refl. reflexivity. }
  split; [apply lookup_insert_eq|]. split; [apply lookup_insert_eq|].
  do 5 (split; [reflexivity|]).
  intros ->. split; [reflexivity|].
  rewrite insert_insert_eq. reflexivity.
Qed.

(** A run of {!stopSession_twice} on alice's session. *)
Lemma stopSession_twice_witness :
  exists session2,
    fst (stopSession "alice-s1-1000" "alice" 3000%Z
           (snd (stopSession "alice-s1-1000" "alice" 2000%Z started)))
    = Ok session2
    /\ Session.status session2 = "stopped"
    /\ Session.endTime session2 = Some 3000%Z.
Proof.
  destruct (stopSession_twice "alice-s1-1000" "alice" startedSession 2000%Z 3000%Z
              started started_lookup eq_refl)
    as (session1 & session2 & store1 & store2 & H1 & H2 & _ & _ & _ & Hs & _ & He & _).
  exists session2. rewrite H1. cbn [snd]. rewrite H2.
  split; [reflexivity|]. split; [exact Hs | exact He].
Defined.

(** C5. Update, stop and delete invoked with a caller user id that is not
    [session.userId] fail with an authorization error and leave the store,
    hence the session, as it was.  Stop and delete check the caller
    themselves; an update reaches the service through the update route,
    which checks the caller with [getSession] before it calls
    [updateSession]. *)
Theorem only_owner_mutates :
  forall (E : Engine) getMarketData sessionId userId session (now : Time) (store : Store),
    store !! sessionId = Some session ->
    Session.userId session <> userId ->
    updateSessionRoute getMarketData sessionId userId now store
    = (Status400 NotAuthorizedAccess, store)
    /\ stopSession sessionId userId now store = (Throw NotAuthorizedStop, store)
    /\ deleteSession sessionId userId store = (Throw NotAuthorizedDelete, store).
Proof.
  intros E getMarketData sessionId userId session now store Hget Hother.
  apply String.eqb_neq in Hother.
  unfold updateSessionRoute, getSession, stopSession, deleteSession.
  rewrite Hget, Hother. repeat split.
Qed.

(** A run of {!only_owner_mutates}: bob on alice's session. *)
Lemma only_owner_mutates_witness :
  @updateSessionRoute noBuiltins quoteAll "alice-s1-1000" "bob" 2000%Z started
  = (Status400 NotAuthorizedAccess, started)
  /\ stopSession "alice-s1-1000" "bob" 2000%Z started
     = (Throw NotAuthorizedStop, started)
  /\ deleteSession "alice-s1-1000" "bob" started
     = (Throw NotAuthorizedDelete, started).
Proof.
  apply (only_owner_mutates noBuiltins quoteAll "alice-s1-1000" "bob" startedSession
           2000%Z started started_lookup).
  discriminate.
Defined.

(** C4 fails on the code.  Alice's session, created with the default
    capital of 10000 and the default risk of 2% per trade, is updated on a
    rising market quoting SPY at 500: the buy signal resolves to
    floor(200 / 500) = 0 shares, its cost 0 is covered, and the update leaves
    a position of quantity 0 in [positions], with a buy transaction of 0
    shares. *)
Theorem zero_share_buy_opens_position :
  let sessionId := "alice-s1-1000" in
  let updated := snd (@updateSession noBuiltins sessionId (spyAt 500) 2000%Z started) in
  exists session position,
    updated !! sessionId = Some session
    /\ Session.status session = "active"
    /\ Session.positions session = [position]
    /\ Position.symbol position = "SPY"
    /\ Position.quantity position = 0
    /\ ~ (0 < Position.quantity position)
    /\ Session.cashBalance session = 10000
    /\ Session.transactions session
       = [{| Transaction.time := 2000%Z; Transaction.type := "buy";
             Transaction.symbol := "SPY"; Transaction.quantity := 0;
             Transaction.price := 500; Transaction.total := 0;
             Transaction.profitLoss := None |}].
Proof.
  cbv zeta. eexists. eexists.
  split; [vm_compute; reflexivity|].
  repeat split. intros H. discriminate H.
Qed.

(** * Further properties of the code *)

(** ** Loops *)

Lemma fold_left_invariant {S A} (P : S -> Prop) (f : S -> A -> S) (l : list A) (s : S) :
  P s -> (forall s x, In x l -> P s -> P (f s x)) -> P (fold_left f l s).
Proof.
  revert s. induction l as [|x l IH]; intros s Hs Hstep; simpl; [exact Hs|].
  apply IH.
  - apply Hstep; [left; reflexivity | exact Hs].
  - intros s' y Hy. apply Hstep. right. exact Hy.
Qed.

Lemma for_range_invariant {S} (P : S -> Prop) from to (body : nat -> S -> S) (s : S) :
  P s ->
  (forall i s, (from <= i < to)%nat -> P s -> P (body i s)) ->
  P (for_range from to body s).
Proof.
  intros Hs Hstep. unfold for_range. apply fold_left_invariant; [exact Hs|].
  intros s' i Hi. apply in_seq in Hi. apply Hstep. lia.
Qed.

Lemma for_range_push2 {A B} (f : nat -> A) (g : nat -> B) from to
    (a : list A) (b : list B) :
  for_range from to (fun i '(a, b) => (a ++ [f i], b ++ [g i])) (a, b)
  = (a ++ map f (seq from (to - from)), b ++ map g (seq from (to - from))).
Proof.
  unfold for_range. generalize (seq from (to - from)) as l. intros l.
  revert a b. induction l as [|i l IH]; intros a b; simpl.
  - now rewrite !app_nil_r.
  - rewrite IH, <- !app_assoc. reflexivity.
Qed.

Lemma nth_num_skipn xs p j : nth_num (skipn p xs) j = nth_num xs (p + j).
Proof.
  unfold nth_num. revert xs. induction p as [|p IH]; intros xs; simpl; [reflexivity|].
  destruct xs as [|x xs]; [destruct j; reflexivity | apply IH].
Qed.

(** ** Indicator engine: the exponential moving average *)

Lemma ema_loop xs k m : forall p acc prev,
  (p + m <= length xs)%nat ->
  List.last acc 0 = prev ->
  acc <> [] ->
  fold_left
    (fun emaValues i =>
       emaValues ++ [(nth_num xs i - List.last emaValues 0) * k + List.last emaValues 0])
    (seq p m) acc
  = acc ++ ema_from k prev (firstn m (skipn p xs)).
Proof.
  induction m as [|m IH]; intros p acc prev Hlen Hlast Hne; simpl.
  - now rewrite app_nil_r.
  - rewrite Hlast.
    assert (Hsk : skipn p xs = nth_num xs p :: skipn (S p) xs).
    { unfold nth_num. clear -Hlen. revert xs Hlen.
      induction p as [|p IHp]; intros [|x xs] Hlen; simpl in *; try lia; [reflexivity|].
      apply IHp. lia. }
    rewrite Hsk. cbn [firstn ema_from].
    rewrite (IH (S p) _ ((nth_num xs p - prev) * k + prev)).
    + rewrite <- app_assoc. reflexivity.
    + lia.
    + apply last_last.
    + intros Heq. apply app_eq_nil in Heq. destruct Heq as [_ Heq]. discriminate.
Qed.

Lemma ema_values_unfold xs period :
  (period <= length xs)%nat ->
  ema_values xs period
  = mean_of_first xs period
    :: ema_from (2 / (Num.of_nat period + 1)) (mean_of_first xs period) (skipn period xs).
Proof.
  intros Hp. unfold ema_values, for_range, mean_of_first.
  rewrite (ema_loop xs _ (length xs - period) period _
             (sum (slice xs 0 period) / Num.of_nat period)); try lia.
  - cbn [app]. f_equal. f_equal. apply firstn_all2. rewrite length_skipn. lia.
  - reflexivity.
  - discriminate.
Qed.

Lemma ema_from_length k prev xs : length (ema_from k prev xs) = length xs.
Proof.
  revert prev. induction xs as [|x xs IH]; intros prev; simpl; [reflexivity|].
  now rewrite IH.
Qed.

Lemma last_value_last (l : list Q) :
  l <> [] -> last_value l = JNumber (List.last l 0).
Proof.
  intros Hne. destruct l as [|x l] using rev_ind; [congruence|].
  unfold last_value, from_end. rewrite length_app. cbn [length].
  destruct (Nat.ltb_spec (length l + 1) 1) as [Hlt|_]; [lia|].
  rewrite nth_error_app2 by lia.
  replace (length l + 1 - 1 - length l)%nat with 0%nat by lia.
  rewrite last_last. reflexivity.
Qed.

Lemma mean_of_first_mean xs period :
  (period <= length xs)%nat ->
  mean_of_first xs period = mean (firstn period xs).
Proof.
  intros Hp. unfold mean_of_first, mean, slice.
  rewrite Nat.sub_0_r, length_firstn, Nat.min_l by exact Hp. reflexivity.
Qed.

(** X1. [calculateEMA] on [n] candles with the period in force
    ([settings.period], 12 when unset or zero): when [n >= period] the
    series starts with the mean of the first [period] samples and every later
    value is [(price - previous) * k + previous] with [k = 2 / (period + 1)],
    one value per sample from index [period] on, so [n - period + 1] values,
    the last being the reported value; when [n < period] it throws. *)
Theorem calculateEMA_recurrence :
  forall (priceData : PriceData.t) (settings : Settings.t) (h : list Candle.t),
    PriceData.history priceData = Some h ->
    let period := nat_or (Settings.period settings) 12 in
    let prices :=
      map (candle_field (default FClose (Settings.priceField settings))) h in
    let k := 2 / (Num.of_nat period + 1) in
    ((period <= length h)%nat ->
     exists r,
       calculateEMA priceData settings = Ok r
       /\ series_of r
          = mean (firstn period prices)
            :: ema_from k (mean (firstn period prices)) (skipn period prices)
       /\ length (series_of r) = (length h - period + 1)%nat
       /\ IndicatorResult.value r = JNumber (List.last (series_of r) 0))
    /\ ((length h < period)%nat ->
        calculateEMA priceData settings = Throw (NotEnoughData "EMA" period)).
Proof.
  intros priceData settings h Hh period prices k.
  assert (Hlen : length prices = length h) by (unfold prices; apply length_map).
  unfold calculateEMA, prices_of. rewrite Hh. cbn [bind].
  fold period. fold prices. rewrite Hlen. split.
  - intros Hn.
    destruct (Nat.ltb_spec (length h) period) as [Hlt|_]; [lia|].
    eexists. split; [reflexivity|].
    cbn [series_of series_result IndicatorResult.history IndicatorResult.value].
    rewrite ema_values_unfold by lia.
    rewrite mean_of_first_mean by lia. fold k.
    split; [reflexivity|]. split.
    + cbn [length]. rewrite ema_from_length, length_skipn. lia.
    + apply last_value_last. discriminate.
  - intros Hn.
    destruct (Nat.ltb_spec (length h) period) as [_|Hge]; [reflexivity|lia].
Qed.

(** A run of {!calculateEMA_recurrence}: period 2 over the closes 1, 2, 3. *)
Lemma calculateEMA_recurrence_witness :
  exists r,
    calculateEMA (closes [1; 2; 3]) (Settings.of_period 2 FClose) = Ok r
    /\ map Qred (series_of r) = [3 # 2; 5 # 2].
Proof.
  destruct (proj1 (calculateEMA_recurrence (closes [1; 2; 3])
                     (Settings.of_period 2 FClose) _ eq_refl) ltac:(simpl; lia))
    as (r & Hr & Hs & _).
  exists r. split; [exact Hr|]. rewrite Hs. reflexivity.
Defined.

(** ** Indicator engine: the relative strength index *)

Lemma fold_left_size {St A} (size : St -> nat) (f : St -> A -> St) (l : list A) :
  (forall s x, size (f s x) = S (size s)) ->
  forall s, size (fold_left f l s) = (size s + length l)%nat.
Proof.
  intros Hstep. induction l as [|x l IH]; intros s; simpl; [lia|].
  rewrite IH, Hstep. lia.
Qed.

Lemma for_range_size {St} (size : St -> nat) from to (body : nat -> St -> St) (s : St) :
  (forall i s, size (body i s) = S (size s)) ->
  size (for_range from to body s) = (size s + (to - from))%nat.
Proof.
  intros Hstep. unfold for_range. rewrite fold_left_size.
  - rewrite length_seq. reflexivity.
  - intros s' i. apply Hstep.
Qed.

Lemma of_nat_pos n : (0 < n)%nat -> 0 < Num.of_nat n.
Proof.
  intros Hn. unfold Num.of_nat. change 0 with (inject_Z 0).
  rewrite <- Zlt_Qlt. lia.
Qed.

Lemma of_nat_ge_1 n : (0 < n)%nat -> 1 <= Num.of_nat n.
Proof.
  intros Hn. unfold Num.of_nat. change 1 with (inject_Z 1).
  rewrite <- Zle_Qle. lia.
Qed.

Lemma sum_from_nonneg (l : list Q) : forall acc,
  0 <= acc -> Forall (fun x => 0 <= x) l -> 0 <= fold_left Qplus l acc.
Proof.
  induction l as [|x l IH]; intros acc Hacc Hl; simpl; [exact Hacc|].
  inversion Hl; subst. apply IH; [lra | assumption].
Qed.

Lemma sum_nonneg (l : list Q) : Forall (fun x => 0 <= x) l -> 0 <= sum l.
Proof. apply sum_from_nonneg. lra. Qed.

Lemma nth_num_nonneg (l : list Q) i : Forall (fun x => 0 <= x) l -> 0 <= nth_num l i.
Proof.
  intros Hl. unfold nth_num. revert i.
  induction Hl as [|x l Hx _ IH]; intros [|i]; simpl;
    try apply Qle_refl; [exact Hx | apply IH].
Qed.

Lemma div_nonneg a b : 0 <= a -> 0 < b -> 0 <= a / b.
Proof.
  intros Ha Hb. apply Qle_shift_div_l; [exact Hb|]. lra.
Qed.

(** The index stays within 0 and 100 whatever the two averages. *)
Lemma rsi_of_bounds avgGain avgLoss :
  0 <= avgGain -> 0 <= avgLoss ->
  0 <= rsi_of avgGain avgLoss /\ rsi_of avgGain avgLoss <= 100.
Proof.
  intros Hg Hl. unfold rsi_of.
  set (d := if Num.eq avgLoss 0 then 1 # 1000 else avgLoss).
  assert (Hd : 0 < d).
  { unfold d, Num.eq. destruct (Qeq_bool avgLoss 0) eqn:Hz; [reflexivity|].
    apply Qeq_bool_neq in Hz. destruct (Qle_lt_or_eq _ _ Hl) as [Hlt|Heq];
      [exact Hlt | exfalso; apply Hz; symmetry; exact Heq]. }
  assert (Hrs : 0 <= avgGain / d) by (apply div_nonneg; assumption).
  assert (Hpos : 0 < 1 + avgGain / d) by lra.
  assert (Hq : 0 < 100 / (1 + avgGain / d)).
  { apply Qlt_shift_div_l; [exact Hpos | lra]. }
  assert (Hq' : 100 / (1 + avgGain / d) <= 100).
  { apply Qle_shift_div_r; [exact Hpos | lra]. }
  split; lra.
Qed.

Lemma smoothed_nonneg avg x period :
  (0 < period)%nat -> 0 <= avg -> 0 <= x ->
  0 <= (avg * (Num.of_nat period - 1) + x) / Num.of_nat period.
Proof.
  intros Hp Ha Hx. apply div_nonneg; [|apply of_nat_pos; exact Hp].
  assert (H1 := of_nat_ge_1 period Hp).
  assert (0 <= avg * (Num.of_nat period - 1)) by (apply Qmult_le_0_compat; lra).
  lra.
Qed.

(** X2. [calculateRSI] on [n] candles with the period in force
    ([settings.period], 14 when unset or zero): when [n >= period + 1] it
    returns [n - period] values, each of them between 0 and 100, the last
    being the reported value, together with the overbought and oversold
    thresholds (70 and 30 when unset or zero); the first value is
    [100 - 100 / (1 + avgGain / avgLoss)] for the average gain and the
    average loss of the first [period] price changes, 0.001 standing in for
    an average loss of zero; when [n < period + 1] it throws. *)
Theorem calculateRSI_bounded :
  forall (priceData : PriceData.t) (settings : Settings.t) (h : list Candle.t),
    PriceData.history priceData = Some h ->
    let period := nat_or (Settings.period settings) 14 in
    let changes :=
      price_changes
        (map (candle_field (default FClose (Settings.priceField settings))) h) in
    let avgGain := sum (slice (gains_of changes) 0 period) / Num.of_nat period in
    let avgLoss := sum (slice (losses_of changes) 0 period) / Num.of_nat period in
    ((period + 1 <= length h)%nat ->
     exists r,
       calculateRSI priceData settings = Ok r
       /\ length (series_of r) = (length h - period)%nat
       /\ Forall (fun v => 0 <= v /\ v <= 100) (series_of r)
       /\ (exists later,
              series_of r
              = 100 - 100 / (1 + avgGain / (if Num.eq avgLoss 0 then 1 # 1000
                                            else avgLoss)) :: later)
       /\ IndicatorResult.value r = JNumber (List.last (series_of r) 0)
       /\ IndicatorResult.overbought r
          = Some (Num.or_else (Settings.overbought settings) 70)
       /\ IndicatorResult.oversold r
          = Some (Num.or_else (Settings.oversold settings) 30))
    /\ ((length h < period + 1)%nat ->
        calculateRSI priceData settings = Throw (NotEnoughData "RSI" period)).
Proof.
  intros priceData settings h Hh period changes0 avgGain0 avgLoss0.
  assert (Hpos : (0 < period)%nat) by (apply nat_or_pos; lia).
  unfold calculateRSI, prices_of. rewrite Hh. cbn [bind]. fold period.
  set (prices := map (candle_field (default FClose (Settings.priceField settings))) h)
    in *.
  assert (Hlen : length prices = length h) by (unfold prices; apply length_map).
  assert (Hc0 : changes0
                = map (fun i => nth_num prices i - nth_num prices (i - 1))
                    (seq 1 (length h - 1))).
  { unfold changes0, price_changes. rewrite Hlen. reflexivity. }
  rewrite Hlen. split.
  - intros Hn.
    destruct (Nat.ltb_spec (length h) (period + 1)) as [Hlt|_]; [lia|].
    rewrite for_range_push. cbn [app].
    set (changes := map _ (seq 1 (length h - 1))).
    assert (Hsame : changes0 = changes) by exact Hc0.
    set (gains := map _ changes). set (losses := map _ changes).
    assert (Hchanges : length changes = (length h - 1)%nat)
      by (unfold changes; rewrite length_map, length_seq; reflexivity).
    assert (Hgains : Forall (fun x => 0 <= x) gains).
    { unfold gains. apply List.Forall_forall. intros x Hx. apply in_map_iff in Hx.
      destruct Hx as (c & <- & _). destruct (Num.gt c 0) eqn:Hc; [|lra].
      apply Num_gt_iff in Hc. lra. }
    assert (Hlosses : Forall (fun x => 0 <= x) losses).
    { unfold losses. apply List.Forall_forall. intros x Hx. apply in_map_iff in Hx.
      destruct Hx as (c & <- & _). destruct (Num.lt c 0); [apply Qabs_nonneg | lra]. }
    set (avgGain := sum (slice gains 0 period) / Num.of_nat period).
    set (avgLoss := sum (slice losses 0 period) / Num.of_nat period).
    assert (HavgGain : 0 <= avgGain).
    { apply div_nonneg; [|apply of_nat_pos; exact Hpos].
      apply sum_nonneg. unfold slice. apply Forall_take, Forall_drop. exact Hgains. }
    assert (HavgLoss : 0 <= avgLoss).
    { apply div_nonneg; [|apply of_nat_pos; exact Hpos].
      apply sum_nonneg. unfold slice. apply Forall_take, Forall_drop. exact Hlosses. }
    match goal with
    | |- context [for_range ?a ?b ?body ?s] =>
        pose proof (for_range_size (fun '(_, _, v) => length v) a b body s) as Hsize;
        pose proof (for_range_invariant
                      (fun '(g, l, v) =>
                         0 <= g /\ 0 <= l /\ Forall (fun v => 0 <= v /\ v <= 100) v
                         /\ exists later, v = rsi_of avgGain avgLoss :: later)
                      a b body s) as Hinv;
        destruct (for_range a b body s) as [[g l] rsiValues]
    end.
    assert (Hl : length rsiValues = (length h - period)%nat).
    { rewrite Hsize.
      - cbn [length]. lia.
      - intros i [[g' l'] v']. rewrite length_app. cbn [length]. lia. }
    assert (Hb : Forall (fun v => 0 <= v /\ v <= 100) rsiValues
                 /\ exists later, rsiValues = rsi_of avgGain avgLoss :: later).
    { apply Hinv.
      - split; [exact HavgGain|]. split; [exact HavgLoss|].
        split; [|exists []; reflexivity].
        constructor; [|constructor]. apply rsi_of_bounds; assumption.
      - intros i [[g' l'] v'] _ (Hg' & Hl' & Hv' & later & Hfirst).
        assert (0 <= (g' * (Num.of_nat period - 1) + nth_num gains i) / Num.of_nat period)
          by (apply smoothed_nonneg; auto using nth_num_nonneg).
        assert (0 <= (l' * (Num.of_nat period - 1) + nth_num losses i) / Num.of_nat period)
          by (apply smoothed_nonneg; auto using nth_num_nonneg).
        split; [assumption|]. split; [assumption|].
        split; [|rewrite Hfirst; eexists; reflexivity].
        apply Forall_app. split; [exact Hv'|].
        constructor; [|constructor]. apply rsi_of_bounds; assumption. }
    eexists. split; [reflexivity|].
    cbn [series_of series_result IndicatorResult.history IndicatorResult.value
         IndicatorResult.overbought IndicatorResult.oversold].
    split; [exact Hl|]. split; [exact (proj1 Hb)|].
    split.
    { subst avgGain0 avgLoss0. unfold gains_of, losses_of. rewrite Hsame.
      exact (proj2 Hb). }
    split; [|split; reflexivity].
    apply last_value_last. intros ->. simpl in Hl. lia.
  - intros Hn.
    destruct (Nat.ltb_spec (length h) (period + 1)) as [_|Hge]; [reflexivity|lia].
Qed.

(** A run of {!calculateRSI_bounded}: period 3 over six rising closes. *)
Lemma calculateRSI_bounded_witness :
  exists r,
    calculateRSI (closes [1; 2; 3; 4; 5; 6]) (Settings.of_period 3 FClose) = Ok r
    /\ length (series_of r) = 3%nat
    /\ Forall (fun v => 0 <= v /\ v <= 100) (series_of r).
Proof.
  destruct (proj1 (calculateRSI_bounded (closes [1; 2; 3; 4; 5; 6])
                     (Settings.of_period 3 FClose) _ eq_refl) ltac:(simpl; lia))
    as (r & Hr & Hl & Hb & _).
  exists r. split; [exact Hr|]. split; [exact Hl | exact Hb].
Defined.

(** ** Indicator engine: MACD *)

Lemma nat_or_some p d : (0 < p)%nat -> nat_or (Some p) d = p.
Proof. destruct p; simpl; [lia | reflexivity]. Qed.

Lemma ema_values_length xs period :
  (period <= length xs)%nat ->
  length (ema_values xs period) = (length xs - period + 1)%nat.
Proof.
  intros Hp. rewrite ema_values_unfold by exact Hp.
  cbn [length]. rewrite ema_from_length, length_skipn. lia.
Qed.

Lemma diff_lines_map a b :
  diff_lines a b
  = map (fun i => nth_num a i - nth_num b i) (seq 0 (Nat.min (length a) (length b))).
Proof.
  unfold diff_lines. rewrite for_range_push, Nat.sub_0_r. reflexivity.
Qed.

Lemma diff_lines_length a b :
  length (diff_lines a b) = Nat.min (length a) (length b).
Proof. rewrite diff_lines_map, length_map, length_seq. reflexivity. Qed.

Lemma diff_lines_nth a b k :
  (k < Nat.min (length a) (length b))%nat ->
  nth_num (diff_lines a b) k = nth_num a k - nth_num b k.
Proof.
  intros Hk. rewrite diff_lines_map. unfold nth_num at 1.
  set (f := fun i => nth_num a i - nth_num b i).
  rewrite (nth_indep _ 0 (f O)) by (rewrite length_map, length_seq; exact Hk).
  rewrite map_nth, seq_nth by exact Hk. reflexivity.
Qed.

(** The inner call [calculateEMA(priceData, { period, priceField })]. *)
Lemma calculateEMA_of_period priceData h period priceField :
  PriceData.history priceData = Some h ->
  (0 < period)%nat ->
  calculateEMA priceData (Settings.of_period period priceField)
  = if (length h <? period)%nat then Throw (NotEnoughData "EMA" period)
    else Ok (series_result (ema_values (map (candle_field priceField) h) period)
               period (PriceData.timestamp priceData) None None).
Proof.
  intros Hh Hp. unfold calculateEMA, prices_of. rewrite Hh. cbn [bind].
  cbn [Settings.of_period Settings.period Settings.priceField default].
  rewrite nat_or_some by exact Hp. rewrite length_map. reflexivity.
Qed.

(** X3. [calculateMACD] on [n] candles with the fast, slow and signal periods
    in force (12, 26, 9 when unset or zero).  It throws its own error when
    [n < slow + signal]; past that test it throws the error of the fast EMA
    when [n < fast].  Otherwise the MACD line has [n - max fast slow + 1]
    values, each the fast EMA minus the slow EMA at the same index counted
    from the start of both series; the signal line is the EMA of the MACD
    line ([length macd - signal + 1] values, none when the MACD line is
    shorter than the signal period); the histogram has one value per signal
    value, the MACD value minus the signal value at the same index. *)
Theorem calculateMACD_lines :
  forall (priceData : PriceData.t) (settings : Settings.t) (h : list Candle.t),
    PriceData.history priceData = Some h ->
    let fast := nat_or (Settings.fastPeriod settings) 12 in
    let slow := nat_or (Settings.slowPeriod settings) 26 in
    let signal := nat_or (Settings.signalPeriod settings) 9 in
    let prices :=
      map (candle_field (default FClose (Settings.priceField settings))) h in
    ((length h < slow + signal)%nat ->
     calculateMACD priceData settings = Throw (NotEnoughData "MACD" slow))
    /\ ((slow + signal <= length h)%nat -> (length h < fast)%nat ->
        calculateMACD priceData settings = Throw (NotEnoughData "EMA" fast))
    /\ ((slow + signal <= length h)%nat -> (fast <= length h)%nat ->
        exists r macd sig hist,
          calculateMACD priceData settings = Ok r
          /\ IndicatorResult.history r
             = IndicatorResult.Lines
                 [("macd", macd); ("signal", sig); ("histogram", hist)]
          /\ IndicatorResult.value r
             = JObject [("macd", from_end macd 1); ("signal", from_end sig 1);
                        ("histogram", from_end hist 1)]
          /\ length macd = (length h - Nat.max fast slow + 1)%nat
          /\ (forall k, (k < length macd)%nat ->
                nth_num macd k
                = nth_num (ema_values prices fast) k - nth_num (ema_values prices slow) k)
          /\ sig = (if (signal <=? length macd)%nat then ema_values macd signal else [])
          /\ length hist = length sig
          /\ (forall k, (k < length hist)%nat ->
                nth_num hist k = nth_num macd k - nth_num sig k)).
Proof.
  intros priceData settings h Hh fast slow signal prices.
  assert (Hfast : (0 < fast)%nat) by (apply nat_or_pos; lia).
  assert (Hslow : (0 < slow)%nat) by (apply nat_or_pos; lia).
  assert (Hsignal : (0 < signal)%nat) by (apply nat_or_pos; lia).
  assert (Hlen : length prices = length h) by (unfold prices; apply length_map).
  unfold calculateMACD, prices_of. rewrite Hh. cbn [bind].
  fold fast. fold slow. fold signal. rewrite length_map.
  rewrite !(calculateEMA_of_period _ h) by assumption. fold prices.
  split; [|split].
  - intros Hn.
    destruct (Nat.ltb_spec (length h) (slow + signal)) as [_|Hge]; [reflexivity|lia].
  - intros Hn Hf.
    destruct (Nat.ltb_spec (length h) (slow + signal)) as [Hlt|_]; [lia|].
    destruct (Nat.ltb_spec (length h) fast) as [_|Hge]; [reflexivity|lia].
  - intros Hn Hf.
    destruct (Nat.ltb_spec (length h) (slow + signal)) as [Hlt|_]; [lia|].
    destruct (Nat.ltb_spec (length h) fast) as [Hlt|_]; [lia|].
    destruct (Nat.ltb_spec (length h) slow) as [Hlt|_]; [lia|].
    cbn [bind series_of series_result IndicatorResult.history].
    set (macd := diff_lines (ema_values prices fast) (ema_values prices slow)).
    set (sig := if (signal <=? length macd)%nat then ema_values macd signal else []).
    assert (Hmacd : length macd = (length h - Nat.max fast slow + 1)%nat).
    { unfold macd. rewrite diff_lines_length, !ema_values_length by lia. lia. }
    assert (Hsig : (length sig <= length macd)%nat).
    { unfold sig. destruct (Nat.leb_spec signal (length macd)) as [Hle|_].
      - rewrite ema_values_length by exact Hle. lia.
      - simpl. lia. }
    eexists. exists macd, sig, (diff_lines macd sig).
    split; [reflexivity|]. split; [reflexivity|]. split; [reflexivity|].
    split; [exact Hmacd|]. split.
    { intros k Hk. unfold macd. apply diff_lines_nth.
      unfold macd in Hk. rewrite diff_lines_length in Hk. exact Hk. }
    split; [reflexivity|]. split.
    { rewrite diff_lines_length. lia. }
    intros k Hk. apply diff_lines_nth. rewrite diff_lines_length in Hk. exact Hk.
Qed.

(** A run of {!calculateMACD_lines}: periods 2, 3, 2 over six closes. *)
Lemma calculateMACD_lines_witness :
  exists r macd sig hist,
    calculateMACD (closes [1; 2; 4; 7; 11; 16]) (macdSettings 2 3 2) = Ok r
    /\ IndicatorResult.history r
       = IndicatorResult.Lines [("macd", macd); ("signal", sig); ("histogram", hist)]
    /\ length macd = 4%nat
    /\ length hist = length sig.
Proof.
  match goal with
  | |- exists r macd sig hist, calculateMACD ?pd ?st = _ /\ _ =>
      destruct (proj2 (proj2 (calculateMACD_lines pd st _ eq_refl))
                  ltac:(simpl; lia) ltac:(simpl; lia))
        as (r & macd & sig & hist & Hr & Hh & _ & Hm & _ & _ & Hl & _)
  end.
  exists r, macd, sig, hist.
  split; [exact Hr|]. split; [exact Hh|]. split; [exact Hm | exact Hl].
Defined.

(** ** Indicator engine: Bollinger bands *)

Lemma sma_loop_spec prices period :
  (0 < period)%nat ->
  for_range (period - 1) (length prices)
    (fun i smaValues =>
       smaValues ++ [sum (slice prices (i + 1 - period) (i + 1)) / Num.of_nat period])
    []
  = sma_spec period prices.
Proof.
  intros Hp. rewrite for_range_push. simpl. unfold sma_spec.
  apply map_ext_in. intros i Hi. apply in_seq in Hi.
  rewrite slice_window by lia. unfold mean.
  rewrite window_length by lia. reflexivity.
Qed.

Lemma calculateSMA_of_period priceData h period priceField :
  PriceData.history priceData = Some h ->
  (0 < period)%nat ->
  calculateSMA priceData (Settings.of_period period priceField)
  = if (length h <? period)%nat then Throw (NotEnoughData "SMA" period)
    else Ok (series_result (sma_spec period (map (candle_field priceField) h))
               period (PriceData.timestamp priceData) None None).
Proof.
  intros Hh Hp. unfold calculateSMA, prices_of. rewrite Hh. cbn [bind].
  cbn [Settings.of_period Settings.period Settings.priceField default].
  rewrite nat_or_some by exact Hp. rewrite length_map.
  destruct (length h <? period)%nat; [reflexivity|].
  rewrite <- (length_map (candle_field priceField) h).
  rewrite sma_loop_spec by exact Hp. reflexivity.
Qed.

Lemma nth_num_map_seq (f : nat -> Q) a m k :
  (k < m)%nat -> nth_num (map f (seq a m)) k = f (a + k)%nat.
Proof.
  intros Hk. unfold nth_num.
  rewrite (nth_indep _ 0 (f O)) by (rewrite length_map, length_seq; exact Hk).
  rewrite map_nth, seq_nth by exact Hk. reflexivity.
Qed.

(** X4. [calculateBollingerBands] on [n] candles with the period in force
    (20 when unset or zero) and the deviations in force (2 when unset or
    zero): it throws when [n < period]; otherwise the middle band is the
    simple moving average of that period, the upper and lower bands have one
    value per window like it, and at every index the upper band is the
    middle band plus, and the lower band the middle band minus, [deviations]
    times the square root of the mean squared distance of the window's
    prices to the middle band.  With a non-negative square root and
    non-negative deviations the bands are ordered: lower <= middle <= upper. *)
Theorem calculateBollingerBands_bands :
  forall (E : Engine) (priceData : PriceData.t) (settings : Settings.t)
         (h : list Candle.t),
    PriceData.history priceData = Some h ->
    let period := nat_or (Settings.period settings) 20 in
    let deviations := Num.or_else (Settings.deviations settings) 2 in
    let prices :=
      map (candle_field (default FClose (Settings.priceField settings))) h in
    let middle := sma_spec period prices in
    ((length h < period)%nat ->
     calculateBollingerBands priceData settings
     = Throw (NotEnoughData "Bollinger Bands" period))
    /\ ((period <= length h)%nat ->
        exists r upper lower,
          calculateBollingerBands priceData settings = Ok r
          /\ IndicatorResult.history r
             = IndicatorResult.Lines
                 [("middle", middle); ("upper", upper); ("lower", lower)]
          /\ IndicatorResult.value r
             = JObject [("middle", from_end middle 1); ("upper", from_end upper 1);
                        ("lower", from_end lower 1)]
          /\ length middle = (length h - period + 1)%nat
          /\ length upper = length middle
          /\ length lower = length middle
          /\ (forall k, (k < length middle)%nat ->
                let stdDev :=
                  Math_sqrt (variance_about (nth_num middle k)
                               (window prices period (period - 1 + k))) in
                nth_num upper k = nth_num middle k + deviations * stdDev
                /\ nth_num lower k = nth_num middle k - deviations * stdDev)
          /\ ((forall x, 0 <= Math_sqrt x) -> 0 <= deviations ->
              forall k, (k < length middle)%nat ->
                nth_num lower k <= nth_num middle k
                /\ nth_num middle k <= nth_num upper k)).
Proof.
  intros E priceData settings h Hh period deviations prices middle.
  assert (Hpos : (0 < period)%nat) by (apply nat_or_pos; lia).
  assert (Hlen : length prices = length h) by (unfold prices; apply length_map).
  unfold calculateBollingerBands, prices_of. rewrite Hh. cbn [bind].
  fold period. fold deviations. rewrite length_map.
  rewrite (calculateSMA_of_period _ h) by assumption. fold prices. fold middle.
  split.
  - intros Hn.
    destruct (Nat.ltb_spec (length h) period) as [_|Hge]; [reflexivity|lia].
  - intros Hn.
    destruct (Nat.ltb_spec (length h) period) as [Hlt|_]; [lia|].
    cbn [bind series_of series_result IndicatorResult.history].
    set (sd := fun i =>
      Math_sqrt
        (fold_left (fun sum price =>
             sum + (price - nth_num middle (i - (period - 1)))
                   * (price - nth_num middle (i - (period - 1))))
           (slice prices (i + 1 - period) (i + 1)) 0
         / Num.of_nat period)).
    set (up := fun i => nth_num middle (i - (period - 1)) + deviations * sd i).
    set (lo := fun i => nth_num middle (i - (period - 1)) - deviations * sd i).
    change (for_range (period - 1) (length h) _ ([], []))
      with (for_range (period - 1) (length h)
              (fun i '(a, b) => (a ++ [up i], b ++ [lo i])) ([], [])).
    rewrite for_range_push2. cbn [app].
    set (m := (length h - (period - 1))%nat).
    assert (Hmid : length middle = (length h - period + 1)%nat)
      by (unfold middle; rewrite sma_spec_length; lia).
    assert (Hm : m = length middle) by (unfold m; lia).
    eexists. exists (map up (seq (period - 1) m)), (map lo (seq (period - 1) m)).
    split; [reflexivity|]. split; [reflexivity|]. split; [reflexivity|].
    split; [exact Hmid|].
    split; [rewrite length_map, length_seq; exact Hm|].
    split; [rewrite length_map, length_seq; exact Hm|].
    split.
    + intros k Hk. cbv zeta. rewrite !nth_num_map_seq by lia. unfold up, lo, sd.
      replace (period - 1 + k - (period - 1))%nat with k by lia.
      rewrite slice_window by lia.
      unfold variance_about.
      rewrite window_length by lia. split; reflexivity.
    + intros Hsqrt Hdev k Hk. rewrite !nth_num_map_seq by lia. unfold up, lo.
      replace (period - 1 + k - (period - 1))%nat with k by lia.
      assert (0 <= deviations * sd (period - 1 + k)%nat)
        by (apply Qmult_le_0_compat; [exact Hdev | apply Hsqrt]).
      split; lra.
Qed.

(** A run of {!calculateBollingerBands_bands}: period 2 over three closes. *)
Lemma calculateBollingerBands_bands_witness :
  exists r upper lower,
    @calculateBollingerBands absRoot (closes [1; 2; 4])
      (Settings.of_period 2 FClose) = Ok r
    /\ IndicatorResult.history r
       = IndicatorResult.Lines
           [("middle", sma_spec 2 [1; 2; 4]); ("upper", upper); ("lower", lower)]
    /\ (nth_num lower 0 <= nth_num (sma_spec 2 [1; 2; 4]) 0
        /\ nth_num (sma_spec 2 [1; 2; 4]) 0 <= nth_num upper 0).
Proof.
  destruct (proj2 (calculateBollingerBands_bands absRoot (closes [1; 2; 4])
                     (Settings.of_period 2 FClose) _ eq_refl) ltac:(simpl; lia))
    as (r & upper & lower & Hr & Hh & _ & _ & _ & _ & _ & Hord).
  exists r, upper, lower. split; [exact Hr|]. split; [exact Hh|].
  apply Hord.
  - intros x. apply Qabs_nonneg.
  - discriminate.
  - simpl. lia.
Defined.

(** ** Indicator engine: dispatch *)

Lemma md_get_head symbol d rest : md_get ((symbol, d) :: rest) symbol = Some d.
Proof. simpl. rewrite String.eqb_refl. reflexivity. Qed.

(** X5. [applyIndicator] looks the price data up before it looks at the
    subtype: on empty market data it throws the no-data error for every
    block, known subtype or not; a block that names no symbol is computed on
    the first symbol of the market data, by the function of its subtype; and
    with data at hand a subtype other than sma, ema, rsi, macd, bb throws
    the unknown-type error. *)
Theorem applyIndicator_dispatch :
  forall (E : Engine) (block : Block.t),
    applyIndicator block []
    = Throw (NoHistoricalData (string_truthy (Settings.symbol (Block.settings block))))
    /\ (forall first d h rest,
          string_truthy (Settings.symbol (Block.settings block)) = None ->
          PriceData.history d = Some h ->
          (Block.subtype block = "sma" ->
           applyIndicator block ((first, d) :: rest)
           = calculateSMA d (Block.settings block))
          /\ (Block.subtype block <> "sma" -> Block.subtype block <> "ema" ->
              Block.subtype block <> "rsi" -> Block.subtype block <> "macd" ->
              Block.subtype block <> "bb" ->
              applyIndicator block ((first, d) :: rest)
              = Throw (UnknownIndicatorType (Block.subtype block)))
          /\ (Block.subtype block = "ema" ->
              applyIndicator block ((first, d) :: rest)
              = calculateEMA d (Block.settings block))
          /\ (Block.subtype block = "rsi" ->
              applyIndicator block ((first, d) :: rest)
              = calculateRSI d (Block.settings block))
          /\ (Block.subtype block = "macd" ->
              applyIndicator block ((first, d) :: rest)
              = calculateMACD d (Block.settings block))
          /\ (Block.subtype block = "bb" ->
              applyIndicator block ((first, d) :: rest)
              = calculateBollingerBands d (Block.settings block)))
    /\ (forall marketData symbol d,
          string_truthy (Settings.symbol (Block.settings block)) = Some symbol ->
          md_get marketData symbol = Some d ->
          PriceData.history d = None ->
          applyIndicator block marketData = Throw (NoHistoricalData (Some symbol))).
Proof.
  intros E block. split; [|split].
  - unfold applyIndicator.
    destruct (string_truthy (Settings.symbol (Block.settings block))); reflexivity.
  - intros first d h rest Hsym Hh. unfold applyIndicator.
    rewrite Hsym. cbn [md_first_key]. rewrite md_get_head, Hh.
    split; [|split; [|split; [|split; [|split]]]].
    + intros ->. reflexivity.
    + intros H1 H2 H3 H4 H5.
      apply String.eqb_neq in H1, H2, H3, H4, H5.
      rewrite H1, H2, H3, H4, H5. reflexivity.
    + intros ->. reflexivity.
    + intros ->. reflexivity.
    + intros ->. reflexivity.
    + intros ->. reflexivity.
  - intros marketData symbol d Hsym Hget Hh. unfold applyIndicator.
    rewrite Hsym, Hget, Hh. reflexivity.
Qed.

(** A run of {!applyIndicator_dispatch}: an SMA block without symbol on a
    market whose first symbol is SPY. *)
Lemma applyIndicator_dispatch_witness :
  @applyIndicator noBuiltins smaBlock (spyAt 100)
  = calculateSMA (quotedAt 100) (Settings.of_period 2 FClose).
Proof.
  exact (proj1 (proj1 (proj2 (applyIndicator_dispatch noBuiltins smaBlock))
                  "SPY" (quotedAt 100) _ [] eq_refl eq_refl) eq_refl).
Defined.

(** ** Condition evaluator *)

Lemma Num_lt_asym x y : Num.lt x y = true -> Num.lt y x = false.
Proof.
  intros H. apply Num_lt_iff in H. apply not_true_iff_false. intros H'.
  apply Num_lt_iff in H'. exact (Qlt_irrefl _ (Qlt_trans _ _ _ H H')).
Qed.

Lemma ltb_asym s t : String.ltb s t = true -> String.ltb t s = false.
Proof.
  unfold String.ltb. rewrite (String.compare_antisym s t).
  destruct (String.compare t s); simpl; congruence.
Qed.

(** [a < b] and [b < a] never hold together, whatever the values. *)
Lemma js_lt_asym `{Engine} a b : js_lt a b = true -> js_lt b a = false.
Proof.
  unfold js_lt.
  destruct a as [| x | | s | fa], b as [| y | | t | fb]; cbn [ToPrimitive ToNumber];
    try discriminate; try reflexivity;
    try (destruct (ToNumber_string _); try discriminate; try reflexivity;
         apply Num_lt_asym);
    try apply Num_lt_asym; try apply ltb_asym.
Qed.

Lemma Num_le_lt_false x y : Num.le x y = true -> Num.lt y x = false.
Proof. intros H. unfold Num.lt, Num.le in *. rewrite H. reflexivity. Qed.

(** X7. A crossover is never bullish and bearish at once: for two crossover
    blocks on the same two sources, one of direction 'above' and one of
    direction 'below', if the first evaluates to true the second evaluates
    to false, on the same market data and indicators and whatever the kind
    of values compared.  And two fixed values never cross: with both sources
    of type 'value' the condition is false for every direction. *)
Theorem crossover_directions_exclusive :
  forall (E : Engine) above below marketData indicators,
    Settings.source1Type above = Settings.source1Type below ->
    Settings.source2Type above = Settings.source2Type below ->
    Settings.source1 above = Settings.source1 below ->
    Settings.source2 above = Settings.source2 below ->
    Settings.direction above = Some "above" ->
    Settings.direction below = Some "below" ->
    (evaluateCrossover above marketData indicators = Ok true ->
     evaluateCrossover below marketData indicators = Ok false)
    /\ (Settings.source1Type above = Some "value" ->
        Settings.source2Type above = Some "value" ->
        evaluateCrossover above marketData indicators = Ok false
        /\ evaluateCrossover below marketData indicators = Ok false)
    /\ (forall settings,
          Settings.source1Type settings = Some "value" ->
          Settings.source2Type settings = Some "value" ->
          evaluateCrossover settings marketData indicators = Ok false).
Proof.
  intros E above below marketData indicators Ht1 Ht2 Hs1 Hs2 Ha Hb.
  assert (Hno : forall a b,
    (exists x, a = JNumber x) \/ a = JNaN ->
    (exists y, b = JNumber y) \/ b = JNaN ->
    js_le a b && js_gt a b = false /\ js_ge a b && js_lt a b = false).
  { intros a b [[x ->]| ->] [[y ->]| ->]; unfold js_ge, js_gt, js_le, js_lt;
      cbn [ToPrimitive ToNumber]; try (split; reflexivity).
    split.
    - destruct (Num.le x y) eqn:Hle; [|reflexivity].
      rewrite (Num_le_lt_false _ _ Hle). reflexivity.
    - destruct (Num.le y x) eqn:Hle; [|reflexivity].
      rewrite (Num_le_lt_false _ _ Hle). reflexivity. }
  assert (Hpf : forall v, (exists x, parseFloat v = JNumber x) \/ parseFloat v = JNaN).
  { intros [| x | | s | f]; cbn [parseFloat]; eauto.
    destruct (parseFloat_string s); cbn [of_jsnum]; eauto. }
  assert (Hfixed : forall settings,
    Settings.source1Type settings = Some "value" ->
    Settings.source2Type settings = Some "value" ->
    evaluateCrossover settings marketData indicators = Ok false).
  { intros settings H1 H2. unfold evaluateCrossover. rewrite H1, H2.
    cbn [getSourceValue getPreviousSourceValue bind].
    destruct (Hno _ _ (Hpf (Settings.source1 settings))
                (Hpf (Settings.source2 settings))) as [Hab Hbe].
    rewrite Hab, Hbe.
    destruct (is_undefined _ || _ || _ || _); [reflexivity|].
    destruct (Settings.direction settings) as [d|]; [|reflexivity].
    destruct d as [|c d]; [reflexivity|].
    repeat match goal with
           | |- context [match ?o with _ => _ end] => destruct o; try reflexivity
           end. }
  split; [|split; [|exact Hfixed]].
  2: { intros H1 H2. split; apply Hfixed; congruence. }
  unfold evaluateCrossover. rewrite <- Ht1, <- Ht2, <- Hs1, <- Hs2, Ha, Hb.
  destruct (getSourceValue (Settings.source1Type above) _ _ _) as [v1|];
    [|discriminate].
  destruct (getSourceValue (Settings.source2Type above) _ _ _) as [v2|];
    [|discriminate].
  destruct (getPreviousSourceValue (Settings.source1Type above) _ _ _) as [p1|];
    [|discriminate].
  destruct (getPreviousSourceValue (Settings.source2Type above) _ _ _) as [p2|];
    [|discriminate].
  cbn [bind].
  destruct (is_undefined v1 || is_undefined v2 || is_undefined p1 || is_undefined p2);
    [discriminate|].
  intros Htrue. injection Htrue as Htrue. apply andb_true_iff in Htrue.
  destruct Htrue as [_ Hgt]. unfold js_gt in Hgt.
  rewrite (js_lt_asym _ _ Hgt), andb_false_r. reflexivity.
Qed.

(** A run of {!crossover_directions_exclusive} on the crossing market. *)
Lemma crossover_directions_exclusive_witness :
  @evaluateCrossover noBuiltins (closeOverOpen "below") crossingMarket ∅ = Ok false.
Proof.
  exact (proj1 (crossover_directions_exclusive noBuiltins (closeOverOpen "above")
                  (closeOverOpen "below") crossingMarket ∅
                  eq_refl eq_refl eq_refl eq_refl eq_refl eq_refl) eq_refl).
Defined.

(** The threshold a block compares with: a string is parsed, any other
    value is taken as it is. *)
Lemma threshold_not_a_number `{Engine} (value sv : jsval) :
  value = JUndefined \/ value = JNaN
  \/ (exists s, value = JString s /\ parseFloat_string s = None) ->
  sv <> JUndefined ->
  let threshold := match value with JString _ => parseFloat value | _ => value end in
  js_gt sv threshold = false /\ js_lt sv threshold = false
  /\ js_ge sv threshold = false /\ js_le sv threshold = false
  /\ js_strict_eq sv threshold = false.
Proof.
  intros Hv Hsv.
  assert (Ht : match value with JString _ => parseFloat value | _ => value end
               = JUndefined
               \/ match value with JString _ => parseFloat value | _ => value end
                  = JNaN).
  { destruct Hv as [-> | [-> | (s & -> & Hs)]]; cbn [parseFloat]; auto.
    rewrite Hs. auto. }
  cbv zeta. unfold js_gt, js_ge, js_lt, js_le.
  destruct Ht as [-> | ->]; destruct sv as [| x | | s | f];
    cbn [ToPrimitive ToNumber js_strict_eq]; try congruence;
    repeat split; try reflexivity;
    destruct (ToNumber_string _); reflexivity.
Qed.

(** X6. Once its source is resolved, [evaluateThreshold] never throws.  It
    is false for every operator when the source value is undefined, and
    also when the threshold is undefined, NaN or a string that does not
    parse as a number.  For a numeric source [x] and a numeric threshold [t]
    the operators '>', '<', '==', '>=', '<=' (and their long names) are the
    order and equality of the numbers, and any other operator gives false. *)
Theorem evaluateThreshold_semantics :
  forall (E : Engine) settings marketData indicators sv,
    getSourceValue (Settings.sourceType settings) (Settings.source settings)
      marketData indicators = Ok sv ->
    (sv = JUndefined -> evaluateThreshold settings marketData indicators = Ok false)
    /\ (Settings.value settings = JUndefined \/ Settings.value settings = JNaN
        \/ (exists s, Settings.value settings = JString s
                      /\ parseFloat_string s = None) ->
        evaluateThreshold settings marketData indicators = Ok false)
    /\ (forall x t,
          sv = JNumber x ->
          Settings.value settings = JNumber t
          \/ (exists s, Settings.value settings = JString s
                        /\ parseFloat_string s = Some t) ->
          forall op, Settings.operator settings = Some op ->
            exists b,
              evaluateThreshold settings marketData indicators = Ok b
              /\ (op = ">" \/ op = "greater_than" -> (b = true <-> t < x))
              /\ (op = "<" \/ op = "less_than" -> (b = true <-> x < t))
              /\ (op = "==" \/ op = "===" \/ op = "equals" -> (b = true <-> x == t))
              /\ (op = ">=" \/ op = "greater_than_equals" -> (b = true <-> t <= x))
              /\ (op = "<=" \/ op = "less_than_equals" -> (b = true <-> x <= t))
              /\ (op <> ">" -> op <> "greater_than" -> op <> "<" -> op <> "less_than" ->
                  op <> "==" -> op <> "===" -> op <> "equals" ->
                  op <> ">=" -> op <> "greater_than_equals" ->
                  op <> "<=" -> op <> "less_than_equals" -> b = false)).
Proof.
  intros E settings marketData indicators sv Hsrc.
  unfold evaluateThreshold. rewrite Hsrc. cbn [bind]. split; [|split].
  - intros ->. reflexivity.
  - intros Hv. destruct (is_undefined sv) eqn:Hu; [reflexivity|].
    apply is_undefined_false in Hu.
    destruct (threshold_not_a_number _ sv Hv Hu) as (H1 & H2 & H3 & H4 & H5).
    cbv zeta in H1, H2, H3, H4, H5. rewrite H1, H2, H3, H4, H5.
    repeat match goal with
           | |- context [match ?o with _ => _ end] => destruct o; try reflexivity
           end.
  - intros x t -> Hv op Hop. cbn [is_undefined]. rewrite Hop.
    assert (Ht : match Settings.value settings with
                 | JString _ => parseFloat (Settings.value settings)
                 | _ => Settings.value settings
                 end = JNumber t).
    { destruct Hv as [-> | (s & -> & Hs)]; [reflexivity|].
      cbn [parseFloat]. rewrite Hs. reflexivity. }
    rewrite Ht. unfold js_gt, js_ge, js_lt, js_le.
    cbn [ToPrimitive ToNumber js_strict_eq].
    assert (Hcases :
      op = ">" \/ op = "greater_than" \/ op = "<" \/ op = "less_than"
      \/ op = "==" \/ op = "===" \/ op = "equals"
      \/ op = ">=" \/ op = "greater_than_equals"
      \/ op = "<=" \/ op = "less_than_equals"
      \/ (op <> ">" /\ op <> "greater_than" /\ op <> "<" /\ op <> "less_than"
          /\ op <> "==" /\ op <> "===" /\ op <> "equals"
          /\ op <> ">=" /\ op <> "greater_than_equals"
          /\ op <> "<=" /\ op <> "less_than_equals")).
    { repeat match goal with
             | |- op = ?s \/ _ => destruct (String.eqb_spec op s); [left; assumption | right]
             end.
      repeat split; assumption. }
    destruct Hcases as [-> | [-> | [-> | [-> | [-> | [-> | [-> | [-> | [-> | [-> | [-> | Hn]]]]]]]]]]].
    all: try (eexists; split; [reflexivity|];
              do 5 (split;
                    [first [ solve [intros [Heq | Heq]; discriminate Heq]
                           | solve [intros [Heq | [Heq | Heq]]; discriminate Heq]
                           | intros _;
                             first [ apply Num_lt_iff | apply Num_le_iff
                                   | apply Qeq_bool_iff ] ]|]);
              intros; exfalso; congruence).
    destruct Hn as (N1 & N2 & N3 & N4 & N5 & N6 & N7 & N8 & N9 & N10 & N11).
    exists false. split.
    + apply String.eqb_neq in N1, N2, N3, N4, N5, N6, N7, N8, N9, N10, N11.
      destruct op as [|c op]; [reflexivity|].
      repeat match goal with
             | |- context [match ?o with _ => _ end] => destruct o; try reflexivity
             end; simpl in *; congruence.
    + do 5 (split;
            [first [ solve [intros [Heq | Heq]; congruence]
                   | solve [intros [Heq | [Heq | Heq]]; congruence] ]|]).
      intros. reflexivity.
Qed.

(** A run of {!evaluateThreshold_semantics}: is 75 above 70? *)
Lemma evaluateThreshold_semantics_witness :
  exists b,
    @evaluateThreshold noBuiltins (thresholdOn (JNumber 75) ">" (JNumber 70)) [] ∅ = Ok b
    /\ (b = true <-> 70 < 75).
Proof.
  destruct (proj2 (proj2 (evaluateThreshold_semantics noBuiltins
                            (thresholdOn (JNumber 75) ">" (JNumber 70)) [] ∅
                            (JNumber 75) eq_refl))
              75 70 eq_refl (or_introl eq_refl) ">" eq_refl)
    as (b & Hb & Hgt & _).
  exists b. split; [exact Hb|]. apply Hgt. left. reflexivity.
Defined.

(** X8. Every price-action pattern is false, without an error, when the
    market data has no entry for the symbol of the block, when that entry
    has no history, or when the history has fewer than two candles. *)
Theorem evaluatePriceAction_needs_two_candles :
  forall settings marketData,
    (md_get_opt marketData (Settings.symbol settings) = None
     \/ (exists d, md_get_opt marketData (Settings.symbol settings) = Some d
                   /\ (PriceData.history d = None
                       \/ exists h, PriceData.history d = Some h
                                    /\ (length h < 2)%nat))) ->
    evaluatePriceAction settings marketData = false
    /\ forall (E : Engine) block indicators,
         Block.subtype block = "price_action" ->
         Block.settings block = settings ->
         evaluateCondition block marketData indicators = Ok false.
Proof.
  intros settings marketData Hdata.
  assert (Hfalse : evaluatePriceAction settings marketData = false).
  { unfold evaluatePriceAction.
    destruct Hdata as [-> | (d & -> & [-> | (h & -> & Hh)])]; try reflexivity.
    unfold from_end.
    destruct h as [|c1 [|c2 h]]; simpl in *; try reflexivity. lia. }
  split; [exact Hfalse|].
  intros E block indicators Hsub Hset. unfold evaluateCondition.
  rewrite Hsub, Hset. cbn. rewrite Hfalse. reflexivity.
Qed.

(** A run of {!evaluatePriceAction_needs_two_candles} on empty market
    data. *)
Lemma evaluatePriceAction_needs_two_candles_witness :
  evaluatePriceAction (patternOn (Some "SPY") (Some "bullish_candle") None) [] = false.
Proof.
  exact (proj1 (evaluatePriceAction_needs_two_candles
                  (patternOn (Some "SPY") (Some "bullish_candle") None) []
                  (or_introl eq_refl))).
Defined.

Lemma from_end_some {A} (a : list A) i :
  (1 <= i <= length a)%nat -> exists x, from_end a i = Some x.
Proof.
  intros Hi. unfold from_end.
  destruct (Nat.ltb_spec (length a) i) as [Hlt|_]; [lia|].
  destruct (nth_error a (length a - i)) as [x|] eqn:Hx; [eauto|].
  apply nth_error_None in Hx. lia.
Qed.

Lemma from_end_none {A} (a : list A) i : (length a < i)%nat -> from_end a i = None.
Proof.
  intros Hi. unfold from_end.
  destruct (Nat.ltb_spec (length a) i) as [_|Hge]; [reflexivity|lia].
Qed.

Lemma Num_le_false_iff x y : Num.le x y = false <-> y < x.
Proof.
  rewrite <- Num_lt_iff. unfold Num.lt, Num.le.
  destruct (Qle_bool x y); simpl; split; congruence.
Qed.

(** The look-back loop succeeds exactly when none of the candles it visits
    beats the current one. *)
Lemma lookback_loop_spec history beaten left : forall i,
  (1 <= i)%nat ->
  lookback_loop history beaten i left = true
  <-> forall j c, (i <= j < i + left)%nat -> from_end history j = Some c ->
                  beaten c = false.
Proof.
  induction left as [|left IH]; intros i Hi; simpl.
  - split; [|reflexivity]. intros _ j c Hj. lia.
  - destruct (Nat.ltb_spec (length history) i) as [Hlt|Hge].
    + split; [|reflexivity]. intros _ j c Hj Hc.
      rewrite from_end_none in Hc by lia. discriminate.
    + destruct (from_end_some history i ltac:(lia)) as [c Hc]. rewrite Hc.
      destruct (beaten c) eqn:Hb.
      * split; [discriminate|]. intros Hall.
        rewrite (Hall i c ltac:(lia) Hc) in Hb. discriminate.
      * rewrite (IH (S i)) by lia. split.
        -- intros Hall j c' Hj Hc'.
           destruct (Nat.eq_dec j i) as [->|Hne].
           ++ rewrite Hc in Hc'. injection Hc' as <-. exact Hb.
           ++ apply (Hall j c'); [lia | exact Hc'].
        -- intros Hall j c' Hj Hc'. apply (Hall j c'); [lia | exact Hc'].
Qed.

(** X9. With at least two candles in the history, the pattern 'higher_high'
    holds exactly when the high of the last candle is strictly above the
    high of each of the [lookbackPeriod] candles before it (1 when unset),
    as far back as the history reaches; 'lower_low' likewise with the lows
    strictly below.  A look-back of 0 makes both patterns true. *)
Theorem lookback_patterns :
  forall settings marketData d h current,
    md_get_opt marketData (Settings.symbol settings) = Some d ->
    PriceData.history d = Some h ->
    (2 <= length h)%nat ->
    from_end h 1 = Some current ->
    let lookback := default 1%nat (Settings.lookbackPeriod settings) in
    (Settings.patternType settings = Some "higher_high" ->
     (evaluatePriceAction settings marketData = true
      <-> forall i c, (2 <= i <= lookback + 1)%nat -> from_end h i = Some c ->
                      Candle.high c < Candle.high current))
    /\ (Settings.patternType settings = Some "lower_low" ->
        (evaluatePriceAction settings marketData = true
         <-> forall i c, (2 <= i <= lookback + 1)%nat -> from_end h i = Some c ->
                         Candle.low current < Candle.low c))
    /\ (lookback = 0%nat ->
        Settings.patternType settings = Some "higher_high"
        \/ Settings.patternType settings = Some "lower_low" ->
        evaluatePriceAction settings marketData = true).
Proof.
  intros settings marketData d h current Hd Hh Hlen Hcur lookback.
  destruct (from_end_some h 2 ltac:(lia)) as [previous Hprev].
  assert (Hhigh : Settings.patternType settings = Some "higher_high" ->
    evaluatePriceAction settings marketData
    = lookback_loop h (fun c => Num.le (Candle.high current) (Candle.high c))
        2 lookback).
  { intros Hp. unfold evaluatePriceAction. rewrite Hd, Hh, Hcur, Hprev, Hp.
    reflexivity. }
  assert (Hlow : Settings.patternType settings = Some "lower_low" ->
    evaluatePriceAction settings marketData
    = lookback_loop h (fun c => Num.ge (Candle.low current) (Candle.low c))
        2 lookback).
  { intros Hp. unfold evaluatePriceAction. rewrite Hd, Hh, Hcur, Hprev, Hp.
    reflexivity. }
  split; [|split].
  - intros Hp. rewrite (Hhigh Hp), lookback_loop_spec by lia. split.
    + intros Hall i c Hi Hc. specialize (Hall i c ltac:(lia) Hc).
      apply Num_le_false_iff in Hall. exact Hall.
    + intros Hall j c Hj Hc. specialize (Hall j c ltac:(lia) Hc).
      apply not_true_iff_false. intros Hle. apply Num_le_iff in Hle.
      exact (Qlt_not_le _ _ Hall Hle).
  - intros Hp. rewrite (Hlow Hp), lookback_loop_spec by lia. split.
    + intros Hall i c Hi Hc. specialize (Hall i c ltac:(lia) Hc).
      destruct (Qlt_le_dec (Candle.low current) (Candle.low c)) as [Hlt|Hle];
        [exact Hlt|].
      apply Num_ge_iff in Hle. congruence.
    + intros Hall j c Hj Hc. specialize (Hall j c ltac:(lia) Hc).
      apply not_true_iff_false. intros Hle. apply Num_ge_iff in Hle.
      exact (Qlt_not_le _ _ Hall Hle).
  - intros H0 [Hp|Hp].
    + rewrite (Hhigh Hp), H0. reflexivity.
    + rewrite (Hlow Hp), H0. reflexivity.
Qed.

(** A run of {!lookback_patterns}: the last high 9 over the highs 5 and 7. *)
Lemma lookback_patterns_witness :
  evaluatePriceAction (patternOn (Some "SPY") (Some "higher_high") (Some 2%nat))
    risingHighs = true
  /\ Candle.high (candle 6 7 5 6) < Candle.high (candle 7 9 6 8).
Proof.
  split; [reflexivity|].
  refine (proj1 (proj1 (lookback_patterns
                   (patternOn (Some "SPY") (Some "higher_high") (Some 2%nat))
                   risingHighs _ _ (candle 7 9 6 8) eq_refl eq_refl _ eq_refl)
                   eq_refl) eq_refl 2%nat (candle 6 7 5 6) _ eq_refl);
    simpl; lia.
Defined.

(** X10. The candle patterns are consistent with one another on any market
    data: 'bullish_candle' and 'bearish_candle' never hold together, nor do
    'higher_close' and 'lower_close', nor the two engulfing patterns; a
    bullish engulfing or a hammer is a bullish candle and a bearish engulfing
    is a bearish candle.  The result depends on the settings only through
    [symbol], [patternType] and [lookbackPeriod]. *)
Theorem price_patterns_consistent :
  forall symbol lookback marketData,
    let holds := fun name =>
      evaluatePriceAction (patternOn symbol (Some name) lookback) marketData in
    holds "bullish_candle" && holds "bearish_candle" = false
    /\ holds "higher_close" && holds "lower_close" = false
    /\ holds "engulfing_bullish" && holds "engulfing_bearish" = false
    /\ (holds "engulfing_bullish" = true -> holds "bullish_candle" = true)
    /\ (holds "engulfing_bearish" = true -> holds "bearish_candle" = true)
    /\ (holds "hammer" = true -> holds "bullish_candle" = true)
    /\ forall settings,
         Settings.symbol settings = symbol ->
         Settings.lookbackPeriod settings = lookback ->
         evaluatePriceAction settings marketData
         = evaluatePriceAction
             (patternOn symbol (Settings.patternType settings) lookback) marketData.
Proof.
  intros symbol lookback marketData holds.
  assert (Hex : forall x y, Num.gt x y && Num.lt x y = false).
  { intros x y. destruct (Num.gt x y) eqn:Hg; [|reflexivity].
    unfold Num.gt in Hg. rewrite (Num_lt_asym _ _ Hg). reflexivity. }
  unfold holds, evaluatePriceAction.
  cbn [patternOn Settings.symbol Settings.patternType Settings.lookbackPeriod].
  split; [|split; [|split; [|split; [|split; [|split]]]]].
  7: { intros settings <- <-. reflexivity. }
  all: destruct (md_get_opt marketData symbol) as [d|]; try reflexivity;
       try discriminate;
       destruct (PriceData.history d) as [h|]; try reflexivity; try discriminate;
       destruct (from_end h 1) as [current|]; try reflexivity; try discriminate;
       destruct (from_end h 2) as [previous|]; try reflexivity; try discriminate.
  - apply Hex.
  - apply Hex.
  - destruct (Num.gt (Candle.close current) (Candle.open current)) eqn:Hg;
      [|reflexivity].
    unfold Num.gt in Hg. rewrite (Num_lt_asym _ _ Hg). cbn [andb].
    rewrite andb_false_r. reflexivity.
  - intros H. repeat (apply andb_true_iff in H; destruct H as [H ?]). exact H.
  - intros H. repeat (apply andb_true_iff in H; destruct H as [H ?]). exact H.
  - destruct (Num.le (Candle.close current) (Candle.open current)) eqn:Hle;
      [discriminate|].
    intros _. unfold Num.gt, Num.lt. unfold Num.le in Hle. rewrite Hle. reflexivity.
Qed.

(** ** Condition evaluator: price sources *)

Lemma append_nil_r s : s +:+ EmptyString = s.
Proof.
  induction s as [|c s IH]; [reflexivity|].
  change (String c (s +:+ EmptyString) = String c s). f_equal. exact IH.
Qed.

Lemma append_assoc s t u : (s +:+ t) +:+ u = s +:+ (t +:+ u).
Proof.
  induction s as [|c s IH]; [reflexivity|].
  change (String c ((s +:+ t) +:+ u) = String c (s +:+ (t +:+ u))).
  f_equal. exact IH.
Qed.

Lemma split_dot_go_nonempty s cur : split_dot_go s cur <> [].
Proof.
  revert cur. induction s as [|c s IH]; intros cur; simpl; [discriminate|].
  destruct (Ascii.eqb c "."%char); [discriminate | apply IH].
Qed.

Lemma split_dot_go_concat s : forall cur,
  String.concat "." (split_dot_go s cur) = cur +:+ s.
Proof.
  induction s as [|c s IH]; intros cur; simpl.
  - symmetry. apply append_nil_r.
  - destruct (Ascii.eqb_spec c "."%char) as [->|Hc].
    + specialize (IH EmptyString).
      destruct (split_dot_go s EmptyString) as [|x l] eqn:Hs;
        [exfalso; exact (split_dot_go_nonempty _ _ Hs)|].
      cbn [String.concat]. cbn [String.concat] in IH. rewrite IH. reflexivity.
    + rewrite IH, append_assoc. reflexivity.
Qed.

Lemma split_dot_go_dotless s : forall cur,
  dotless s = true -> split_dot_go s cur = [cur +:+ s].
Proof.
  induction s as [|c s IH]; intros cur Hd; simpl in *.
  - rewrite append_nil_r. reflexivity.
  - apply andb_true_iff in Hd. destruct Hd as [Hc Hd].
    apply negb_true_iff in Hc. rewrite Hc, IH, append_assoc by exact Hd.
    reflexivity.
Qed.

Lemma split_dot_go_first s t : forall cur,
  dotless s = true ->
  split_dot_go (s +:+ String "."%char t) cur = (cur +:+ s) :: split_dot_go t EmptyString.
Proof.
  induction s as [|c s IH]; intros cur Hd; simpl in *.
  - rewrite append_nil_r. reflexivity.
  - apply andb_true_iff in Hd. destruct Hd as [Hc Hd].
    apply negb_true_iff in Hc. rewrite Hc, IH, append_assoc by exact Hd.
    reflexivity.
Qed.

Lemma split_dot_pair symbol field :
  dotless symbol = true -> dotless field = true ->
  split_dot (symbol +:+ "." +:+ field) = [symbol; field].
Proof.
  intros Hs Hf. unfold split_dot.
  change (symbol +:+ "." +:+ field) with (symbol +:+ String "."%char field).
  rewrite split_dot_go_first by exact Hs.
  rewrite split_dot_go_dotless by exact Hf. reflexivity.
Qed.

(** X11. [split_dot], the [source.split(".")] of the price sources, loses
    nothing: joining its parts with dots gives the string back, and it
    always returns at least one part.  A string without a dot is its own
    single part, and "symbol.field" with a dot-free symbol splits into the
    symbol followed by the parts of the field. *)
Theorem split_dot_round_trip :
  (forall s, String.concat "." (split_dot s) = s /\ split_dot s <> [])
  /\ (forall s, dotless s = true -> split_dot s = [s])
  /\ (forall symbol field,
        dotless symbol = true ->
        split_dot (symbol +:+ "." +:+ field) = symbol :: split_dot field)
  /\ (forall symbol field,
        dotless symbol = true -> dotless field = true ->
        split_dot (symbol +:+ "." +:+ field) = [symbol; field]).
Proof.
  split; [|split; [|split]].
  - intros s. split; [apply split_dot_go_concat | apply split_dot_go_nonempty].
  - intros s Hs. unfold split_dot. rewrite split_dot_go_dotless by exact Hs.
    reflexivity.
  - intros symbol field Hs. unfold split_dot.
    change (symbol +:+ "." +:+ field) with (symbol +:+ String "."%char field).
    rewrite split_dot_go_first by exact Hs. reflexivity.
  - intros symbol field Hs Hf. apply split_dot_pair; assumption.
Qed.

(** A run of {!split_dot_round_trip} on "SPY.close". *)
Lemma split_dot_round_trip_witness : split_dot "SPY.close" = ["SPY"; "close"].
Proof.
  exact (proj2 (proj2 (proj2 split_dot_round_trip)) "SPY" "close" eq_refl eq_refl).
Defined.

(** X12. A price source "symbol.field" whose symbol has no dot reads the
    named field of the last candle of that symbol for the current value and
    of the candle before it for the previous value; the previous value is
    undefined when the history has fewer than two candles, and both are
    undefined when the market data has no entry for the symbol.  A source
    that is not a string throws. *)
Theorem price_source_values :
  forall (E : Engine) symbol field marketData indicators,
    dotless symbol = true -> dotless field = true ->
    let source := JString (symbol +:+ "." +:+ field) in
    (md_get marketData symbol = None ->
     getSourceValue (Some "price") source marketData indicators = Ok JUndefined
     /\ getPreviousSourceValue (Some "price") source marketData indicators
        = Ok JUndefined)
    /\ (forall d h,
          md_get marketData symbol = Some d ->
          PriceData.history d = Some h ->
          (forall current, from_end h 1 = Some current ->
             getSourceValue (Some "price") source marketData indicators
             = Ok (candle_get current (Some field)))
          /\ (forall previous, from_end h 2 = Some previous ->
                getPreviousSourceValue (Some "price") source marketData indicators
                = Ok (candle_get previous (Some field)))
          /\ ((length h < 2)%nat ->
              getPreviousSourceValue (Some "price") source marketData indicators
              = Ok JUndefined))
    /\ (forall q,
          getSourceValue (Some "price") (JNumber q) marketData indicators
          = Throw TypeError
          /\ getSourceValue (Some "price") JUndefined marketData indicators
             = Throw TypeError).
Proof.
  intros E symbol field marketData indicators Hs Hf source.
  assert (Hsplit : split_dot (symbol +:+ "." +:+ field) = [symbol; field])
    by (apply split_dot_pair; assumption).
  unfold source, getSourceValue, getPreviousSourceValue. rewrite Hsplit.
  cbn [nth_error]. unfold md_get_opt.
  change (default "undefined" (Some symbol)) with symbol. split; [|split].
  - intros ->. split; reflexivity.
  - intros d h -> ->. split; [|split].
    + intros current ->. reflexivity.
    + intros previous Hp. rewrite Hp.
      destruct (Nat.ltb_spec (length h) 2) as [Hlt|_]; [|reflexivity].
      rewrite from_end_none in Hp by exact Hlt. discriminate.
    + intros Hlt. destruct (Nat.ltb_spec (length h) 2) as [_|Hge]; [reflexivity|lia].
  - intros q. split; reflexivity.
Qed.

(** A run of {!price_source_values}: the close of SPY on the crossing
    market. *)
Lemma price_source_values_witness :
  @getSourceValue noBuiltins (Some "price") (JString "SPY.close") crossingMarket ∅
  = Ok (JNumber 10).
Proof.
  exact (proj1 (proj1 (proj2 (price_source_values noBuiltins "SPY" "close"
                                crossingMarket ∅ eq_refl eq_refl))
                  _ _ eq_refl eq_refl) (candle 9 10 9 10) eq_refl).
Defined.

(** A run of {!price_patterns_consistent} on the rising-candle condition of
    the example strategy. *)
Lemma price_patterns_consistent_witness :
  evaluatePriceAction (Block.settings risingCandle) (spyAt 100)
  = evaluatePriceAction (patternOn (Some "SPY") (Some "bullish_candle") None)
      (spyAt 100).
Proof.
  exact (proj2 (proj2 (proj2 (proj2 (proj2 (proj2
           (price_patterns_consistent (Some "SPY") None (spyAt 100)))))))
           (Block.settings risingCandle) eq_refl eq_refl).
Defined.

(** ** Action generator *)

Lemma md_price_truthy marketData symbol p :
  md_price marketData symbol = Some p -> Num.falsy p = false.
Proof.
  unfold md_price. destruct (md_get marketData symbol) as [d|]; [|discriminate].
  destruct (Num.truthy (PriceData.price d)) eqn:Ht; [|discriminate].
  intros Hp. rewrite Hp in Ht. simpl in Ht. apply negb_true_iff. exact Ht.
Qed.

Lemma resolve_order_price_truthy price orderType symbol marketData p :
  resolve_order_price price orderType symbol marketData = Some p ->
  Num.falsy p = false.
Proof.
  unfold resolve_order_price.
  destruct (negb (Num.truthy price) || (orderType =? "market")) eqn:Hm.
  - apply md_price_truthy.
  - intros ->. apply orb_false_iff in Hm. destruct Hm as [Hm _].
    apply negb_false_iff in Hm. simpl in Hm. apply negb_true_iff. exact Hm.
Qed.

(** X13. Buy and sell blocks emit a signal exactly when an execution price
    is found, and the signal always carries that price, which is never zero:
    the market price of the symbol for a market order (the default) or when
    the block sets no price, the price setting otherwise.  The portfolio
    simulator therefore executes such a signal at the price it carries,
    whatever the market data it is given. *)
Theorem generated_orders_carry_their_price :
  forall settings marketData now,
    let symbol := default "SPY" (Settings.symbol settings) in
    let orderType := default "market" (Settings.orderType settings) in
    let resolved :=
      resolve_order_price (Settings.price settings) orderType symbol marketData in
    (resolved = None ->
     executeBuyOrder settings marketData now = None
     /\ executeSellOrder settings marketData now = None)
    /\ (forall p,
          resolved = Some p ->
          ~ p == 0
          /\ (orderType = "market" \/ Num.truthy (Settings.price settings) = false ->
              md_price marketData symbol = Some p)
          /\ (orderType <> "market" -> Num.truthy (Settings.price settings) = true ->
              Settings.price settings = Some p)
          /\ exists buySignal sellSignal,
               executeBuyOrder settings marketData now = Some buySignal
               /\ executeSellOrder settings marketData now = Some sellSignal
               /\ Signal.action buySignal = "buy"
               /\ Signal.action sellSignal = "sell"
               /\ Signal.symbol buySignal = symbol
               /\ Signal.symbol sellSignal = symbol
               /\ Signal.price buySignal = Some p
               /\ Signal.price sellSignal = Some p
               /\ forall marketData',
                    executionPrice_of buySignal marketData' = p
                    /\ executionPrice_of sellSignal marketData' = p).
Proof.
  intros settings marketData now symbol orderType resolved. split.
  - intros Hr. unfold executeBuyOrder, executeSellOrder.
    fold symbol. fold orderType. fold resolved. rewrite Hr. split; reflexivity.
  - intros p Hr.
    assert (Hp : Num.falsy p = false) by (eapply resolve_order_price_truthy; exact Hr).
    split; [|split; [|split]].
    + intros Hz. apply Qeq_bool_iff in Hz. unfold Num.falsy in Hp. congruence.
    + intros Hm. unfold resolved, resolve_order_price in Hr.
      destruct Hm as [Hm|Hm].
      * rewrite Hm, orb_true_r in Hr. exact Hr.
      * rewrite Hm in Hr. exact Hr.
    + intros Hm Ht. unfold resolved, resolve_order_price in Hr.
      apply String.eqb_neq in Hm. rewrite Hm, Ht in Hr. exact Hr.
    + unfold executeBuyOrder, executeSellOrder.
      fold symbol. fold orderType. fold resolved. rewrite Hr.
      eexists. eexists. do 8 (split; [reflexivity|]).
      intros marketData'. unfold executionPrice_of.
      cbn [Signal.price Num.or_else]. rewrite Hp. split; reflexivity.
Qed.

(** A run of {!generated_orders_carry_their_price}: a market buy of SPY
    quoted at 100. *)
Lemma generated_orders_carry_their_price_witness :
  md_price (spyAt 100) "SPY" = Some 100 /\ ~ 100 == 0.
Proof.
  destruct (proj2 (generated_orders_carry_their_price (actionSettings "SPY" None)
                     (spyAt 100) 0%Z) 100 eq_refl) as (Hnz & Hm & _).
  split; [|exact Hnz]. apply Hm. left. reflexivity.
Defined.




(** ** Portfolio simulator: sales and rejections *)

Lemma is_sell_not_buy action : is_sell action = true -> is_buy action = false.
Proof.
  unfold is_sell, is_buy. intros H. apply orb_true_iff in H.
  destruct H as [H|H]; apply String.eqb_eq in H; subst; reflexivity.
Qed.

Lemma delete_middle_eq {A} (before after : list A) (x : A) :
  delete (length before) (before ++ x :: after) = before ++ after.
Proof. induction before; simpl; [reflexivity | f_equal; assumption]. Qed.

Lemma executeSignal_sell now marketData session signal :
  is_sell (Signal.action signal) = true ->
  0 < executionPrice_of signal marketData ->
  executeSignal now marketData session signal
  = sell now session (Signal.symbol signal) (executionPrice_of signal marketData)
      (tradeQuantity_of session signal (executionPrice_of signal marketData)).
Proof.
  intros Hsell Hp. unfold executeSignal.
  rewrite (positive_price _ Hp), (is_sell_not_buy _ Hsell), Hsell. reflexivity.
Qed.

(** X15. A sell (or short) signal with execution price [p > 0] and resolved
    quantity [q], on a session whose position for the symbol holds at least
    [q]: the cash balance grows by [p * q], one 'sell' transaction of total
    [p * q] and profit [(p - averageCost) * q] is appended, no error is
    recorded, and the position keeps its average cost with [q] shares fewer,
    or is removed from [positions] when no share is left. *)
Theorem sell_signal_applied :
  forall now marketData session signal p q before position after,
    is_sell (Signal.action signal) = true ->
    executionPrice_of signal marketData = p ->
    0 < p ->
    tradeQuantity_of session signal p = q ->
    Session.positions session = before ++ position :: after ->
    Forall (fun x => Position.symbol x <> Signal.symbol signal) before ->
    Position.symbol position = Signal.symbol signal ->
    q <= Position.quantity position ->
    let session' := executeSignal now marketData session signal in
    Session.cashBalance session' = Session.cashBalance session + p * q
    /\ Session.transactions session'
       = Session.transactions session ++ [sellRecord now position p q]
    /\ Session.errors session' = Session.errors session
    /\ (Position.quantity position - q <= 0 ->
        Session.positions session' = before ++ after)
    /\ (0 < Position.quantity position - q ->
        Session.positions session' = before ++ reduced now position q :: after).
Proof.
  intros now marketData session signal p q before position after
    Hsell Hp Hpos Hq Hsplit Hbefore Hsym Hheld session'.
  subst session'. rewrite executeSignal_sell by (rewrite ?Hp; assumption).
  rewrite Hp, Hq. unfold sell. rewrite Hsplit.
  rewrite (findIndex_first _ before after position (other_symbols _ _ Hbefore))
    by (apply String.eqb_eq; exact Hsym).
  rewrite lookup_middle_eq.
  assert (Hlt : Num.lt (Position.quantity position) q = false).
  { apply not_true_iff_false. intros H. apply Num_lt_iff in H.
    exact (Qlt_not_le _ _ H Hheld). }
  rewrite Hlt.
  split; [reflexivity|]. split.
  { cbn. unfold sellRecord. rewrite Hsym. reflexivity. }
  split; [reflexivity|]. split.
  - intros Hle. apply Num_le_iff in Hle. rewrite Hle.
    cbn. apply delete_middle_eq.
  - intros Hgt. apply Num_le_false_iff in Hgt. rewrite Hgt.
    cbn. apply insert_middle_eq.
Qed.

(** A run of {!sell_signal_applied}: 5 shares of a 15-share position bought
    at 320/3 on average are sold at 130. *)
Lemma sell_signal_applied_witness :
  let session' :=
    executeSignal 3%Z [] (portfolio 8400 [holding "SPY" 15 (320 # 3) 1%Z 2%Z])
      (order "sell" "SPY" 130 5) in
  Session.cashBalance session' = 8400 + 130 * 5
  /\ Session.transactions session'
     = [sellRecord 3%Z (holding "SPY" 15 (320 # 3) 1%Z 2%Z) 130 5]
  /\ Session.positions session' = [reduced 3%Z (holding "SPY" 15 (320 # 3) 1%Z 2%Z) 5].
Proof.
  destruct (sell_signal_applied 3%Z [] (portfolio 8400 [holding "SPY" 15 (320 # 3) 1%Z 2%Z])
              (order "sell" "SPY" 130 5) 130 5 [] (holding "SPY" 15 (320 # 3) 1%Z 2%Z) []
              eq_refl eq_refl eq_refl eq_refl eq_refl (List.Forall_nil _) eq_refl
              ltac:(discriminate))
    as (Hc & Ht & _ & _ & Hp).
  split; [exact Hc|]. split; [exact Ht|]. apply Hp. reflexivity.
Defined.

(** ** Portfolio simulator: rejections *)

Lemma invalid_price_rejected now marketData session signal :
  executionPrice_of signal marketData <= 0 ->
  executeSignal now marketData session signal
  = push_error now (InvalidPrice (Signal.action signal) (Signal.symbol signal)
                      (executionPrice_of signal marketData)) session.
Proof.
  intros Hp. unfold executeSignal. apply Num_le_iff in Hp. rewrite Hp. reflexivity.
Qed.

Lemma sell_without_position_rejected now marketData session signal :
  0 < executionPrice_of signal marketData ->
  is_sell (Signal.action signal) = true ->
  Forall (fun x => Position.symbol x <> Signal.symbol signal)
    (Session.positions session) ->
  executeSignal now marketData session signal
  = push_error now (NoPositionFound (Signal.symbol signal)) session.
Proof.
  intros Hp Hsell Hnone. rewrite executeSignal_sell by assumption. unfold sell.
  rewrite (findIndex_none _ _ (other_symbols _ _ Hnone)). reflexivity.
Qed.

Lemma oversell_rejected now marketData session signal before position after :
  0 < executionPrice_of signal marketData ->
  is_sell (Signal.action signal) = true ->
  Session.positions session = before ++ position :: after ->
  Forall (fun x => Position.symbol x <> Signal.symbol signal) before ->
  Position.symbol position = Signal.symbol signal ->
  let q := tradeQuantity_of session signal (executionPrice_of signal marketData) in
  Position.quantity position < q ->
  executeSignal now marketData session signal
  = push_error now (InsufficientShares q (Signal.symbol signal)
                      (Position.quantity position)) session.
Proof.
  intros Hp Hsell Hsplit Hbefore Hsym q Hq.
  rewrite executeSignal_sell by assumption. unfold sell. rewrite Hsplit.
  rewrite (findIndex_first _ before after position (other_symbols _ _ Hbefore))
    by (apply String.eqb_eq; exact Hsym).
  rewrite lookup_middle_eq. fold q.
  apply Num_lt_iff in Hq. rewrite Hq. reflexivity.
Qed.

(** X16. A signal is rejected with exactly one error entry, everything
    else in the session staying as it was, in three cases: its execution
    price is zero or negative (whatever its action, and in particular when
    it carries no price and the market data has none for its symbol); it is
    a sell and the session holds no position for the symbol; it is a sell of
    more shares than the position holds.  The later signals of the cycle are
    still processed. *)
Theorem rejected_signals :
  forall now marketData session signal rest,
    let p := executionPrice_of signal marketData in
    let q := tradeQuantity_of session signal p in
    let symbol := Signal.symbol signal in
    let continues := fun m =>
      executeSignal now marketData session signal = push_error now m session
      /\ executeSignals now session (signal :: rest) marketData
         = executeSignals now (push_error now m session) rest marketData in
    (p <= 0 -> continues (InvalidPrice (Signal.action signal) symbol p))
    /\ (Num.truthy (Signal.price signal) = false ->
        md_price marketData symbol = None -> p = 0)
    /\ (0 < p -> is_sell (Signal.action signal) = true ->
        Forall (fun x => Position.symbol x <> symbol) (Session.positions session) ->
        continues (NoPositionFound symbol))
    /\ (0 < p -> is_sell (Signal.action signal) = true ->
        forall before position after,
          Session.positions session = before ++ position :: after ->
          Forall (fun x => Position.symbol x <> symbol) before ->
          Position.symbol position = symbol ->
          Position.quantity position < q ->
          continues (InsufficientShares q symbol (Position.quantity position))).
Proof.
  intros now marketData session signal rest p q symbol continues.
  subst symbol.
  assert (Hcont : forall m,
    executeSignal now marketData session signal = push_error now m session ->
    continues m).
  { intros m Hm. split; [exact Hm|]. cbn [executeSignals fold_left].
    rewrite Hm. reflexivity. }
  split; [|split; [|split]].
  - intros Hp. apply Hcont. apply invalid_price_rejected. exact Hp.
  - intros Hprice Hmd. unfold p, executionPrice_of.
    unfold md_price in Hmd.
    assert (Hsig : Num.or_else (Signal.price signal) = fun d => d).
    { unfold Num.truthy in Hprice. unfold Num.or_else.
      destruct (Signal.price signal) as [v|]; [|reflexivity].
      apply negb_false_iff in Hprice. rewrite Hprice. reflexivity. }
    rewrite Hsig.
    destruct (md_get marketData (Signal.symbol signal)) as [d|]; [|reflexivity].
    unfold Num.truthy in Hmd. unfold Num.or_else.
    destruct (PriceData.price d) as [v|]; [|reflexivity].
    destruct (Num.falsy v); [reflexivity | discriminate].
  - intros Hp Hsell Hnone. apply Hcont.
    apply sell_without_position_rejected; assumption.
  - intros Hp Hsell before position after Hsplit Hbefore Hsym Hq. apply Hcont.
    exact (oversell_rejected now marketData session signal before position after
             Hp Hsell Hsplit Hbefore Hsym Hq).
Qed.

(** A run of {!rejected_signals}: a sale of SPY by a session that holds
    none. *)
Lemma rejected_signals_witness :
  executeSignal 1%Z [] (portfolio 10000 []) (order "sell" "SPY" 100 10)
  = push_error 1%Z (NoPositionFound "SPY") (portfolio 10000 []).
Proof.
  exact (proj1 (proj1 (proj2 (proj2 (rejected_signals 1%Z [] (portfolio 10000 [])
                  (order "sell" "SPY" 100 10) []))) eq_refl eq_refl (List.Forall_nil _))).
Defined.

(** ** Portfolio simulator: the outcomes of one signal *)

Lemma positions_split symbol (positions : list Position.t) :
  Forall (fun x => Position.symbol x <> symbol) positions
  \/ exists before position after,
       positions = before ++ position :: after
       /\ Forall (fun x => Position.symbol x <> symbol) before
       /\ Position.symbol position = symbol.
Proof.
  induction positions as [|x positions IH]; [left; constructor|].
  destruct (String.eqb_spec (Position.symbol x) symbol) as [Heq|Hne].
  - right. exists [], x, positions. repeat split; [constructor | exact Heq].
  - destruct IH as [Hall | (before & position & after & -> & Hb & Hs)].
    + left. constructor; assumption.
    + right. exists (x :: before), position, after.
      repeat split; [constructor; assumption | exact Hs].
Qed.

(** The session a covered sale leaves, in full. *)
Lemma sell_signal_applied_full now marketData session signal before position after :
  is_sell (Signal.action signal) = true ->
  0 < executionPrice_of signal marketData ->
  Session.positions session = before ++ position :: after ->
  Forall (fun x => Position.symbol x <> Signal.symbol signal) before ->
  Position.symbol position = Signal.symbol signal ->
  let p := executionPrice_of signal marketData in
  let q := tradeQuantity_of session signal p in
  q <= Position.quantity position ->
  (Position.quantity position - q <= 0
   /\ executeSignal now marketData session signal
      = sold now session position p q (before ++ after))
  \/ (0 < Position.quantity position - q
      /\ executeSignal now marketData session signal
         = sold now session position p q (before ++ reduced now position q :: after)).
Proof.
  intros Hsell Hp Hsplit Hbefore Hsym p q Hheld.
  rewrite executeSignal_sell by assumption. fold p. fold q.
  unfold sell. rewrite Hsplit.
  rewrite (findIndex_first _ before after position (other_symbols _ _ Hbefore))
    by (apply String.eqb_eq; exact Hsym).
  rewrite lookup_middle_eq.
  assert (Hlt : Num.lt (Position.quantity position) q = false).
  { apply not_true_iff_false. intros H. apply Num_lt_iff in H.
    exact (Qlt_not_le _ _ H Hheld). }
  rewrite Hlt.
  destruct (Qlt_le_dec 0 (Position.quantity position - q)) as [Hgt|Hle].
  - right. split; [exact Hgt|]. apply Num_le_false_iff in Hgt. rewrite Hgt.
    rewrite insert_middle_eq. unfold sold, sellRecord, reduced. rewrite Hsym.
    reflexivity.
  - left. split; [exact Hle|]. apply Num_le_iff in Hle. rewrite Hle.
    rewrite delete_middle_eq. unfold sold, sellRecord, reduced. rewrite Hsym.
    reflexivity.
Qed.

(** Every signal has one of the six outcomes. *)
Lemma executeSignal_outcome now marketData session signal :
  outcome now session (Signal.action signal) (Signal.symbol signal)
    (executionPrice_of signal marketData)
    (tradeQuantity_of session signal (executionPrice_of signal marketData))
    (executeSignal now marketData session signal).
Proof.
  set (p := executionPrice_of signal marketData).
  set (q := tradeQuantity_of session signal p).
  destruct (Qlt_le_dec 0 p) as [Hp|Hp].
  2: { rewrite (invalid_price_rejected now marketData session signal Hp).
       constructor. }
  destruct (is_buy (Signal.action signal)) eqn:Hbuy.
  - unfold p in Hp. rewrite executeSignal_buy by assumption. fold p. fold q.
    destruct (Qlt_le_dec (Session.cashBalance session) (p * q)) as [Hcost|Hcost].
    + unfold buy. apply Num_gt_iff in Hcost. rewrite Hcost. constructor.
    + destruct (positions_split (Signal.symbol signal) (Session.positions session))
        as [Hnone | (before & position & after & Hsplit & Hb & Hs)].
      * rewrite buy_opens by assumption. apply Opened; assumption.
      * rewrite (buy_averages _ _ _ _ _ _ _ _ Hcost Hsplit Hb Hs).
        eapply Averaged; eassumption.
  - destruct (is_sell (Signal.action signal)) eqn:Hsell.
    + destruct (positions_split (Signal.symbol signal) (Session.positions session))
        as [Hnone | (before & position & after & Hsplit & Hb & Hs)].
      * rewrite (sell_without_position_rejected now marketData session signal
                   Hp Hsell Hnone). constructor.
      * destruct (Qlt_le_dec (Position.quantity position) q) as [Hq|Hq].
        -- rewrite (oversell_rejected now marketData session signal before position
                      after Hp Hsell Hsplit Hb Hs Hq). constructor.
        -- destruct (sell_signal_applied_full now marketData session signal
                       before position after Hsell Hp Hsplit Hb Hs Hq)
             as [[Hle ->] | [Hgt ->]].
           ++ eapply Closed; eassumption.
           ++ eapply Reduced; eassumption.
    + unfold executeSignal. fold p. rewrite (positive_price _ Hp), Hbuy, Hsell.
      apply Ignored; assumption.
Qed.

(** ** Portfolio simulator: invariants of a cycle *)

Lemma symbols_absent symbol (positions : list Position.t) :
  Forall (fun x => Position.symbol x <> symbol) positions ->
  ~ In symbol (map Position.symbol positions).
Proof.
  induction 1 as [|x positions Hx _ IH]; simpl; [tauto|].
  intros [Heq|Hin]; [exact (Hx Heq) | exact (IH Hin)].
Qed.

Lemma NoDup_snoc {A} (l : list A) x :
  List.NoDup l -> ~ In x l -> List.NoDup (l ++ [x]).
Proof.
  induction 1 as [|y l Hy Hl IH]; intros Hx; simpl.
  - constructor; [tauto | constructor].
  - constructor.
    + rewrite in_app_iff. simpl. intros [Hin | [Heq | []]]; [exact (Hy Hin)|].
      apply Hx. left. symmetry. exact Heq.
    + apply IH. intros Hin. apply Hx. right. exact Hin.
Qed.

Lemma outcome_unique now session action symbol p q session' :
  outcome now session action symbol p q session' ->
  List.NoDup (map Position.symbol (Session.positions session)) ->
  List.NoDup (map Position.symbol (Session.positions session')).
Proof.
  intros Hout Hnd.
  destruct Hout as [m | _ _ | _ _ _ Hnone
                   | before position after _ _ _ Hsplit _ Hsym
                   | before position after _ _ Hsplit _ _ _ _
                   | before position after _ _ Hsplit _ Hsym _ _];
    cbn [push_error bought sold Session.positions Session.set_errors
         Session.set_transactions Session.set_cashBalance Session.set_positions];
    try exact Hnd.
  - rewrite map_app. apply NoDup_snoc; [exact Hnd | apply symbols_absent; exact Hnone].
  - rewrite Hsplit in Hnd. rewrite map_app in *. exact Hnd.
  - rewrite Hsplit in Hnd. rewrite map_app in *. cbn [map] in Hnd.
    exact (List.NoDup_remove_1 _ _ _ Hnd).
  - rewrite Hsplit in Hnd. rewrite map_app in *. exact Hnd.
Qed.

(** X17. A session never comes to hold two positions for one symbol: if
    the symbols of [positions] are pairwise distinct before [executeSignals]
    they are pairwise distinct after it, whatever the signals and the market
    data. *)
Theorem positions_stay_unique :
  forall now marketData signals session,
    List.NoDup (map Position.symbol (Session.positions session)) ->
    List.NoDup (map Position.symbol
                  (Session.positions (executeSignals now session signals marketData))).
Proof.
  intros now marketData signals. unfold executeSignals.
  induction signals as [|signal signals IH]; intros session Hnd; simpl; [exact Hnd|].
  apply IH. eapply outcome_unique; [apply executeSignal_outcome | exact Hnd].
Qed.

(** A run of {!positions_stay_unique}: two buys of SPY leave one position. *)
Lemma positions_stay_unique_witness :
  List.NoDup (map Position.symbol
                (Session.positions
                   (executeSignals 1%Z (portfolio 10000 [])
                      [order "buy" "SPY" 100 10; order "buy" "SPY" 120 5] []))).
Proof.
  apply (positions_stay_unique 1%Z [] _ (portfolio 10000 [])). constructor.
Defined.

Lemma explicit_quantity session signal p q :
  Signal.quantity signal = Some q -> 0 < q ->
  tradeQuantity_of session signal p = q.
Proof.
  intros Hq Hpos. unfold tradeQuantity_of. rewrite Hq.
  destruct (Num.falsy q) eqn:Hz; [|reflexivity].
  apply Qeq_bool_iff in Hz. rewrite Hz in Hpos. discriminate.
Qed.

Lemma outcome_sound now session action symbol p q session' :
  outcome now session action symbol p q session' ->
  0 < q ->
  Forall (fun x => 0 < Position.quantity x) (Session.positions session) ->
  0 <= Session.cashBalance session ->
  Forall (fun x => 0 < Position.quantity x) (Session.positions session')
  /\ 0 <= Session.cashBalance session'.
Proof.
  intros Hout Hq Hpos Hcash.
  destruct Hout as [m | _ _ | _ Hp Hcost _
                   | before position after _ Hp Hcost Hsplit _ _
                   | before position after _ Hp Hsplit _ _ _ _
                   | before position after _ Hp Hsplit _ _ _ Hleft];
    cbn [push_error bought sold Session.positions Session.cashBalance
         Session.set_errors Session.set_transactions Session.set_cashBalance
         Session.set_positions];
    try (split; assumption).
  - split; [|lra]. apply Forall_app. split; [exact Hpos|].
    constructor; [exact Hq | constructor].
  - split; [|lra]. rewrite Hsplit in Hpos. apply Forall_app in Hpos.
    destruct Hpos as [Hb Hrest]. inversion Hrest as [|? ? Hx Ha]; subst.
    apply Forall_app. split; [exact Hb|]. constructor; [|exact Ha].
    cbn. lra.
  - assert (0 <= p * q) by (apply Qmult_le_0_compat; lra).
    split; [|lra]. rewrite Hsplit in Hpos. apply Forall_app in Hpos.
    destruct Hpos as [Hb Hrest]. inversion Hrest as [|? ? Hx Ha]; subst.
    apply Forall_app. split; assumption.
  - assert (0 <= p * q) by (apply Qmult_le_0_compat; lra).
    split; [|lra]. rewrite Hsplit in Hpos. apply Forall_app in Hpos.
    destruct Hpos as [Hb Hrest]. inversion Hrest as [|? ? Hx Ha]; subst.
    apply Forall_app. split; [exact Hb|]. constructor; [exact Hleft | exact Ha].
Qed.

(** X18. When every signal of a cycle carries an explicit positive
    quantity, [executeSignals] keeps the portfolio sound: if every position
    has a positive quantity and the cash balance is not negative before, the
    same holds after, whatever the actions, prices and market data. *)
Theorem explicit_quantities_keep_portfolio_sound :
  forall now marketData signals session,
    Forall (fun signal => exists q, Signal.quantity signal = Some q /\ 0 < q) signals ->
    Forall (fun x => 0 < Position.quantity x) (Session.positions session) ->
    0 <= Session.cashBalance session ->
    let session' := executeSignals now session signals marketData in
    Forall (fun x => 0 < Position.quantity x) (Session.positions session')
    /\ 0 <= Session.cashBalance session'.
Proof.
  intros now marketData signals. unfold executeSignals.
  induction signals as [|signal signals IH]; intros session Hsig Hpos Hcash; simpl;
    [split; assumption|].
  inversion Hsig as [|? ? (q & Hq & Hqpos) Hrest]; subst.
  assert (Hout := executeSignal_outcome now marketData session signal).
  rewrite (explicit_quantity _ _ _ _ Hq Hqpos) in Hout.
  destruct (outcome_sound _ _ _ _ _ _ _ Hout Hqpos Hpos Hcash) as [Hpos' Hcash'].
  apply IH; assumption.
Qed.

(** A run of {!explicit_quantities_keep_portfolio_sound}: a buy of 10 and a
    sale of 10. *)
Lemma explicit_quantities_keep_portfolio_sound_witness :
  let session' :=
    executeSignals 1%Z (portfolio 10000 [])
      [order "buy" "SPY" 100 10; order "sell" "SPY" 110 10] [] in
  Forall (fun x => 0 < Position.quantity x) (Session.positions session')
  /\ 0 <= Session.cashBalance session'.
Proof.
  apply (explicit_quantities_keep_portfolio_sound 1%Z [] _ (portfolio 10000 [])).
  - repeat constructor; eexists; (split; [reflexivity|reflexivity]).
  - constructor.
  - discriminate.
Defined.

Lemma outcome_log now session action symbol p q session' :
  outcome now session action symbol p q session' ->
  exists records errs,
    Session.transactions session' = Session.transactions session ++ records
    /\ Session.errors session' = Session.errors session ++ errs
    /\ (length records + length errs <= 1)%nat
    /\ (is_buy action = true \/ is_sell action = true ->
        (length records + length errs = 1)%nat)
    /\ Forall (fun r => Transaction.time r = now
                        /\ (Transaction.type r = "buy" \/ Transaction.type r = "sell"))
         records
    /\ Forall (fun e => ErrorEntry.time e = now) errs.
Proof.
  intros Hout.
  destruct Hout as [m | Hb Hs | | | | ];
    [ exists [], [{| ErrorEntry.time := now; ErrorEntry.message := m |}]
    | exists [], []
    | exists [buyRecord now symbol p q], []
    | exists [buyRecord now symbol p q], []
    | exists [sellRecord now position p q], []
    | exists [sellRecord now position p q], [] ];
    rewrite ?app_nil_r;
    (split; [reflexivity|]); (split; [reflexivity|]);
    (split; [simpl; lia|]);
    (split; [first [ intros _; reflexivity | intros [H|H]; congruence ]|]);
    (split;
     [repeat (constructor; try reflexivity);
      first [left; reflexivity | right; reflexivity]
     |repeat constructor]).
Qed.

(** X19. [executeSignals] only appends to the two logs of a session: the
    transactions and the errors it starts with are kept in place, every
    signal adds at most one entry to the two logs together, and every buy,
    long, sell or short signal adds exactly one, a transaction when it is
    executed and an error when it is rejected.  The new entries are stamped
    with the time of the cycle and the new transactions are buys or sells. *)
Theorem every_order_is_accounted_for :
  forall now marketData signals session,
    exists records errs,
      let session' := executeSignals now session signals marketData in
      Session.transactions session' = Session.transactions session ++ records
      /\ Session.errors session' = Session.errors session ++ errs
      /\ (length records + length errs <= length signals)%nat
      /\ (Forall (fun signal => is_buy (Signal.action signal) = true
                                \/ is_sell (Signal.action signal) = true) signals ->
          (length records + length errs = length signals)%nat)
      /\ Forall (fun r => Transaction.time r = now
                          /\ (Transaction.type r = "buy" \/ Transaction.type r = "sell"))
           records
      /\ Forall (fun e => ErrorEntry.time e = now) errs.
Proof.
  intros now marketData signals. unfold executeSignals.
  induction signals as [|signal signals IH]; intros session; simpl.
  - exists [], []. rewrite !app_nil_r. repeat split; auto.
  - destruct (outcome_log _ _ _ _ _ _ _ (executeSignal_outcome now marketData session signal))
      as (r1 & e1 & Ht1 & He1 & Hle1 & Heq1 & Hr1 & Her1).
    destruct (IH (executeSignal now marketData session signal))
      as (r2 & e2 & Ht2 & He2 & Hle2 & Heq2 & Hr2 & Her2).
    cbv zeta in *. exists (r1 ++ r2), (e1 ++ e2).
    rewrite Ht2, He2, Ht1, He1, <- !app_assoc, !length_app.
    split; [reflexivity|]. split; [reflexivity|]. split; [lia|]. split.
    + intros Hall. inversion Hall as [|? ? Hact Hrest]; subst.
      specialize (Heq1 Hact). specialize (Heq2 Hrest). lia.
    + split; apply Forall_app; split; assumption.
Qed.

(** A run of {!every_order_is_accounted_for}: a buy that is executed and a
    sale that is rejected. *)
Lemma every_order_is_accounted_for_witness :
  exists records errs,
    let session' :=
      executeSignals 1%Z (portfolio 10000 [])
        [order "buy" "SPY" 100 10; order "sell" "QQQ" 100 10] [] in
    Session.transactions session' = records
    /\ Session.errors session' = errs
    /\ (length records + length errs = 2)%nat.
Proof.
  destruct (every_order_is_accounted_for 1%Z [] [order "buy" "SPY" 100 10;
              order "sell" "QQQ" 100 10] (portfolio 10000 []))
    as (records & errs & Ht & He & _ & Heq & _).
  exists records, errs. cbv zeta in *. split; [exact Ht|]. split; [exact He|].
  apply Heq. constructor; [left; reflexivity|].
  constructor; [right; reflexivity|]. constructor.
Defined.

(** X20. Buying [q] shares at [p] and selling them back at the same price
    in one cycle, on a session that holds no position for the symbol and can
    pay for them, is a round trip: the positions are again those before the
    buy, the cash balance has the cost [p * q] taken off and the same amount
    added back, no error is recorded, and the two transactions, a buy and a
    sell of total [p * q], are appended, the sale with a profit of zero. *)
Theorem buy_then_sell_round_trip :
  forall now marketData session symbol p q,
    0 < p -> ~ q == 0 ->
    p * q <= Session.cashBalance session ->
    Forall (fun x => Position.symbol x <> symbol) (Session.positions session) ->
    let session' :=
      executeSignals now session [order "buy" symbol p q; order "sell" symbol p q]
        marketData in
    Session.positions session' = Session.positions session
    /\ Session.cashBalance session' = Session.cashBalance session - p * q + p * q
    /\ Session.errors session' = Session.errors session
    /\ Session.transactions session'
       = Session.transactions session
         ++ [buyRecord now symbol p q; sellRecord now (opened now symbol p q) p q]
    /\ Transaction.total (buyRecord now symbol p q) = p * q
    /\ Transaction.total (sellRecord now (opened now symbol p q) p q) = p * q
    /\ Transaction.profitLoss (sellRecord now (opened now symbol p q) p q)
       = Some ((p - p) * q)
    /\ (p - p) * q == 0.
Proof.
  intros now marketData session symbol p q Hp Hq Hcost Hnone session'.
  assert (Hprice : forall action,
    executionPrice_of (order action symbol p q) marketData = p).
  { intros action. unfold executionPrice_of. cbn [order Signal.price Num.or_else].
    destruct (Num.falsy p) eqn:Hz; [|reflexivity].
    apply Qeq_bool_iff in Hz. rewrite Hz in Hp. discriminate. }
  assert (Hqty : forall action s,
    tradeQuantity_of s (order action symbol p q) p = q).
  { intros action s. unfold tradeQuantity_of. cbn [order Signal.quantity].
    destruct (Num.falsy q) eqn:Hz; [|reflexivity].
    apply Qeq_bool_iff in Hz. contradiction. }
  subst session'. cbn [executeSignals fold_left].
  assert (Hbuy : executeSignal now marketData session (order "buy" symbol p q)
                 = bought now session symbol p q
                     (Session.positions session ++ [opened now symbol p q])).
  { rewrite executeSignal_buy by (rewrite ?Hprice; auto).
    rewrite Hprice, Hqty. cbn [order Signal.symbol].
    apply buy_opens; assumption. }
  rewrite Hbuy.
  destruct (sell_signal_applied_full now marketData
              (bought now session symbol p q
                 (Session.positions session ++ [opened now symbol p q]))
              (order "sell" symbol p q) (Session.positions session)
              (opened now symbol p q) [])
    as [[_ ->] | [Hgt _]]; try reflexivity; try (rewrite Hprice; assumption);
    try assumption.
  - rewrite Hprice, Hqty. cbn. apply Qle_refl.
  - rewrite Hprice, Hqty. cbn. rewrite app_nil_r.
    split; [reflexivity|]. split; [reflexivity|]. split; [reflexivity|].
    split; [rewrite <- app_assoc; reflexivity|].
    split; [reflexivity|]. split; [reflexivity|]. split; [reflexivity | ring].
  - exfalso. rewrite Hprice, Hqty in Hgt. cbn in Hgt. lra.
Qed.

(** A run of {!buy_then_sell_round_trip}: 10 shares of SPY at 100. *)
Lemma buy_then_sell_round_trip_witness :
  let session' :=
    executeSignals 1%Z (portfolio 10000 [])
      [order "buy" "SPY" 100 10; order "sell" "SPY" 100 10] [] in
  Session.positions session' = []
  /\ Session.cashBalance session' = 10000 - 100 * 10 + 100 * 10.
Proof.
  destruct (buy_then_sell_round_trip 1%Z [] (portfolio 10000 []) "SPY" 100 10
              eq_refl ltac:(discriminate) ltac:(discriminate) (List.Forall_nil _))
    as (Hp & Hc & _).
  split; [exact Hp | exact Hc].
Defined.

(** ** Portfolio simulator: mark to market and metrics *)

Lemma md_price_empty symbol : md_price [] symbol = None.
Proof. reflexivity. Qed.

(** X21. [updatePositions] marks to market and nothing more: symbols,
    quantities, average costs and opening times of the positions, the cash
    balance, the transactions and the errors are left as they are; a position
    whose symbol has a usable price in the market data gets that price and
    the time of the cycle, any other position is not touched, so that empty
    market data changes nothing; and marking twice on the same data at the
    same time is the same as marking once. *)
Theorem updatePositions_marks_to_market :
  forall now session marketData,
    let session' := updatePositions now session marketData in
    map Position.symbol (Session.positions session')
    = map Position.symbol (Session.positions session)
    /\ map Position.quantity (Session.positions session')
       = map Position.quantity (Session.positions session)
    /\ map Position.averageCost (Session.positions session')
       = map Position.averageCost (Session.positions session)
    /\ map Position.openTime (Session.positions session')
       = map Position.openTime (Session.positions session)
    /\ Session.cashBalance session' = Session.cashBalance session
    /\ Session.transactions session' = Session.transactions session
    /\ Session.errors session' = Session.errors session
    /\ (forall i position,
          Session.positions session !! i = Some position ->
          exists position',
            Session.positions session' !! i = Some position'
            /\ (forall price,
                  md_price marketData (Position.symbol position) = Some price ->
                  Position.currentPrice position' = price
                  /\ Position.lastUpdated position' = now)
            /\ (md_price marketData (Position.symbol position) = None ->
                position' = position))
    /\ Session.positions (updatePositions now session []) = Session.positions session
    /\ updatePositions now session' marketData = session'.
Proof.
  intros now session marketData session'. subst session'. unfold updatePositions.
  cbn [Session.positions Session.cashBalance Session.transactions Session.errors
       Session.set_positions].
  rewrite !map_map.
  split; [apply map_ext; intros p; destruct (md_price marketData _); reflexivity|].
  split; [apply map_ext; intros p; destruct (md_price marketData _); reflexivity|].
  split; [apply map_ext; intros p; destruct (md_price marketData _); reflexivity|].
  split; [apply map_ext; intros p; destruct (md_price marketData _); reflexivity|].
  split; [reflexivity|]. split; [reflexivity|]. split; [reflexivity|].
  split; [|split].
  - intros i position Hi.
    change (map ?f ?l) with (f <$> l). rewrite list_lookup_fmap, Hi. cbn.
    eexists. split; [reflexivity|]. split.
    + intros price ->. split; reflexivity.
    + intros ->. reflexivity.
  - rewrite <- (map_id (Session.positions session)) at 2.
    apply map_ext. intros p. reflexivity.
  - destruct session. unfold Session.set_positions. cbn. f_equal.
    apply map_ext. intros p.
    destruct (md_price marketData (Position.symbol p)) as [price|] eqn:Hp; cbn;
      rewrite Hp; reflexivity.
Qed.


Lemma filter_split_length {A} (f : A -> bool) (l : list A) :
  (length (List.filter f l) + length (List.filter (fun x => negb (f x)) l)
   = length l)%nat.
Proof.
  induction l as [|x l IH]; simpl; [reflexivity|].
  destruct (f x); simpl; lia.
Qed.




(** A run of {!updatePositions_marks_to_market}: 10 shares of SPY bought at
    100 are marked at 120. *)
Lemma updatePositions_marks_to_market_witness :
  exists position',
    Session.positions
      (updatePositions 5%Z (portfolio 9000 [holding "SPY" 10 100 1%Z 1%Z]) (spyAt 120))
    !! 0%nat = Some position'
    /\ Position.currentPrice position' = 120
    /\ Position.lastUpdated position' = 5%Z.
Proof.
  destruct (proj1 (proj2 (proj2 (proj2 (proj2 (proj2 (proj2 (proj2
              (updatePositions_marks_to_market 5%Z
                 (portfolio 9000 [holding "SPY" 10 100 1%Z 1%Z]) (spyAt 120)))))))))
              0%nat (holding "SPY" 10 100 1%Z 1%Z) eq_refl)
    as (position' & Hl & Hp & _).
  exists position'. split; [exact Hl|]. apply (Hp 120). reflexivity.
Defined.


(** ** Strategy interpreter *)

Section Interpreter.
Context {E : Engine}.

Lemma runCycle_quiet marketData now session :
  fst (processStrategy (Session.strategy session) marketData now) = [] ->
  runCycle marketData now session
  = Session.set_lastUpdated now
      (updateMetrics (updatePositions now session marketData)).
Proof.
  intros Hq. unfold runCycle.
  destruct (processStrategy (Session.strategy session) marketData now)
    as [signals indicators].
  cbn [fst] in Hq. subst signals. reflexivity.
Qed.

Lemma updatePositions_twice t1 t2 session marketData :
  updatePositions t2 (updatePositions t1 session marketData) marketData
  = updatePositions t2 session marketData.
Proof.
  destruct session. unfold updatePositions, Session.set_positions. cbn. f_equal.
  rewrite map_map. apply map_ext. intros p.
  destruct (md_price marketData (Position.symbol p)) as [price|] eqn:Hp; cbn;
    rewrite Hp; reflexivity.
Qed.

(** X23. An update cycle that produces no signal is idempotent: running
    [updateSession]'s cycle again on the same market data gives the session
    that a single run at the later time gives, so metrics, positions and
    cash are the same and no transaction or error is added; stored through
    [updateSession] twice at the same time, the store is the same as after
    one call. *)
Theorem quiet_update_idempotent :
  forall marketData t1 t2 session,
    fst (processStrategy (Session.strategy session) marketData t1) = [] ->
    fst (processStrategy (Session.strategy session) marketData t2) = [] ->
    runCycle marketData t2 (runCycle marketData t1 session)
    = runCycle marketData t2 session
    /\ Session.transactions (runCycle marketData t1 session)
       = Session.transactions session
    /\ Session.errors (runCycle marketData t1 session) = Session.errors session
    /\ Session.cashBalance (runCycle marketData t1 session)
       = Session.cashBalance session
    /\ forall sessionId (store : Store),
         store !! sessionId = Some session ->
         snd (updateSession sessionId marketData t1
                (snd (updateSession sessionId marketData t1 store)))
         = snd (updateSession sessionId marketData t1 store).
Proof.
  intros marketData t1 t2 session H1 H2.
  assert (Hstrategy : Session.strategy (runCycle marketData t1 session)
                      = Session.strategy session)
    by (rewrite runCycle_quiet by exact H1; reflexivity).
  assert (Hidem : forall t, fst (processStrategy (Session.strategy session) marketData t) = [] ->
    runCycle marketData t (runCycle marketData t1 session)
    = runCycle marketData t session).
  { intros t Ht.
    rewrite (runCycle_quiet marketData t (runCycle marketData t1 session))
      by (rewrite Hstrategy; exact Ht).
    rewrite (runCycle_quiet marketData t1 session) by exact H1.
    rewrite (runCycle_quiet marketData t session) by exact Ht.
    change (Session.set_lastUpdated t
              (updateMetrics
                 (updatePositions t
                    (updatePositions t1 session marketData) marketData))
            = Session.set_lastUpdated t
                (updateMetrics (updatePositions t session marketData))).
    rewrite updatePositions_twice. reflexivity. }
  split; [apply Hidem; exact H2|].
  rewrite (runCycle_quiet marketData t1 session) by exact H1.
  do 3 (split; [reflexivity|]).
  intros sessionId store Hget. unfold updateSession at 2 3. rewrite Hget. cbn [snd].
  unfold updateSession. rewrite lookup_insert_eq. cbn [snd].
  rewrite (Hidem t1 H1), insert_insert_eq. reflexivity.
Qed.

Lemma indicator_fold_throw marketData blocks e :
  fold_left
    (fun acc block =>
       let* indicators := acc in
       if Block.type block =? "indicator" then
         let* indicatorResult := applyIndicator block marketData in
         Ok (<[ default "undefined" (Block.id block) := indicatorResult ]> indicators)
       else Ok indicators)
    blocks (Throw e : result Indicators)
  = Throw e.
Proof. induction blocks as [|b blocks IH]; simpl; [reflexivity | exact IH]. Qed.

Lemma indicator_fold_fails marketData blocks block e :
  In block blocks -> Block.type block = "indicator" ->
  applyIndicator block marketData = Throw e ->
  forall acc, exists e',
    fold_left
      (fun (acc : result Indicators) block =>
         let* indicators := acc in
         if Block.type block =? "indicator" then
           let* indicatorResult := applyIndicator block marketData in
           Ok (<[ default "undefined" (Block.id block) := indicatorResult ]> indicators)
         else Ok indicators)
      blocks acc
    = Throw e'.
Proof.
  intros Hin Htype Hthrow.
  induction blocks as [|b blocks IH]; [destruct Hin|].
  intros [indicators|e0]; simpl.
  2: { exists e0. apply indicator_fold_throw. }
  destruct Hin as [->|Hin].
  - rewrite Htype. cbn. rewrite Hthrow. cbn. exists e. apply indicator_fold_throw.
  - apply IH. exact Hin.
Qed.

Lemma signal_fold_throw marketData now indicators actions blocks e :
  fold_left
    (fun acc block =>
       let* signals := acc in
       if Block.type block =? "condition" then
         let* conditionResult := evaluateCondition block marketData indicators in
         if conditionResult then
           Ok (fold_left
                 (fun signals actionBlock =>
                    match executeAction actionBlock marketData now with
                    | Some signal => signals ++ [signal]
                    | None => signals
                    end)
                 actions signals)
         else Ok signals
       else Ok signals)
    blocks (Throw e : result (list Signal.t))
  = Throw e.
Proof. induction blocks as [|b blocks IH]; simpl; [reflexivity | exact IH]. Qed.

Lemma action_fold_length marketData now actions : forall signals,
  (length
     (fold_left
        (fun signals actionBlock =>
           match executeAction actionBlock marketData now with
           | Some signal => signals ++ [signal]
           | None => signals
           end)
        actions signals)
   <= length signals + length actions)%nat.
Proof.
  induction actions as [|a actions IH]; intros signals; simpl; [lia|].
  destruct (executeAction a marketData now).
  - etransitivity; [apply IH|]. rewrite length_app. simpl. lia.
  - etransitivity; [apply IH|]. lia.
Qed.

Lemma signal_fold_bound marketData now indicators actions blocks :
  forall acc signals' signals,
    acc = Ok signals ->
    fold_left
      (fun acc block =>
         let* signals := acc in
         if Block.type block =? "condition" then
           let* conditionResult := evaluateCondition block marketData indicators in
           if conditionResult then
             Ok (fold_left
                   (fun signals actionBlock =>
                      match executeAction actionBlock marketData now with
                      | Some signal => signals ++ [signal]
                      | None => signals
                      end)
                   actions signals)
           else Ok signals
         else Ok signals)
      blocks acc
    = Ok signals' ->
    (length signals'
     <= length signals
        + length (List.filter (fun b => String.eqb (Block.type b) "condition") blocks)
          * length actions)%nat.
Proof.
  induction blocks as [|b blocks IH]; intros acc signals' signals -> Hfold;
    simpl in *.
  - injection Hfold as <-. lia.
  - destruct (Block.type b =? "condition") eqn:Hc; simpl.
    + destruct (evaluateCondition b marketData indicators) as [[|]|e] eqn:He;
        cbn [bind] in Hfold.
      * apply (IH _ _ _ eq_refl) in Hfold.
        assert (Ha := action_fold_length marketData now actions signals). lia.
      * apply (IH _ _ _ eq_refl) in Hfold. lia.
      * rewrite signal_fold_throw in Hfold. discriminate.
    + apply (IH _ _ _ eq_refl) in Hfold. exact Hfold.
Qed.

Lemma signal_fold_fails marketData now indicators actions blocks block :
  In block blocks -> Block.type block = "condition" ->
  (exists e, evaluateCondition block marketData indicators = Throw e) ->
  forall acc, exists e',
    fold_left
      (fun acc block =>
         let* signals := acc in
         if Block.type block =? "condition" then
           let* conditionResult := evaluateCondition block marketData indicators in
           if conditionResult then
             Ok (fold_left
                   (fun signals actionBlock =>
                      match executeAction actionBlock marketData now with
                      | Some signal => signals ++ [signal]
                      | None => signals
                      end)
                   actions signals)
           else Ok signals
         else Ok signals)
      blocks acc
    = Throw e'.
Proof.
  intros Hin Htype [e Hthrow].
  induction blocks as [|b blocks IH]; [destruct Hin|].
  intros [signals|e0]; simpl.
  2: { exists e0. apply signal_fold_throw. }
  destruct Hin as [->|Hin].
  - rewrite Htype. cbn. rewrite Hthrow. cbn. exists e. apply signal_fold_throw.
  - apply IH. exact Hin.
Qed.

(** X24. [processStrategy] never throws and degrades to no signals and no
    indicators as soon as one block fails: an indicator block whose
    computation throws, or a condition block whose evaluation throws whatever
    the indicators (such as one of unknown subtype), silences the whole
    cycle, even when other conditions hold.  When it succeeds, the number of
    signals is at most the number of condition blocks times the number of
    action blocks, so a strategy without condition blocks or without action
    blocks emits nothing. *)
Theorem processStrategy_degrades :
  forall strategy marketData now,
    (forall block e,
        In block (Strategy.blocks strategy) ->
        Block.type block = "indicator" ->
        applyIndicator block marketData = Throw e ->
        processStrategy strategy marketData now = ([], ∅))
    /\ (forall block,
          In block (Strategy.blocks strategy) ->
          Block.type block = "condition" ->
          (forall indicators, exists e,
              evaluateCondition block marketData indicators = Throw e) ->
          processStrategy strategy marketData now = ([], ∅))
    /\ (length (fst (processStrategy strategy marketData now))
        <= length (blocksOfType "condition" strategy)
           * length (blocksOfType "action" strategy))%nat
    /\ (blocksOfType "condition" strategy = [] \/ blocksOfType "action" strategy = [] ->
        fst (processStrategy strategy marketData now) = []).
Proof.
  intros strategy marketData now.
  assert (Hbound :
    (length (fst (processStrategy strategy marketData now))
     <= length (blocksOfType "condition" strategy)
        * length (blocksOfType "action" strategy))%nat).
  { unfold processStrategy, processStrategy_try.
    match goal with
    | |- context [bind ?first _] => destruct first as [indicators|e]
    end; cbn [bind fst length]; [|lia].
    match goal with
    | |- context [bind ?second _] => destruct second as [signals|e] eqn:Hs
    end; cbn [bind fst length]; [|lia].
    apply (signal_fold_bound _ _ _ _ _ _ _ [] eq_refl) in Hs. exact Hs. }
  split; [|split; [|split]].
  - intros block e Hin Htype Hthrow. unfold processStrategy, processStrategy_try.
    destruct (indicator_fold_fails marketData _ _ _ Hin Htype Hthrow (Ok ∅))
      as [e' He'].
    rewrite He'. reflexivity.
  - intros block Hin Htype Hthrow. unfold processStrategy, processStrategy_try.
    match goal with
    | |- context [bind ?first _] => destruct first as [indicators|e]
    end; cbn [bind]; [|reflexivity].
    destruct (signal_fold_fails marketData now indicators
                (List.filter (fun b => Block.type b =? "action")
                   (Strategy.blocks strategy))
                _ _ Hin Htype (Hthrow indicators) (Ok [])) as [e' He'].
    rewrite He'. reflexivity.
  - exact Hbound.
  - intros Hnone.
    destruct (fst (processStrategy strategy marketData now)) as [|s l]; [reflexivity|].
    exfalso. destruct Hnone as [Hn|Hn]; rewrite Hn in Hbound; simpl in Hbound; lia.
Qed.

End Interpreter.

(** A run of {!quiet_update_idempotent} on a strategy without blocks. *)
Lemma quiet_update_idempotent_witness :
  @runCycle noBuiltins (spyAt 100) 2%Z
    (@runCycle noBuiltins (spyAt 100) 1%Z (portfolio 9000 [holding "SPY" 10 100 0%Z 0%Z]))
  = @runCycle noBuiltins (spyAt 100) 2%Z (portfolio 9000 [holding "SPY" 10 100 0%Z 0%Z]).
Proof.
  exact (proj1 (@quiet_update_idempotent noBuiltins (spyAt 100) 1%Z 2%Z
                  (portfolio 9000 [holding "SPY" 10 100 0%Z 0%Z]) eq_refl eq_refl)).
Defined.

(** A run of {!processStrategy_degrades}: a condition of unknown subtype
    silences a strategy whose other condition holds. *)
Lemma processStrategy_degrades_witness :
  @processStrategy noBuiltins brokenStrategy (spyAt 100) 1%Z = ([], ∅)
  /\ @evaluateCondition noBuiltins risingCandle (spyAt 100) ∅ = Ok true.
Proof.
  split; [|reflexivity].
  apply (proj1 (proj2 (@processStrategy_degrades noBuiltins brokenStrategy (spyAt 100) 1%Z))
           unknownCondition).
  - right. left. reflexivity.
  - reflexivity.
  - intros indicators. eexists. reflexivity.
Defined.

(** ** Session manager: the store *)

Lemma or_else_nonzero x d : ~ d == 0 -> ~ Num.or_else x d == 0.
Proof.
  intros Hd. unfold Num.or_else. destruct x as [v|]; [|exact Hd].
  destruct (Num.falsy v) eqn:Hz; [exact Hd|].
  intros Hv. apply Qeq_bool_iff in Hv. unfold Num.falsy in Hz. congruence.
Qed.

(** X25. [createSession] and [getSession] round-trip.  For a strategy of
    the caller, [createSession] succeeds and stores the new session under
    its id without touching any other entry; [getSession] with that id gives
    the session back to its owner and throws the authorization error for any
    other user.  The session starts active, without positions, transactions
    or errors, with cash and current capital equal to the initial capital,
    which is never zero (10000 when the option is unset or 0).  When the
    strategy is missing or belongs to someone else, [createSession] throws
    and the store is left as it was. *)
Theorem createSession_getSession :
  forall strategies userId strategyId options now (store : Store),
    (strategies !! strategyId = None ->
     createSession strategies userId strategyId options now store
     = (Throw StrategyNotFound, store))
    /\ (forall strategy,
          strategies !! strategyId = Some strategy ->
          Strategy.user strategy <> userId ->
          createSession strategies userId strategyId options now store
          = (Throw NotAuthorizedStrategy, store))
    /\ (forall strategy,
          strategies !! strategyId = Some strategy ->
          Strategy.user strategy = userId ->
          exists session,
            createSession strategies userId strategyId options now store
            = (Ok session, <[ Session.id session := session ]> store)
            /\ Session.id session
               = userId +:+ "-" +:+ strategyId +:+ "-" +:+ pretty now
            /\ getSession (Session.id session) userId
                 (<[ Session.id session := session ]> store) = Ok session
            /\ (forall other, other <> userId ->
                  getSession (Session.id session) other
                    (<[ Session.id session := session ]> store)
                  = Throw NotAuthorizedAccess)
            /\ (forall sessionId, sessionId <> Session.id session ->
                  (<[ Session.id session := session ]> store) !! sessionId
                  = store !! sessionId)
            /\ Session.status session = "active"
            /\ Session.strategy session = strategy
            /\ Session.positions session = []
            /\ Session.transactions session = []
            /\ Session.errors session = []
            /\ Session.cashBalance session = Session.initialCapital session
            /\ Session.currentCapital session = Session.initialCapital session
            /\ ~ Session.initialCapital session == 0
            /\ (Options.initialCapital options = None ->
                Session.initialCapital session = 10000)).
Proof.
  intros strategies userId strategyId options now store. split; [|split].
  - intros Hnone. unfold createSession. rewrite Hnone. reflexivity.
  - intros strategy Hs Hu. unfold createSession. rewrite Hs.
    apply String.eqb_neq in Hu. rewrite Hu. reflexivity.
  - intros strategy Hs Hu. unfold createSession. rewrite Hs, Hu, String.eqb_refl.
    cbn [negb].
    match goal with |- context [Ok ?s] => exists s end.
    split; [reflexivity|].
    cbn [Session.id Session.userId Session.status Session.strategy Session.positions
         Session.transactions Session.errors Session.cashBalance
         Session.currentCapital Session.initialCapital].
    split; [reflexivity|]. split.
    { unfold getSession. rewrite lookup_insert_eq. cbn [Session.userId].
      rewrite String.eqb_refl. reflexivity. }
    split.
    { intros other Ho. unfold getSession. rewrite lookup_insert_eq.
      cbn [Session.userId]. apply not_eq_sym in Ho.
      apply String.eqb_neq in Ho. rewrite Ho. reflexivity. }
    split.
    { intros sessionId Hne. apply lookup_insert_ne. apply not_eq_sym. exact Hne. }
    do 7 (split; [reflexivity|]). split.
    + apply or_else_nonzero. discriminate.
    + intros ->. reflexivity.
Qed.

(** A run of {!createSession_getSession}: alice starts a session on her
    strategy. *)
Lemma createSession_getSession_witness :
  exists session,
    createSession strategies "alice" "s1" noOptions 1000%Z ∅
    = (Ok session, <[ Session.id session := session ]> ∅)
    /\ Session.id session = "alice-s1-1000"
    /\ Session.initialCapital session = 10000.
Proof.
  destruct (proj2 (proj2 (createSession_getSession strategies "alice" "s1" noOptions
                            1000%Z ∅)) buyOnRise eq_refl eq_refl)
    as (session & Hc & Hid & _ & _ & _ & _ & _ & _ & _ & _ & _ & _ & _ & Hcap).
  exists session. split; [exact Hc|]. split; [exact Hid|]. apply Hcap. reflexivity.
Defined.

(** X26. [deleteSession] by the owner removes the session and only it:
    afterwards [getSession], [updateSession] and [stopSession] on that id
    fail as for an unknown session, a second [deleteSession] answers false,
    and every other session is still stored as it was.  Deleting an unknown
    id answers false without throwing and leaves the store as it was. *)
Theorem deleteSession_removes :
  forall (E : Engine) sessionId userId session marketData now (store : Store),
    (store !! sessionId = None ->
     deleteSession sessionId userId store = (Ok false, store))
    /\ (store !! sessionId = Some session ->
        Session.userId session = userId ->
        let store' := snd (deleteSession sessionId userId store) in
        deleteSession sessionId userId store = (Ok true, delete sessionId store)
        /\ getSession sessionId userId store' = Throw SessionNotFound
        /\ updateSession sessionId marketData now store'
           = (Throw SessionNotFound, store')
        /\ stopSession sessionId userId now store' = (Throw SessionNotFound, store')
        /\ deleteSession sessionId userId store' = (Ok false, store')
        /\ forall other, other <> sessionId -> store' !! other = store !! other).
Proof.
  intros E sessionId userId session marketData now store. split.
  - intros Hnone. unfold deleteSession. rewrite Hnone. reflexivity.
  - intros Hget Hown store'.
    assert (Hdel : deleteSession sessionId userId store
                   = (Ok true, delete sessionId store)).
    { unfold deleteSession. rewrite Hget, Hown, String.eqb_refl. reflexivity. }
    subst store'. rewrite Hdel. cbn [snd].
    unfold getSession, updateSession, stopSession, deleteSession.
    rewrite !lookup_delete_eq.
    do 5 (split; [reflexivity|]).
    intros other Hne. apply lookup_delete_ne. apply not_eq_sym. exact Hne.
Qed.

(** A run of {!deleteSession_removes}: alice deletes her session. *)
Lemma deleteSession_removes_witness :
  getSession "alice-s1-1000" "alice"
    (snd (deleteSession "alice-s1-1000" "alice" started))
  = Throw SessionNotFound.
Proof.
  exact (proj1 (proj2 (proj2 (deleteSession_removes noBuiltins "alice-s1-1000" "alice"
                          startedSession [] 0%Z started) started_lookup eq_refl))).
Defined.

(** The identity of a session is out of reach of the simulator. *)
Lemma outcome_identity now session action symbol p q session' :
  outcome now session action symbol p q session' ->
  Session.id session' = Session.id session
  /\ Session.userId session' = Session.userId session
  /\ Session.strategyId session' = Session.strategyId session
  /\ Session.strategy session' = Session.strategy session
  /\ Session.status session' = Session.status session
  /\ Session.startTime session' = Session.startTime session
  /\ Session.endTime session' = Session.endTime session
  /\ Session.initialCapital session' = Session.initialCapital session
  /\ Session.settings session' = Session.settings session.
Proof. intros Hout. destruct Hout; repeat split. Qed.

Lemma executeSignals_identity now marketData signals : forall session,
  let session' := executeSignals now session signals marketData in
  Session.id session' = Session.id session
  /\ Session.userId session' = Session.userId session
  /\ Session.strategyId session' = Session.strategyId session
  /\ Session.strategy session' = Session.strategy session
  /\ Session.status session' = Session.status session
  /\ Session.startTime session' = Session.startTime session
  /\ Session.endTime session' = Session.endTime session
  /\ Session.initialCapital session' = Session.initialCapital session
  /\ Session.settings session' = Session.settings session.
Proof.
  unfold executeSignals.
  induction signals as [|signal signals IH]; intros session; simpl;
    [repeat split|].
  destruct (IH (executeSignal now marketData session signal))
    as (H1 & H2 & H3 & H4 & H5 & H6 & H7 & H8 & H9).
  destruct (outcome_identity _ _ _ _ _ _ _
              (executeSignal_outcome now marketData session signal))
    as (G1 & G2 & G3 & G4 & G5 & G6 & G7 & G8 & G9).
  cbv zeta in *.
  rewrite H1, H2, H3, H4, H5, H6, H7, H8, H9. repeat split; assumption.
Qed.

(** X27. [updateSession] writes one entry of the store and never the
    identity of the session: an unknown id throws and leaves the store as it
    was; for a known id the returned session is the one stored under that
    id, every other entry of the store is untouched, and the id, owner,
    strategy, status, start and end times, initial capital and settings of
    the session are those before the update, whatever the strategy and the
    market data, while [lastUpdated] is the time of the update. *)
Theorem updateSession_frame :
  forall (E : Engine) sessionId marketData now (store : Store),
    (store !! sessionId = None ->
     updateSession sessionId marketData now store = (Throw SessionNotFound, store))
    /\ (forall session,
          store !! sessionId = Some session ->
          exists session',
            updateSession sessionId marketData now store
            = (Ok session', <[ sessionId := session' ]> store)
            /\ (forall other, other <> sessionId ->
                  (<[ sessionId := session' ]> store) !! other = store !! other)
            /\ Session.id session' = Session.id session
            /\ Session.userId session' = Session.userId session
            /\ Session.strategy session' = Session.strategy session
            /\ Session.status session' = Session.status session
            /\ Session.startTime session' = Session.startTime session
            /\ Session.endTime session' = Session.endTime session
            /\ Session.initialCapital session' = Session.initialCapital session
            /\ Session.settings session' = Session.settings session
            /\ Session.lastUpdated session' = now).
Proof.
  intros E sessionId marketData now store. split.
  - intros Hnone. unfold updateSession. rewrite Hnone. reflexivity.
  - intros session Hget. unfold updateSession. rewrite Hget.
    eexists. split; [reflexivity|]. split.
    { intros other Hne. apply lookup_insert_ne. apply not_eq_sym. exact Hne. }
    unfold runCycle.
    destruct (processStrategy (Session.strategy session) marketData now)
      as [signals indicators].
    destruct (executeSignals_identity now marketData signals session)
      as (H1 & H2 & _ & H4 & H5 & H6 & H7 & H8 & H9).
    cbv zeta in *.
    destruct (0 <? length signals)%nat;
      cbn [updatePositions updateMetrics Session.set_positions
           Session.set_currentCapital Session.set_metrics Session.set_lastUpdated
           Session.id Session.userId Session.strategy Session.status
           Session.startTime Session.endTime Session.initialCapital
           Session.settings Session.lastUpdated];
      repeat split; assumption.
Qed.

(** A run of {!updateSession_frame} on alice's session. *)
Lemma updateSession_frame_witness :
  exists session',
    @updateSession noBuiltins "alice-s1-1000" (spyAt 100) 2000%Z started
    = (Ok session', <[ "alice-s1-1000" := session' ]> started)
    /\ Session.userId session' = "alice"
    /\ Session.lastUpdated session' = 2000%Z.
Proof.
  destruct (proj2 (updateSession_frame noBuiltins "alice-s1-1000" (spyAt 100) 2000%Z
                     started) startedSession started_lookup)
    as (session' & Hu & _ & _ & Hown & _ & _ & _ & _ & _ & _ & Hlast).
  exists session'. split; [exact Hu|]. split; [exact Hown | exact Hlast].
Defined.

(** ** Update route: the market data of a cycle *)

Lemma md_get_replace_eq md symbol d :
  md_get md symbol <> None -> md_get (md_replace md symbol d) symbol = Some d.
Proof.
  induction md as [|[k v] rest IH]; simpl; [congruence|].
  destruct (String.eqb k symbol) eqn:Hk; simpl; rewrite Hk; [reflexivity | exact IH].
Qed.

Lemma md_get_replace_ne md symbol other d :
  other <> symbol -> md_get (md_replace md symbol d) other = md_get md other.
Proof.
  intros Hne. induction md as [|[k v] rest IH]; simpl; [reflexivity|].
  destruct (String.eqb k symbol) eqn:Hk; simpl.
  - apply String.eqb_eq in Hk. subst k.
    apply not_eq_sym in Hne. apply String.eqb_neq in Hne. rewrite Hne. reflexivity.
  - destruct (String.eqb k other); [reflexivity | exact IH].
Qed.

Lemma md_get_insert_eq md symbol d :
  md_get md symbol = None -> md_get (md_insert md symbol d) symbol = Some d.
Proof.
  induction md as [|[k v] rest IH]; simpl.
  - rewrite String.eqb_refl. reflexivity.
  - destruct (String.eqb k symbol) eqn:Hk; [discriminate|]. intros Hnone.
    destruct (enumerated_before symbol k); simpl.
    + rewrite String.eqb_refl. reflexivity.
    + rewrite Hk. exact (IH Hnone).
Qed.

Lemma md_get_insert_ne md symbol other d :
  other <> symbol -> md_get (md_insert md symbol d) other = md_get md other.
Proof.
  intros Hne. apply not_eq_sym in Hne. apply String.eqb_neq in Hne.
  induction md as [|[k v] rest IH]; simpl.
  - rewrite Hne. reflexivity.
  - destruct (enumerated_before symbol k); simpl.
    + rewrite Hne. reflexivity.
    + destruct (String.eqb k other); [reflexivity | exact IH].
Qed.

Lemma md_get_set_eq md symbol d : md_get (md_set md symbol d) symbol = Some d.
Proof.
  unfold md_set. destruct (md_get md symbol) eqn:Hget.
  - apply md_get_replace_eq. congruence.
  - apply md_get_insert_eq. exact Hget.
Qed.

Lemma md_get_set_ne md symbol other d :
  other <> symbol -> md_get (md_set md symbol d) other = md_get md other.
Proof.
  intros Hne. unfold md_set. destruct (md_get md symbol).
  - apply md_get_replace_ne. exact Hne.
  - apply md_get_insert_ne. exact Hne.
Qed.

Lemma collect_fold (fetch : string -> option PriceData.t) symbol symbols :
  forall acc,
    let md := fold_left
                (fun marketData s =>
                   match fetch s with
                   | Some data => md_set marketData s data
                   | None => marketData
                   end) symbols acc in
    (In symbol symbols ->
     md_get md symbol = match fetch symbol with
                        | Some d => Some d
                        | None => md_get acc symbol
                        end)
    /\ (~ In symbol symbols -> md_get md symbol = md_get acc symbol).
Proof.
  induction symbols as [|s symbols IH]; intros acc; cbv zeta; simpl.
  - split; [tauto | reflexivity].
  - set (acc' := match fetch s with
                 | Some data => md_set acc s data
                 | None => acc
                 end).
    destruct (IH acc') as [Hin Hout]. cbv zeta in Hin, Hout.
    assert (Hacc : forall other, other <> s -> md_get acc' other = md_get acc other).
    { intros other Hne. subst acc'. destruct (fetch s); [|reflexivity].
      apply md_get_set_ne. exact Hne. }
    assert (Hs : md_get acc' s = match fetch s with
                                 | Some d => Some d
                                 | None => md_get acc s
                                 end).
    { subst acc'. destruct (fetch s); [apply md_get_set_eq | reflexivity]. }
    split.
    + intros Hor. destruct (in_dec string_dec symbol symbols) as [Hi|Hni].
      * rewrite (Hin Hi). destruct (fetch symbol) eqn:Hf; [reflexivity|].
        destruct (string_dec symbol s) as [->|Hne].
        -- rewrite Hs, Hf. reflexivity.
        -- apply Hacc. exact Hne.
      * rewrite (Hout Hni). destruct Hor as [->|Hi]; [exact Hs | contradiction].
    + intros Hnot. rewrite Hout by tauto. apply Hacc. intros ->. tauto.
Qed.

(** X28. The update route: an unknown session and a session of another
    user are answered with status 400 and the store is left as it was, no
    cycle being run; for the owner the answer is status 200 with the session
    that [updateSession] returns on the market data collected for the
    session.  That market data holds, for every symbol of the session
    settings, what the market service answered for the symbol and the
    session's time period, holds nothing for a symbol whose fetch failed,
    and nothing for any symbol outside the settings. *)
Theorem updateSessionRoute_collects :
  forall (E : Engine) (getMarketData : string -> string -> option PriceData.t)
         sessionId userId now (store : Store),
    (store !! sessionId = None ->
     updateSessionRoute getMarketData sessionId userId now store
     = (Status400 SessionNotFound, store))
    /\ (forall session,
          store !! sessionId = Some session ->
          Session.userId session <> userId ->
          updateSessionRoute getMarketData sessionId userId now store
          = (Status400 NotAuthorizedAccess, store))
    /\ (forall session,
          store !! sessionId = Some session ->
          Session.userId session = userId ->
          let marketData := collectMarketData getMarketData session in
          let timePeriod := SessionSettings.timePeriod (Session.settings session) in
          let symbols := SessionSettings.symbols (Session.settings session) in
          (forall symbol, In symbol symbols ->
             md_get marketData symbol = getMarketData symbol timePeriod)
          /\ (forall symbol, ~ In symbol symbols -> md_get marketData symbol = None)
          /\ exists updated,
               updateSession sessionId marketData now store
               = (Ok updated, <[ sessionId := updated ]> store)
               /\ updateSessionRoute getMarketData sessionId userId now store
                  = (Status200 updated, <[ sessionId := updated ]> store)).
Proof.
  intros E getMarketData sessionId userId now store. split; [|split].
  - intros Hnone. unfold updateSessionRoute, getSession. rewrite Hnone. reflexivity.
  - intros session Hget Hne. unfold updateSessionRoute, getSession. rewrite Hget.
    apply String.eqb_neq in Hne. rewrite Hne. reflexivity.
  - intros session Hget Hown marketData timePeriod symbols.
    pose proof (fun symbol =>
                  collect_fold (fun s => getMarketData s timePeriod) symbol symbols [])
      as Hcollect.
    cbv zeta in Hcollect.
    split; [|split].
    + intros symbol Hin. subst marketData. unfold collectMarketData.
      fold timePeriod. fold symbols.
      rewrite (proj1 (Hcollect symbol) Hin).
      destruct (getMarketData symbol timePeriod); reflexivity.
    + intros symbol Hnot. subst marketData. unfold collectMarketData.
      fold timePeriod. fold symbols.
      rewrite (proj2 (Hcollect symbol) Hnot). reflexivity.
    + unfold updateSessionRoute, getSession. rewrite Hget, Hown, String.eqb_refl.
      cbn [negb]. fold marketData. cbv zeta.
      unfold updateSession. rewrite Hget.
      eexists. split; reflexivity.
Qed.

(** A run of {!updateSessionRoute_collects}: the data collected for alice's
    session holds the service's quote for SPY. *)
Lemma updateSessionRoute_collects_witness :
  md_get (collectMarketData quoteAll startedSession) "SPY" = quoteAll "SPY" "1d".
Proof.
  refine (proj1 (proj2 (proj2 (updateSessionRoute_collects noBuiltins quoteAll
                                 "alice-s1-1000" "alice" 2000%Z started))
                  startedSession started_lookup eq_refl) "SPY" _).
  vm_compute. left. reflexivity.
Defined.

(** ** From blocks to trades *)

Section Pipeline.
Context {E : Engine}.

Lemma executeAction_signal block marketData now signal :
  executeAction block marketData now = Some signal ->
  Signal.action signal = Block.subtype block
  /\ Signal.symbol signal = default "SPY" (Settings.symbol (Block.settings block))
  /\ Signal.timestamp signal = now
  /\ (Block.subtype block = "buy" \/ Block.subtype block = "sell"
      \/ Block.subtype block = "stop_loss" \/ Block.subtype block = "take_profit").
Proof.
  unfold executeAction.
  destruct (String.eqb_spec (Block.subtype block) "buy") as [Hb|_].
  { unfold executeBuyOrder. destruct (resolve_order_price _ _ _ _); [|discriminate].
    intros [= <-]. rewrite Hb. cbn. tauto. }
  destruct (String.eqb_spec (Block.subtype block) "sell") as [Hs|_].
  { unfold executeSellOrder. destruct (resolve_order_price _ _ _ _); [|discriminate].
    intros [= <-]. rewrite Hs. cbn. tauto. }
  destruct (String.eqb_spec (Block.subtype block) "stop_loss") as [Hl|_].
  { unfold executeStopLoss. destruct (md_price _ _); [|discriminate].
    intros [= <-]. rewrite Hl. cbn. tauto. }
  destruct (String.eqb_spec (Block.subtype block) "take_profit") as [Ht|_].
  { unfold executeTakeProfit. destruct (md_price _ _); [|discriminate].
    intros [= <-]. rewrite Ht. cbn. tauto. }
  discriminate.
Qed.

Lemma action_fold_invariant (P : Signal.t -> Prop) marketData now actions :
  (forall block signal,
      In block actions -> executeAction block marketData now = Some signal ->
      P signal) ->
  forall signals,
    Forall P signals ->
    Forall P (fold_left
                (fun signals actionBlock =>
                   match executeAction actionBlock marketData now with
                   | Some signal => signals ++ [signal]
                   | None => signals
                   end)
                actions signals).
Proof.
  induction actions as [|a actions IH]; intros Hstep signals Hall; simpl;
    [exact Hall|].
  apply IH; [intros block signal Hin; apply (Hstep block); right; exact Hin|].
  destruct (executeAction a marketData now) as [signal|] eqn:Ha; [|exact Hall].
  apply Forall_app. split; [exact Hall|].
  constructor; [|constructor]. apply (Hstep a); [left; reflexivity | exact Ha].
Qed.

Lemma signal_fold_invariant (P : Signal.t -> Prop) marketData now indicators
    actions blocks :
  (forall block signal,
      In block actions -> executeAction block marketData now = Some signal ->
      P signal) ->
  forall signals signals',
    Forall P signals ->
    fold_left
      (fun acc block =>
         let* signals := acc in
         if Block.type block =? "condition" then
           let* conditionResult := evaluateCondition block marketData indicators in
           if conditionResult then
             Ok (fold_left
                   (fun signals actionBlock =>
                      match executeAction actionBlock marketData now with
                      | Some signal => signals ++ [signal]
                      | None => signals
                      end)
                   actions signals)
           else Ok signals
         else Ok signals)
      blocks (Ok signals)
    = Ok signals' ->
    Forall P signals'.
Proof.
  intros Hstep.
  induction blocks as [|b blocks IH]; intros signals signals' Hall Hfold;
    simpl in Hfold.
  - injection Hfold as <-. exact Hall.
  - destruct (Block.type b =? "condition").
    + destruct (evaluateCondition b marketData indicators) as [[|]|e];
        cbn [bind] in Hfold.
      * eapply IH; [|exact Hfold]. apply action_fold_invariant; assumption.
      * eapply IH; eassumption.
      * rewrite signal_fold_throw in Hfold. discriminate.
    + eapply IH; eassumption.
Qed.

Lemma processStrategy_signals (P : Signal.t -> Prop) strategy marketData now :
  (forall block signal,
      In block (Strategy.blocks strategy) -> Block.type block = "action" ->
      executeAction block marketData now = Some signal ->
      P signal) ->
  Forall P (fst (processStrategy strategy marketData now)).
Proof.
  intros Hstep. unfold processStrategy, processStrategy_try.
  match goal with
  | |- context [bind ?first _] => destruct first as [indicators|e]
  end; cbn [bind fst]; [|constructor].
  match goal with
  | |- context [bind ?second _] => destruct second as [signals|e] eqn:Hs
  end; cbn [bind fst]; [|constructor].
  eapply signal_fold_invariant; [|constructor|exact Hs].
  intros block signal Hin Ha. apply filter_In in Hin. destruct Hin as [Hin Ht].
  apply String.eqb_eq in Ht. apply (Hstep block); assumption.
Qed.

Lemma executeSignals_no_trade now marketData signals : forall session,
  Forall (fun signal => is_buy (Signal.action signal) = false
                        /\ is_sell (Signal.action signal) = false) signals ->
  let session' := executeSignals now session signals marketData in
  Session.cashBalance session' = Session.cashBalance session
  /\ Session.positions session' = Session.positions session
  /\ Session.transactions session' = Session.transactions session.
Proof.
  unfold executeSignals.
  induction signals as [|signal signals IH]; intros session Hall; simpl;
    [repeat split|].
  inversion Hall as [|? ? [Hb Hs] Hrest]; subst.
  destruct (IH (executeSignal now marketData session signal) Hrest)
    as (H1 & H2 & H3).
  cbv zeta in *. rewrite H1, H2, H3.
  unfold executeSignal. rewrite Hb, Hs.
  destruct (Num.le _ 0); repeat split.
Qed.

(** X29. Every signal of a cycle comes from an action block of the strategy:
    it is what [executeAction] answers for that block on the cycle's market
    data, its action is the block's subtype, one of buy, sell, stop_loss and
    take_profit, its symbol is the block's symbol setting (SPY when unset)
    and its timestamp is the time of the cycle.  A session on a strategy
    whose action blocks are all of other subtypes than buy and sell
    therefore never trades: an update cycle leaves its cash balance and
    transactions as they are and keeps the symbols, quantities and average
    costs of its positions. *)
Theorem signals_come_from_action_blocks :
  forall marketData now,
    (forall strategy,
        Forall (fun signal =>
                  exists block,
                    In block (Strategy.blocks strategy)
                    /\ Block.type block = "action"
                    /\ executeAction block marketData now = Some signal
                    /\ Signal.action signal = Block.subtype block
                    /\ Signal.symbol signal
                       = default "SPY" (Settings.symbol (Block.settings block))
                    /\ Signal.timestamp signal = now
                    /\ In (Signal.action signal)
                         ["buy"; "sell"; "stop_loss"; "take_profit"])
          (fst (processStrategy strategy marketData now)))
    /\ (forall session,
          (forall block,
              In block (Strategy.blocks (Session.strategy session)) ->
              Block.type block = "action" ->
              Block.subtype block <> "buy" /\ Block.subtype block <> "sell") ->
          let session' := runCycle marketData now session in
          Session.cashBalance session' = Session.cashBalance session
          /\ Session.transactions session' = Session.transactions session
          /\ map Position.symbol (Session.positions session')
             = map Position.symbol (Session.positions session)
          /\ map Position.quantity (Session.positions session')
             = map Position.quantity (Session.positions session)
          /\ map Position.averageCost (Session.positions session')
             = map Position.averageCost (Session.positions session)).
Proof.
  intros marketData now. split.
  - intros strategy. apply processStrategy_signals.
    intros block signal Hin Ht Ha.
    destruct (executeAction_signal _ _ _ _ Ha) as (Hact & Hsym & Htime & Hsub).
    exists block. do 6 (split; [assumption|]).
    rewrite Hact. destruct Hsub as [H|[H|[H|H]]]; rewrite H; simpl; auto 6.
  - intros session Hblocks session'.
    assert (Hquiet :
      Forall (fun signal => is_buy (Signal.action signal) = false
                            /\ is_sell (Signal.action signal) = false)
        (fst (processStrategy (Session.strategy session) marketData now))).
    { apply processStrategy_signals. intros block signal Hin Ht Ha.
      destruct (executeAction_signal _ _ _ _ Ha) as (Hact & _ & _ & Hsub).
      destruct (Hblocks block Hin Ht) as [Hnb Hns].
      rewrite Hact.
      destruct Hsub as [H|[H|[H|H]]]; [contradiction | contradiction | |];
        rewrite H; split; reflexivity. }
    subst session'. unfold runCycle.
    destruct (processStrategy (Session.strategy session) marketData now)
      as [signals indicators].
    cbn [fst] in Hquiet.
    destruct (executeSignals_no_trade now marketData signals session Hquiet)
      as (Hc & Hp & Ht).
    cbv zeta in Hc, Hp, Ht.
    set (traded := if (0 <? length signals)%nat
                   then executeSignals now session signals marketData
                   else session).
    assert (Hc' : Session.cashBalance traded = Session.cashBalance session)
      by (subst traded; destruct (0 <? length signals)%nat; [exact Hc | reflexivity]).
    assert (Hp' : Session.positions traded = Session.positions session)
      by (subst traded; destruct (0 <? length signals)%nat; [exact Hp | reflexivity]).
    assert (Ht' : Session.transactions traded = Session.transactions session)
      by (subst traded; destruct (0 <? length signals)%nat; [exact Ht | reflexivity]).
    cbn [updatePositions updateMetrics Session.set_positions
         Session.set_currentCapital Session.set_metrics Session.set_lastUpdated
         Session.cashBalance Session.transactions Session.positions].
    rewrite Hc', Ht', Hp', !map_map.
    split; [reflexivity|]. split; [reflexivity|].
    split; [|split]; apply map_ext; intros p;
      destruct (md_price marketData _); reflexivity.
Qed.

End Pipeline.

(** A run of {!signals_come_from_action_blocks}: a cycle of the session that
    only sets stops leaves its cash as it is. *)
Lemma signals_come_from_action_blocks_witness :
  Session.cashBalance (@runCycle noBuiltins (spyAt 120) 5%Z guarded) = 9000.
Proof.
  refine (proj1 (proj2 (@signals_come_from_action_blocks noBuiltins (spyAt 120) 5%Z)
                   guarded _)).
  intros block Hin Ht. cbn in Hin.
  destruct Hin as [<-|[<-|[]]]; [discriminate Ht | split; discriminate].
Defined.

(** ** Crossover conditions on typed sources *)

Section Crossover.
Context {E : Engine}.

Lemma indicator_source_lookup source marketData indicators :
  getSourceValue (Some "indicator") source marketData indicators
  = Ok match indicators !! ToPropertyKey source with
       | Some r => IndicatorResult.value r
       | None => JUndefined
       end
  /\ getPreviousSourceValue (Some "indicator") source marketData indicators
     = Ok match indicators !! ToPropertyKey source with
          | Some r =>
              match IndicatorResult.history r with
              | IndicatorResult.Series h =>
                  match from_end h 2 with
                  | Some v => JNumber v
                  | None => JUndefined
                  end
              | IndicatorResult.Lines _ => IndicatorResult.value r
              end
          | None => JUndefined
          end.
Proof.
  unfold getSourceValue, getPreviousSourceValue.
  destruct (indicators !! ToPropertyKey source) as [r|]; [|split; reflexivity].
  split; [reflexivity|].
  destruct (IndicatorResult.history r) as [h|l]; [|reflexivity].
  destruct (Nat.ltb_spec (length h) 2) as [Hlt|Hge].
  - rewrite from_end_none by exact Hlt. reflexivity.
  - destruct (from_end h 2); reflexivity.
Qed.

Lemma price_source_lookup symbol field marketData indicators :
  dotless symbol = true -> dotless field = true ->
  let source := JString (symbol +:+ "." +:+ field) in
  let history :=
    match md_get marketData symbol with
    | Some d => default [] (PriceData.history d)
    | None => []
    end in
  getSourceValue (Some "price") source marketData indicators
  = Ok match from_end history 1 with
       | Some latestCandle => candle_get latestCandle (Some field)
       | None => JUndefined
       end
  /\ getPreviousSourceValue (Some "price") source marketData indicators
     = Ok match from_end history 2 with
          | Some previousCandle => candle_get previousCandle (Some field)
          | None => JUndefined
          end.
Proof.
  intros Hs Hf source history. subst source history.
  unfold getSourceValue, getPreviousSourceValue.
  rewrite (split_dot_pair _ _ Hs Hf). cbn [nth_error]. unfold md_get_opt.
  change (default "undefined" (Some symbol)) with symbol.
  destruct (md_get marketData symbol) as [d|]; [|split; reflexivity].
  destruct (PriceData.history d) as [h|]; [|split; reflexivity].
  change (default [] (Some h)) with h. split.
  - destruct (from_end h 1); reflexivity.
  - destruct (Nat.ltb_spec (length h) 2) as [Hlt|Hge].
    + rewrite from_end_none by exact Hlt. reflexivity.
    + destruct (from_end h 2); reflexivity.
Qed.

Lemma string_price_source_resolves s marketData indicators :
  (exists cur, getSourceValue (Some "price") (JString s) marketData indicators = Ok cur)
  /\ (exists prev,
         getPreviousSourceValue (Some "price") (JString s) marketData indicators
         = Ok prev).
Proof.
  unfold getSourceValue, getPreviousSourceValue.
  destruct (md_get_opt marketData (nth_error (split_dot s) 0)) as [d|];
    [|split; eexists; reflexivity].
  destruct (PriceData.history d) as [h|]; [|split; eexists; reflexivity].
  split.
  - destruct (from_end h 1); eexists; reflexivity.
  - destruct (length h <? 2)%nat; [eexists; reflexivity|].
    destruct (from_end h 2); eexists; reflexivity.
Qed.

Lemma other_source_lookup sourceType source marketData indicators :
  sourceType <> Some "indicator" -> sourceType <> Some "price" ->
  sourceType <> Some "value" ->
  getSourceValue sourceType source marketData indicators = Ok JUndefined
  /\ getPreviousSourceValue sourceType source marketData indicators = Ok JUndefined.
Proof.
  intros N1 N2 N3. unfold getSourceValue, getPreviousSourceValue.
  destruct sourceType as [t|]; [|split; reflexivity].
  assert (M1 : t <> "indicator") by congruence.
  assert (M2 : t <> "price") by congruence.
  assert (M3 : t <> "value") by congruence.
  clear N1 N2 N3.
  apply String.eqb_neq in M1, M2, M3.
  destruct t as [|c t]; [split; reflexivity|].
  split;
    repeat match goal with
           | |- context [match ?o with _ => _ end] => destruct o; try reflexivity
           end; simpl in *; congruence.
Qed.

(** A typed source resolves, now and one step back. *)
Lemma typed_source_resolves sourceType source marketData indicators :
  typed_source sourceType source ->
  exists cur prev,
    getSourceValue sourceType source marketData indicators = Ok cur
    /\ getPreviousSourceValue sourceType source marketData indicators = Ok prev.
Proof.
  intros Hty.
  destruct (decide (sourceType = Some "indicator")) as [->|N1].
  { destruct (indicator_source_lookup source marketData indicators) as [Hc Hp].
    eexists. eexists. split; [exact Hc | exact Hp]. }
  destruct (decide (sourceType = Some "price")) as [->|N2].
  { destruct (Hty eq_refl) as [s ->].
    destruct (string_price_source_resolves s marketData indicators)
      as [[cur Hc] [prev Hp]].
    exists cur, prev. split; assumption. }
  destruct (decide (sourceType = Some "value")) as [->|N3].
  { eexists. eexists. split; reflexivity. }
  destruct (other_source_lookup sourceType source marketData indicators N1 N2 N3)
    as [Hc Hp].
  eexists. eexists. split; [exact Hc | exact Hp].
Qed.

End Crossover.

(** The claim of C8 fails on the code: the first source is an indicator
    that was not computed, so its current value is unavailable, and the
    second source is of type 'price' but holds a number; resolving it calls
    [split] on the number, and the condition raises a TypeError instead of
    being false. *)
Lemma crossover_throws_on_untyped_price_source :
  @getSourceValue noBuiltins (Settings.source1Type untypedPriceSource)
    (Settings.source1 untypedPriceSource) crossingMarket ∅ = Ok JUndefined
  /\ @evaluateCrossover noBuiltins untypedPriceSource crossingMarket ∅
     = Throw TypeError
  /\ @evaluateCrossover noBuiltins untypedPriceSource crossingMarket ∅ <> Ok false
  /\ (forall block,
         Block.subtype block = "crossover" ->
         Block.settings block = untypedPriceSource ->
         @evaluateCondition noBuiltins block crossingMarket ∅ = Throw TypeError).
Proof.
  split; [reflexivity|]. split; [reflexivity|]. split; [discriminate|].
  intros block Hsub Hset. unfold evaluateCondition. rewrite Hsub, Hset. reflexivity.
Qed.

(** C8 (amended). For a crossover condition whose sources of type 'price'
    are strings, the four values always resolve, so no error is raised.  An
    indicator source reads the [value] of the computed indicator and, one
    step back, the second-to-last entry of its history (its [value] again
    when the history is an object of lines); it is unavailable when the
    indicator was not computed, and its previous value also when the
    history has fewer than two entries.  A price source 'symbol.field' reads
    the field of the last and of the second-to-last candle, a value source
    is its number both times, and any other source type is unavailable.  If
    one of the four values is unavailable the condition is false; otherwise
    direction 'above' tests prev1 <= prev2 and cur1 > cur2, 'below' tests
    prev1 >= prev2 and cur1 < cur2, 'any' tests either, and on numbers these
    comparisons are the order of the rationals.  With source 1 going from 9
    to 10 while source 2 goes from 10 to 9, as prices or as indicators, the
    condition holds for 'above' and fails for 'below'. *)
Theorem evaluateCrossover_semantics :
  (forall (E : Engine) settings marketData indicators,
      typed_source (Settings.source1Type settings) (Settings.source1 settings) ->
      typed_source (Settings.source2Type settings) (Settings.source2 settings) ->
      exists v1 v2 p1 p2,
        getSourceValue (Settings.source1Type settings) (Settings.source1 settings)
          marketData indicators = Ok v1
        /\ getSourceValue (Settings.source2Type settings) (Settings.source2 settings)
             marketData indicators = Ok v2
        /\ getPreviousSourceValue (Settings.source1Type settings)
             (Settings.source1 settings) marketData indicators = Ok p1
        /\ getPreviousSourceValue (Settings.source2Type settings)
             (Settings.source2 settings) marketData indicators = Ok p2
        /\ (exists b, evaluateCrossover settings marketData indicators = Ok b)
        /\ ((v1 = JUndefined \/ v2 = JUndefined \/ p1 = JUndefined \/ p2 = JUndefined) ->
            evaluateCrossover settings marketData indicators = Ok false)
        /\ (v1 <> JUndefined -> v2 <> JUndefined ->
            p1 <> JUndefined -> p2 <> JUndefined ->
            (Settings.direction settings = Some "above" ->
             evaluateCrossover settings marketData indicators
             = Ok (js_le p1 p2 && js_gt v1 v2))
            /\ (Settings.direction settings = Some "below" ->
                evaluateCrossover settings marketData indicators
                = Ok (js_ge p1 p2 && js_lt v1 v2))
            /\ (Settings.direction settings = Some "any" ->
                evaluateCrossover settings marketData indicators
                = Ok ((js_le p1 p2 && js_gt v1 v2)
                      || (js_ge p1 p2 && js_lt v1 v2)))))
  /\ (forall (E : Engine) source marketData indicators,
        (indicators !! ToPropertyKey source = None ->
         getSourceValue (Some "indicator") source marketData indicators
         = Ok JUndefined
         /\ getPreviousSourceValue (Some "indicator") source marketData indicators
            = Ok JUndefined)
        /\ (forall r,
              indicators !! ToPropertyKey source = Some r ->
              getSourceValue (Some "indicator") source marketData indicators
              = Ok (IndicatorResult.value r)
              /\ (forall h,
                    IndicatorResult.history r = IndicatorResult.Series h ->
                    ((length h < 2)%nat ->
                     getPreviousSourceValue (Some "indicator") source marketData
                       indicators = Ok JUndefined)
                    /\ (forall v,
                          from_end h 2 = Some v ->
                          getPreviousSourceValue (Some "indicator") source marketData
                            indicators = Ok (JNumber v)))
              /\ (forall l,
                    IndicatorResult.history r = IndicatorResult.Lines l ->
                    getPreviousSourceValue (Some "indicator") source marketData
                      indicators = Ok (IndicatorResult.value r))))
  /\ (forall (E : Engine) symbol field marketData indicators,
        dotless symbol = true -> dotless field = true ->
        let source := JString (symbol +:+ "." +:+ field) in
        (md_get marketData symbol = None ->
         getSourceValue (Some "price") source marketData indicators = Ok JUndefined
         /\ getPreviousSourceValue (Some "price") source marketData indicators
            = Ok JUndefined)
        /\ (forall d h,
              md_get marketData symbol = Some d ->
              PriceData.history d = Some h ->
              (forall latestCandle,
                  from_end h 1 = Some latestCandle ->
                  getSourceValue (Some "price") source marketData indicators
                  = Ok (candle_get latestCandle (Some field)))
              /\ (forall previousCandle,
                    from_end h 2 = Some previousCandle ->
                    getPreviousSourceValue (Some "price") source marketData indicators
                    = Ok (candle_get previousCandle (Some field)))
              /\ ((length h < 2)%nat ->
                  getPreviousSourceValue (Some "price") source marketData indicators
                  = Ok JUndefined)))
  /\ (forall (E : Engine) sourceType source marketData indicators,
        (sourceType = Some "value" ->
         getSourceValue sourceType source marketData indicators
         = Ok (parseFloat source)
         /\ getPreviousSourceValue sourceType source marketData indicators
            = Ok (parseFloat source))
        /\ (sourceType <> Some "indicator" -> sourceType <> Some "price" ->
            sourceType <> Some "value" ->
            getSourceValue sourceType source marketData indicators = Ok JUndefined
            /\ getPreviousSourceValue sourceType source marketData indicators
               = Ok JUndefined))
  /\ (forall (E : Engine) (cur1 cur2 prev1 prev2 : Q),
        (js_le (JNumber prev1) (JNumber prev2) && js_gt (JNumber cur1) (JNumber cur2)
         = true <-> prev1 <= prev2 /\ cur2 < cur1)
        /\ (js_ge (JNumber prev1) (JNumber prev2) && js_lt (JNumber cur1) (JNumber cur2)
            = true <-> prev2 <= prev1 /\ cur1 < cur2))
  /\ (forall (E : Engine),
        getSourceValue (Some "price") (JString "SPY.close") crossingMarket ∅
        = Ok (JNumber 10)
        /\ getPreviousSourceValue (Some "price") (JString "SPY.close") crossingMarket ∅
           = Ok (JNumber 9)
        /\ getSourceValue (Some "price") (JString "SPY.open") crossingMarket ∅
           = Ok (JNumber 9)
        /\ getPreviousSourceValue (Some "price") (JString "SPY.open") crossingMarket ∅
           = Ok (JNumber 10)
        /\ evaluateCrossover (closeOverOpen "above") crossingMarket ∅ = Ok true
        /\ evaluateCrossover (closeOverOpen "below") crossingMarket ∅ = Ok false
        /\ getSourceValue (Some "indicator") (JString "fast") [] crossingIndicators
           = Ok (JNumber 10)
        /\ getPreviousSourceValue (Some "indicator") (JString "fast") []
             crossingIndicators = Ok (JNumber 9)
        /\ getSourceValue (Some "indicator") (JString "slow") [] crossingIndicators
           = Ok (JNumber 9)
        /\ getPreviousSourceValue (Some "indicator") (JString "slow") []
             crossingIndicators = Ok (JNumber 10)
        /\ evaluateCrossover (fastOverSlow "above") [] crossingIndicators = Ok true
        /\ evaluateCrossover (fastOverSlow "below") [] crossingIndicators = Ok false).
Proof.
  split; [|split; [|split; [|split; [|split]]]].
  - intros E settings marketData indicators Ht1 Ht2.
    destruct (typed_source_resolves _ _ marketData indicators Ht1)
      as (v1 & p1 & H1 & H3).
    destruct (typed_source_resolves _ _ marketData indicators Ht2)
      as (v2 & p2 & H2 & H4).
    exists v1, v2, p1, p2. do 4 (split; [assumption|]).
    rewrite (evaluateCrossover_resolved _ _ _ _ _ _ _ H1 H2 H3 H4).
    split; [|split].
    + destruct (is_undefined v1 || is_undefined v2 || is_undefined p1
                || is_undefined p2); [eexists; reflexivity|].
      destruct (Settings.direction settings) as [d|]; [|eexists; reflexivity].
      destruct d as [|c d]; [eexists; reflexivity|].
      repeat match goal with
             | |- context [match ?o with _ => _ end] =>
                 destruct o; try (eexists; reflexivity)
             end.
    + intros Hu.
      assert (Hb : is_undefined v1 || is_undefined v2 || is_undefined p1
                   || is_undefined p2 = true).
      { rewrite !orb_true_iff, !is_undefined_true. tauto. }
      rewrite Hb. reflexivity.
    + intros N1 N2 N3 N4.
      apply is_undefined_false in N1, N2, N3, N4.
      rewrite N1, N2, N3, N4. cbn [orb].
      repeat split; intros ->; reflexivity.
  - intros E source marketData indicators.
    destruct (indicator_source_lookup source marketData indicators) as [Hc Hp].
    rewrite Hc, Hp. split.
    + intros ->. split; reflexivity.
    + intros r ->. split; [reflexivity|]. split.
      * intros h ->. split.
        -- intros Hlt. rewrite from_end_none by exact Hlt. reflexivity.
        -- intros v ->. reflexivity.
      * intros l ->. reflexivity.
  - intros E symbol field marketData indicators Hs Hf source.
    destruct (price_source_lookup symbol field marketData indicators Hs Hf)
      as [Hc Hp].
    cbv zeta in Hc, Hp. subst source. rewrite Hc, Hp. split.
    + intros ->. split; reflexivity.
    + intros d h -> ->. change (default [] (Some h)) with h. split; [|split].
      * intros latestCandle ->. reflexivity.
      * intros previousCandle ->. reflexivity.
      * intros Hlt. rewrite from_end_none by exact Hlt. reflexivity.
  - intros E sourceType source marketData indicators. split.
    + intros ->. split; reflexivity.
    + apply other_source_lookup.
  - intros E cur1 cur2 prev1 prev2. unfold js_ge, js_gt, js_le, js_lt.
    cbn [ToPrimitive ToNumber].
    rewrite !andb_true_iff, !Num_le_iff, !Num_lt_iff. tauto.
  - intros E. repeat split; reflexivity.
Qed.

(** A run of {!evaluateCrossover_semantics}: the crossover of the close of
    SPY over its open resolves and is decided. *)
Lemma evaluateCrossover_semantics_witness :
  exists b,
    @evaluateCrossover noBuiltins (closeOverOpen "above") crossingMarket ∅ = Ok b.
Proof.
  destruct (proj1 evaluateCrossover_semantics noBuiltins (closeOverOpen "above")
              crossingMarket ∅
              (fun _ => ex_intro _ "SPY.close" eq_refl)
              (fun _ => ex_intro _ "SPY.open" eq_refl))
    as (v1 & v2 & p1 & p2 & _ & _ & _ & _ & Hb & _).
  exact Hb.
Defined.

(** ** Built-in behaviour the embedding relies on *)

(** [parseInt] of a number goes through the number's string: the digits
    before the decimal point in decimal notation, the first significant
    digit once the string has an exponent. *)
Lemma parseInt_reads_the_string :
  Num.parseInt (1237 # 10) = 123
  /\ Num.parseInt (-37 # 10) = -3
  /\ Num.parseInt (1 # 1000000) = 0
  /\ Num.parseInt (5 # 10000000) = 5
  /\ Num.parseInt (inject_Z (10 ^ 21 - 1)) = inject_Z (10 ^ 21 - 1)
  /\ Num.parseInt (inject_Z (10 ^ 21)) = 1
  /\ Num.parseInt (inject_Z (15 * 10 ^ 20)) = 1.
Proof. repeat split; vm_compute; reflexivity. Qed.

(** Assignment to a key the object has keeps the order of the keys. *)
Lemma md_set_existing_key md symbol d :
  md_get md symbol <> None -> map fst (md_set md symbol d) = map fst md.
Proof.
  intros Hget. unfold md_set. destruct (md_get md symbol); [|congruence].
  clear Hget. induction md as [|[k v] rest IH]; simpl; [reflexivity|].
  destruct (String.eqb k symbol); simpl; [reflexivity | f_equal; exact IH].
Qed.

(** A new key that is not an array index is enumerated last. *)
Lemma md_set_new_name md symbol d :
  md_get md symbol = None -> array_index symbol = None ->
  map fst (md_set md symbol d) = map fst md ++ [symbol].
Proof.
  intros Hget Hname. unfold md_set. rewrite Hget. clear Hget.
  induction md as [|[k v] rest IH]; simpl; [reflexivity|].
  unfold enumerated_before. rewrite Hname. simpl. f_equal. exact IH.
Qed.

(** A new key that is an array index is enumerated before the names. *)
Lemma md_set_new_index :
  map fst (md_set (md_set (spyAt 100) "AAPL" (quotedAt 100)) "600519" (quotedAt 100))
  = ["600519"; "SPY"; "AAPL"].
Proof. vm_compute. reflexivity. Qed.
